(** * Allen mouse atlas builder: a shallow embedding of
    [mouse/build_allen_mouse_atlas.py] and the properties of its four stages
    (ontology loader, hierarchy linker, mesh discovery, graph builder).

    Python values are embedded as a small universe [pyval]; dictionaries are
    insertion-ordered association lists with unique keys, as Python's [dict]
    iterates in insertion order; exceptions are the [Raise] branch of
    [result]. *)

From Stdlib Require Import ZArith List String Ascii Lia Permutation.
From stdpp Require Import base tactics option list strings pretty.

Open Scope Z_scope.
Open Scope string_scope.
Open Scope list_scope.

(** ** Python values and exceptions *)

#[warnings="-register-all"]
Inductive pyval : Type :=
| VStr (s : string)
| VInt (z : Z)
| VList (l : list pyval)
| VDict (d : list (string * pyval)).

Inductive py_error : Type :=
| KeyError (k : pyval)
| TypeError
| AttributeError
| ValueError
| StopIteration.

Inductive result (A : Type) : Type :=
| Ok (a : A)
| Raise (e : py_error).
Arguments Ok {A} a.
Arguments Raise {A} e.

Global Instance result_ret : MRet result := @Ok.
Global Instance result_bind : MBind result := λ A B f m,
  match m with Ok a => f a | Raise e => Raise e end.

(** A [for] loop whose body may raise: the state is threaded left to right. *)
Fixpoint for_each {S B : Type} (l : list B) (s : S) (body : S → B → result S)
  : result S :=
  match l with
  | [] => Ok s
  | x :: l' => s' ← body s x; for_each l' s' body
  end.

(** A list comprehension whose element expression may raise. *)
Fixpoint list_comp {A B : Type} (f : A → result B) (l : list A)
  : result (list B) :=
  match l with
  | [] => Ok []
  | x :: l' => y ← f x; ys ← list_comp f l'; Ok (y :: ys)
  end.

(** ** Insertion-ordered dictionaries *)

Class PyKey (K : Type) := py_key : K → pyval.
Global Instance PyKey_string : PyKey string := VStr.
Global Instance PyKey_Z : PyKey Z := VInt.

Section odict.
Context {K V : Type} `{EqDecision K} `{PyKey K}.

Fixpoint dict_find (k : K) (d : list (K * V)) : option V :=
  match d with
  | [] => None
  | (k', v) :: d' => if decide (k = k') then Some v else dict_find k d'
  end.

(** [d[k]] *)
Definition dict_get (k : K) (d : list (K * V)) : result V :=
  match dict_find k d with
  | Some v => Ok v
  | None => Raise (KeyError (py_key k))
  end.

(** [k in d] *)
Definition dict_mem (k : K) (d : list (K * V)) : bool :=
  match dict_find k d with Some _ => true | None => false end.

(** [d[k] = v]: an existing key keeps its position, a new key goes last. *)
Fixpoint dict_set (k : K) (v : V) (d : list (K * V)) : list (K * V) :=
  match d with
  | [] => [(k, v)]
  | (k', v') :: d' =>
      if decide (k = k') then (k', v) :: d' else (k', v') :: dict_set k v d'
  end.

Definition dict_keys (d : list (K * V)) : list K := map fst d.
Definition dict_values (d : list (K * V)) : list V := map snd d.

(** Python dictionaries never hold a key twice. *)
Definition dict_ok (d : list (K * V)) : Prop := NoDup (dict_keys d).
End odict.

Abbreviation odict K V := (list (K * V)).

(** A graph node, and an ontology entry, is a dictionary with string keys. *)
Abbreviation node := (list (string * pyval)).

(** Truth value of an object, as tested by [if x:]. *)
Definition py_truthy (v : pyval) : bool :=
  match v with
  | VStr "" => false
  | VInt 0 => false
  | VList [] => false
  | VDict [] => false
  | _ => true
  end.

(** [v == s] for a string literal [s]. *)
Definition py_eq_str (v : pyval) (s : string) : bool :=
  match v with
  | VStr s' => bool_decide (s' = s)
  | _ => false
  end.

(** [isinstance(v, str)] *)
Definition py_is_str (v : pyval) : bool :=
  match v with VStr _ => true | _ => false end.

(** Strings and integers are hashable, lists and dictionaries are not. *)
Definition py_hashable (v : pyval) : bool :=
  match v with VStr _ | VInt _ => true | _ => false end.

(** Equality of two hashable values, as a set or a dictionary compares
    its keys. *)
Definition py_key_eqb (a b : pyval) : bool :=
  match a, b with
  | VStr s, VStr t => bool_decide (s = t)
  | VInt x, VInt y => bool_decide (x = y)
  | _, _ => false
  end.

(** ** Module constants *)

Definition FormatVersion : string := "0.9".
Definition AllenDownloadBaseURL : string :=
  "http://download.alleninstitute.org/informatics-archive/current-release/mouse_ccf/".
Definition MouseCCFAverageTemplateBaseURL : string :=
  AllenDownloadBaseURL +:+ "average_template/".
Definition MouseCCFAraNisslURL : string := AllenDownloadBaseURL +:+ "ara_nissl/".
Definition MouseCCFDownloadBaseURL : string :=
  AllenDownloadBaseURL +:+ "annotation/ccf_2017/".
Definition MouseCCFMeshBaseURL : string :=
  MouseCCFDownloadBaseURL +:+ "structure_meshes/".
Definition MouseCCFMaskBaseURL : string :=
  MouseCCFDownloadBaseURL +:+ "structure_masks/".

Definition resolutions : list Z := [10; 25; 50; 100].

(** ** Node constructors *)

(** [[n['@id'] for n in nodes]] *)
Definition ids_of (nodes : list node) : result (list pyval) :=
  list_comp (dict_get "@id") nodes.

Definition Header (id_ : string) (roots : list node)
    (backgroundImages : option (list node)) (annotation : option pyval)
  : result node :=
  root ← ids_of roots;
  let ret := [("@id", VStr id_); ("@type", VStr "Header");
              ("root", VList root); ("formatVersion", VStr FormatVersion)] in
  ret ← match backgroundImages with
        | Some (i :: imgs) =>
            bg ← ids_of (i :: imgs);
            Ok (dict_set "backgroundImage" (VList bg) ret)
        | _ => Ok ret
        end;
  match annotation with
  | Some a => if py_truthy a then Ok (dict_set "annotation" a ret) else Ok ret
  | None => Ok ret
  end.

Definition BaseURL (id_ url : string) : node :=
  [("@id", VStr id_); ("@type", VStr "BaseURL"); ("url", VStr url)].

Definition DataSource (id_ : string) (baseURL : node) (mimeType source : string)
    (annotation : option pyval) (extra_types : option (list string))
  : result node :=
  let type_ := match extra_types with
               | Some (t :: ts) => VList (VStr "DataSource" :: map VStr (t :: ts))
               | _ => VStr "DataSource"
               end in
  base_id ← dict_get "@id" baseURL;
  let ret := [("@id", VStr id_); ("@type", type_); ("baseURL", base_id);
              ("mimeType", VStr mimeType); ("source", VStr source)] in
  match annotation with
  | Some a => if py_truthy a then Ok (dict_set "annotation" a ret) else Ok ret
  | None => Ok ret
  end.

Definition Structure (id_ : string) (structure_id : Z) (color : string)
    (mesh_ds : node) (label_ds : list node) (is_group : bool)
    (annotation : option pyval) : result node :=
  mesh_id ← dict_get "@id" mesh_ds;
  dataSource ← for_each label_ds [mesh_id]
                  (λ acc ds, i ← dict_get "@id" ds; Ok (acc ++ [i]));
  let shape := [("@type", VStr "Shape"); ("dataSource", VList dataSource)] in
  let ret := [("@id", VStr id_);
              ("@type", if is_group then VList [VStr "Structure"; VStr "Group"]
                        else VStr "Structure");
              ("style", VDict [("color", VStr color)]);
              ("shape", VDict shape)] in
  match annotation with
  | Some a => if py_truthy a then Ok (dict_set "annotation" a ret) else Ok ret
  | None => Ok ret
  end.

Definition Group (id_ : string) (children : list node) (color : string)
    (annotation : pyval) : result node :=
  members ← ids_of children;
  Ok [("@id", VStr id_); ("@type", VStr "Group"); ("annotation", annotation);
      ("style", VDict [("color", VStr color)]); ("members", VList members)].

(** ** The graph builder *)

Section builder.
(** [repr] of a list or a dictionary, which [str.format] falls back to for
    containers; the builder only ever concatenates its result. *)
Variable py_repr : pyval → string.

(** ["{}".format(v)] *)
Definition py_format (v : pyval) : string :=
  match v with
  | VStr s => s
  | VInt z => pretty z
  | _ => py_repr v
  end.

Definition resolution_annotation (r : Z) : pyval :=
  VDict [("spatialResolutionMicrons", VInt r)].

Definition build_atlas (ontology : odict Z node) (mesh_ids : list Z)
  : result (list node) :=
  let result_nodes : list node := [] in
  let mesh_base := BaseURL "#mesh_base_url" MouseCCFMeshBaseURL in
  let mask_base := BaseURL "#mask_base_url" MouseCCFMaskBaseURL in
  let download_base := BaseURL "#mesh_download_url" MouseCCFDownloadBaseURL in
  let average_template_base :=
    BaseURL "#average_template_base_url" MouseCCFAverageTemplateBaseURL in
  let ara_nissl_base := BaseURL "#ara_nissl_base_url" MouseCCFAraNisslURL in
  let result_nodes :=
    result_nodes ++ [mesh_base; mask_base; download_base;
                     average_template_base; ara_nissl_base] in
  (* meshes *)
  mesh_data_sources ← for_each mesh_ids ([] : odict Z node)
    (λ mesh_data_sources mid,
       ds ← DataSource ("#mesh_ds_" +:+ pretty mid) mesh_base "text/plain"
              (pretty mid +:+ ".obj") None
              (Some ["GeometryDataSource"; "TriangleMeshDataSource"]);
       Ok (dict_set mid ds mesh_data_sources));
  let result_nodes := result_nodes ++ dict_values mesh_data_sources in
  (* voxel masks *)
  label_data_sources ← for_each mesh_ids ([] : odict Z (odict Z node))
    (λ label_data_sources mid,
       let label_data_sources := dict_set mid [] label_data_sources in
       for_each resolutions label_data_sources
         (λ label_data_sources r,
            ds ← DataSource ("#mask_ds_" +:+ pretty r +:+ "_" +:+ pretty mid)
                   download_base "application/octet-stream"
                   ("structure_masks_" +:+ pretty r +:+ "/structure_"
                      +:+ pretty mid +:+ ".nrrd")
                   (Some (resolution_annotation r))
                   (Some ["ImageDataSource"; "VoxelMaskDataSource"]);
            inner ← dict_get mid label_data_sources;
            Ok (dict_set mid (dict_set r ds inner) label_data_sources)));
  let result_nodes :=
    result_nodes ++ concat (map dict_values (dict_values label_data_sources)) in
  (* structures *)
  structures ← for_each mesh_ids ([] : odict Z node)
    (λ structures mid,
       ontology_entry ← dict_get mid ontology;
       color_hex_triplet ← dict_get "color_hex_triplet" ontology_entry;
       let color := "#" +:+ py_format color_hex_triplet in
       mesh_ds ← dict_get mid mesh_data_sources;
       label_ds ← dict_get mid label_data_sources;
       name ← dict_get "safe_name" ontology_entry;
       acronym ← dict_get "acronym" ontology_entry;
       allenAtlasId ← dict_get "id" ontology_entry;
       s ← Structure ("#structure_" +:+ pretty mid) mid color mesh_ds
             (dict_values label_ds) false
             (Some (VDict [("name", name); ("acronym", acronym);
                           ("allenAtlasId", allenAtlasId)]));
       Ok (dict_set mid s structures));
  let result_nodes := result_nodes ++ dict_values structures in
  (* the group pass is switched off in the source ([if False:]) *)
  (* average templates *)
  average_templates ← for_each resolutions ([] : odict Z node)
    (λ average_templates r,
       ds ← DataSource ("#average_template_ds_" +:+ pretty r)
              average_template_base "application/octet-stream"
              ("average_template_" +:+ pretty r +:+ ".nrrd")
              (Some (resolution_annotation r))
              (Some ["ImageDataSource"; "AverageTemplateDataSource"]);
       Ok (dict_set r ds average_templates));
  let result_nodes := result_nodes ++ dict_values average_templates in
  ara_nissl ← for_each resolutions ([] : odict Z node)
    (λ ara_nissl r,
       ds ← DataSource ("#ara_nissl_ds_" +:+ pretty r)
              ara_nissl_base "application/octet-stream"
              ("ara_nissl_" +:+ pretty r +:+ ".nrrd")
              (Some (resolution_annotation r))
              (Some ["ImageDataSource"; "AraNisslDataSource"]);
       Ok (dict_set r ds ara_nissl));
  let result_nodes := result_nodes ++ dict_values ara_nissl in
  root ← dict_get 997 structures;
  header ← Header "#__header__" [root] (Some (dict_values average_templates))
             (Some (VDict [("name", VStr "Allen Mouse CCF Atlas");
                           ("about", VList [
                              VStr "http://help.brain-map.org/display/mousebrain/";
                              VStr "http://help.brain-map.org/display/mousebrain/API";
                              VStr "http://portal.brain-map.org/"])]));
  Ok (header :: result_nodes).
End builder.

(** ** Text helpers

    The cells of the ontology table are modelled as 8-bit strings, whose
    characters are the code points below 256.  The lines of the directory
    listing are lists of code points: there a digit of any script counts. *)

(** The character classes of identifiers are the ASCII ones. *)
Definition is_digit (c : ascii) : bool :=
  let n := N_of_ascii c in ((48 <=? n) && (n <=? 57))%N.

Definition is_alpha (c : ascii) : bool :=
  let n := N_of_ascii c in
  (((65 <=? n) && (n <=? 90)) || ((97 <=? n) && (n <=? 122)))%N.

(** A text as the interpreter holds it: the list of its code points.  The
    lines of the directory listing are texts. *)
Abbreviation text := (list N).

(** The code points of an 8-bit string: its characters are the code points
    below 256. *)
Definition codes (s : string) : text :=
  map N_of_ascii (list_ascii_of_string s).

(** What [int] and the pattern [\d] take from the Unicode database of the
    interpreter, which grows from version to version: for a code point from
    256 on, its value if it is a decimal digit ([Py_UNICODE_TODECIMAL]), and
    whether it is white space ([Py_UNICODE_ISSPACE]).  Below 256 both are the
    same in every version and are written out. *)
Record unicode_db : Type := {
  db_decimal : N → option Z;
  db_space : N → bool
}.

(** The value of a decimal digit: below 256 these are [0] to [9] only. *)
Definition decimal_value (db : unicode_db) (c : N) : option Z :=
  if (c <? 256)%N
  then if ((48 <=? c) && (c <=? 57))%N then Some (Z.of_N c - 48) else None
  else db_decimal db c.

(** [\d], and the digits [int] reads *)
Definition is_decimal (db : unicode_db) (c : N) : bool :=
  match decimal_value db c with Some _ => true | None => false end.

(** The white space [int] strips: below 256 these are tab, newline, vertical
    tab, form feed, carriage return, space, next line (133) and no-break
    space (160). *)
Definition is_space (db : unicode_db) (c : N) : bool :=
  if (c <? 256)%N
  then (((9 <=? c) && (c <=? 13)) || (c =? 32) || (c =? 133) || (c =? 160))%N
  else db_space db c.

(** In every version of the database a decimal digit has a value from 0 to 9
    and is no white space. *)
Definition unicode_db_ok (db : unicode_db) : Prop :=
  ∀ c d, db_decimal db c = Some d → (0 ≤ d ≤ 9)%Z ∧ db_space db c = false.

(** A string holds no code point from 256 on, so for it nothing is looked up
    in the database. *)
Definition no_db : unicode_db :=
  {| db_decimal := λ _, None; db_space := λ _, false |}.

Fixpoint lstrip (db : unicode_db) (l : text) : text :=
  match l with
  | c :: l' => if is_space db c then lstrip db l' else l
  | [] => []
  end.

Definition strip (db : unicode_db) (l : text) : text :=
  rev (lstrip db (rev (lstrip db l))).

(** Digits of a decimal literal, where one underscore (95) may separate two
    digits; [prev_digit] tells whether the character before was a digit. *)
Fixpoint int_digits (db : unicode_db) (l : text) (acc : Z) (prev_digit : bool)
  : option Z :=
  match l with
  | [] => if prev_digit then Some acc else None
  | c :: l' =>
      match decimal_value db c with
      | Some d => int_digits db l' (10 * acc + d) true
      | None =>
          if ((c =? 95)%N && prev_digit)%bool then int_digits db l' acc false
          else None
      end
  end.

(** The most digits [int] converts: the default of CPython from 3.11 on
    ([sys.int_info.default_max_str_digits]); a literal with more digits is
    refused.  Underscores and the sign are not counted, leading zeros
    are. *)
Definition int_max_str_digits : N := 4300.

Definition digit_count (db : unicode_db) (l : text) : N :=
  N.of_nat (length (List.filter (is_decimal db) l)).

(** The literal after the sign. *)
Definition int_unsigned (db : unicode_db) (l : text) : option Z :=
  if (int_max_str_digits <? digit_count db l)%N then None
  else int_digits db l 0 false.

(** [int(x)] for a text [x]: surrounding white space is dropped, a sign
    ([-] is 45, [+] is 43) may come first, and the digits may be grouped by
    single underscores.  [None] stands for [ValueError]. *)
Definition text_int (db : unicode_db) (x : text) : option Z :=
  match strip db x with
  | c :: l =>
      if (c =? 45)%N then z ← int_unsigned db l; Some (- z)
      else if (c =? 43)%N then int_unsigned db l
      else int_unsigned db (c :: l)
  | [] => None
  end.

(** [int(x)] for a string [x]. *)
Definition py_int (x : string) : option Z := text_int no_db (codes x).

(** [.obj] *)
Definition dot_obj : text := codes ".obj".

(** [s.startswith(p)] *)
Fixpoint is_prefix (p s : text) : bool :=
  match p, s with
  | [], _ => true
  | a :: p', b :: s' => (a =? b)%N && is_prefix p' s'
  | _ :: _, [] => false
  end.

(** [sub in s] *)
Fixpoint text_contains (sub s : text) : bool :=
  is_prefix sub s ||
  match s with
  | [] => false
  | _ :: s' => text_contains sub s'
  end.

(** [s.replace(old, new)] for a non-empty [old]: occurrences are replaced from
    the left and do not overlap; [skip] counts the characters of an occurrence
    still to be dropped. *)
Fixpoint text_replace_go (old new : text) (skip : nat) (s : text) : text :=
  match s with
  | [] => []
  | c :: s' =>
      match skip with
      | S k => text_replace_go old new k s'
      | O =>
          if is_prefix old s
          then new ++ text_replace_go old new (length old - 1) s'
          else c :: text_replace_go old new 0 s'
      end
  end.

Definition text_replace (old new s : text) : text :=
  text_replace_go old new 0 s.

(** Longest run of digits at the head of [s], and what follows it. *)
Fixpoint span_digits (db : unicode_db) (s : text) : text * text :=
  match s with
  | c :: s' =>
      if is_decimal db c
      then let '(d, r) := span_digits db s' in (c :: d, r)
      else ([], s)
  | [] => ([], [])
  end.

(** The pattern [(\d+\.obj)] tried at the head of [s].  A shorter run of
    digits is followed by a digit, never by the dot, so only the longest run
    can match. *)
Definition re_match_obj (db : unicode_db) (s : text) : option text :=
  let '(d, r) := span_digits db s in
  if (negb (bool_decide (d = [])) && is_prefix dot_obj r)%bool
  then Some (d ++ dot_obj) else None.

(** [re.search(r'(\d+\.obj)', s)]: the match at the leftmost position that
    has one; the result is [m.group(1)]. *)
Fixpoint re_search_obj (db : unicode_db) (s : text) : option text :=
  match re_match_obj db s with
  | Some m => Some m
  | None =>
      match s with
      | _ :: s' => re_search_obj db s'
      | [] => None
      end
  end.

(** A Python [set] as the list of its elements in order of first insertion;
    [eqb] is the equality of the elements. *)
Definition set_add {A : Type} (eqb : A → A → bool) (x : A) (s : list A)
  : list A :=
  if existsb (eqb x) s then s else s ++ [x].

(** ** Ontology loader *)

Definition possibly_int (x : string) : pyval :=
  match py_int x with
  | Some z => VInt z
  | None => VStr x
  end.

Definition python_keywords : list string :=
  ["False"; "None"; "True"; "and"; "as"; "assert"; "async"; "await"; "break";
   "class"; "continue"; "def"; "del"; "elif"; "else"; "except"; "finally";
   "for"; "from"; "global"; "if"; "import"; "in"; "is"; "lambda"; "nonlocal";
   "not"; "or"; "pass"; "raise"; "return"; "try"; "while"; "with"; "yield"].

Definition is_identifier (s : string) : bool :=
  match s with
  | EmptyString => false
  | String c s' =>
      (is_alpha c || Ascii.eqb c "_") &&
      forallb (λ c, is_alpha c || is_digit c || Ascii.eqb c "_")
              (list_ascii_of_string s')
  end.

(** The checks [namedtuple] makes on its field names: each is an identifier
    and no keyword, none starts with an underscore, none occurs twice. *)
Definition namedtuple_fields_ok (names : list string) : bool :=
  forallb (λ n, is_identifier n
                && negb (bool_decide (n ∈ python_keywords))
                && negb (String.prefix "_" n)) names
  && bool_decide (NoDup names).

(** [csv_rows] is what [csv.reader] yields: the header row, then the data
    rows.  Opening the URL and splitting the text into cells are outside the
    model. *)
Definition get_allen_mouse_ontology (csv_rows : list (list string))
  : result (odict Z node) :=
  match csv_rows with
  | [] => Raise StopIteration
  | header :: rows =>
      if negb (namedtuple_fields_ok header) then Raise ValueError else
      for_each rows ([] : odict Z node)
        (λ results row,
           (* Data._make *)
           if negb (bool_decide (length row = length header))
           then Raise TypeError else
           let data := zip header row in
           let record := map (λ kv, (kv.1, possibly_int kv.2)) data in
           (* data.id *)
           match dict_find "id" data with
           | None => Raise AttributeError
           | Some id =>
               match py_int id with
               | None => Raise ValueError
               | Some key => Ok (dict_set key record results)
               end
           end)
  end.

(** ** Mesh discovery *)

Section mesh_discovery.
(** The Unicode database of the interpreter. *)
Variable db : unicode_db.
(** The order in which a [set] of strings is iterated: it depends on the
    hashes, so it is left open; [names_order_spec] says what is known of
    it. *)
Variable names_order : list text → list text.

(** [lines] is what iterating the directory listing yields. *)
Definition get_mesh_names (lines : list text) : list text :=
  let meshes :=
    fold_left
      (λ meshes line,
         if negb (text_contains dot_obj line) then meshes else
         match re_search_obj db line with
         | None => meshes
         | Some m => set_add (λ a b, bool_decide (a = b)) m meshes
         end)
      lines [] in
  names_order meshes.

Definition get_mesh_ids (lines : list text) : result (list Z) :=
  let mesh_names := get_mesh_names lines in
  list_comp
    (λ m, match text_int db (text_replace dot_obj [] m) with
          | Some z => Ok z
          | None => Raise ValueError
          end)
    mesh_names.
End mesh_discovery.

(** ** Hierarchy linker *)

(** Looking a value up as a key of the ontology, whose keys are integers:
    hashing a list or a dictionary fails, and no string is a key. *)
Definition ontology_lookup (k : pyval) (ontology : odict Z node)
  : result (Z * node) :=
  match k with
  | VInt z => e ← dict_get z ontology; Ok (z, e)
  | VStr _ => Raise (KeyError k)
  | _ => Raise TypeError
  end.

(** One turn of the loop of [find_children], at the entry stored under
    [key].  The entries are shared objects: what the loop reads is the
    entry as the earlier turns left it. *)
Definition find_children_step (ontology : odict Z node) (key : Z)
  : result (odict Z node) :=
  entry ← dict_get key ontology;
  parent_id ← dict_get "parent_structure_id" entry;
  if py_eq_str parent_id "" then Ok ontology else
  '(pkey, parent) ← ontology_lookup parent_id ontology;
  let '(child_id_list, parent) :=
    match dict_find "child_structure_ids" parent with
    | Some l => (l, parent)
    | None => (VList [], dict_set "child_structure_ids" (VList []) parent)
    end in
  (* the entry and its parent may be the same object, which by now holds
     the list *)
  let entry := if decide (pkey = key) then parent else entry in
  match child_id_list with
  | VList l =>
      (* [append] is looked up on the list before [entry['id']] is read *)
      id ← dict_get "id" entry;
      Ok (dict_set pkey
            (dict_set "child_structure_ids" (VList (l ++ [id])) parent)
            ontology)
  | _ => Raise AttributeError
  end.

Definition find_children (ontology : odict Z node) : result (odict Z node) :=
  for_each (dict_keys ontology) ontology find_children_step.

(** ** Group membership and the type-tag merge *)

(** The elements [iter(v)] yields. *)
Definition py_iter (v : pyval) : result (list pyval) :=
  match v with
  | VList l => Ok l
  | VStr s => Ok (map (λ c, VStr (String c EmptyString)) (list_ascii_of_string s))
  | VDict d => Ok (map (λ kv, VStr kv.1) d)
  | VInt _ => Raise TypeError
  end.

(** [s.add(x)] *)
Definition py_set_add (x : pyval) (s : list pyval) : result (list pyval) :=
  if py_hashable x then Ok (set_add py_key_eqb x s) else Raise TypeError.

(** [set(v)] *)
Definition py_set (v : pyval) : result (list pyval) :=
  items ← py_iter v;
  for_each items [] (λ s x, py_set_add x s).

Section groups.
(** The order in which [list(s)] lists a set. *)
Variable set_order : list pyval → list pyval.

Definition add_members_to_group (s m : node) : result node :=
  s ← (if dict_mem "members" s then
         members ← dict_get "members" s;
         v ← py_set members;
         m_id ← dict_get "@id" m;
         v ← py_set_add m_id v;
         Ok (dict_set "members" (VList (set_order v)) s)
       else
         m_id ← dict_get "@id" m;
         Ok (dict_set "members" (VList [m_id]) s));
  if negb (dict_mem "@type" s) then Ok (dict_set "@type" (VStr "Group") s)
  else
    s_type ← dict_get "@type" s;
    if py_eq_str s_type "Group" then Ok s else
    if py_is_str s_type
    then Ok (dict_set "@type" (VList [s_type; VStr "Group"]) s)
    else
      s_type ← py_set s_type;
      if existsb (py_key_eqb (VStr "Group")) s_type then Ok s else
      let s_type := set_add py_key_eqb (VStr "Group") s_type in
      Ok (dict_set "@type" (VList (set_order s_type)) s).
End groups.

(** ** The node identifier scheme and the nodes in closed form

    What follows names the nodes the builder makes, so that the theorems can
    say which they are. *)

Inductive id_key : Type :=
| KHeader
| KMeshBase | KMaskBase | KDownloadBase | KAverageTemplateBase | KAraNisslBase
| KMesh (mid : Z)
| KMask (r mid : Z)
| KStructure (mid : Z)
| KAverageTemplate (r : Z)
| KAraNissl (r : Z).

Definition id_string (k : id_key) : string :=
  match k with
  | KHeader => "#__header__"
  | KMeshBase => "#mesh_base_url"
  | KMaskBase => "#mask_base_url"
  | KDownloadBase => "#mesh_download_url"
  | KAverageTemplateBase => "#average_template_base_url"
  | KAraNisslBase => "#ara_nissl_base_url"
  | KMesh mid => "#mesh_ds_" +:+ pretty mid
  | KMask r mid => "#mask_ds_" +:+ pretty r +:+ "_" +:+ pretty mid
  | KStructure mid => "#structure_" +:+ pretty mid
  | KAverageTemplate r => "#average_template_ds_" +:+ pretty r
  | KAraNissl r => "#ara_nissl_ds_" +:+ pretty r
  end.

(** The resolution of a key, where it has one, is a supported one. *)
Definition id_key_ok (k : id_key) : Prop :=
  match k with
  | KMask r _ | KAverageTemplate r | KAraNissl r => r ∈ resolutions
  | _ => True
  end.

(** The mesh IDs in the order a dictionary keeps them: each at the place of
    its first occurrence. *)
Definition first_occurrences (seen ids : list Z) : list Z :=
  fold_left (λ acc k, if decide (k ∈ acc) then acc else acc ++ [k]) ids seen.

Definition base_url_nodes : list node :=
  [BaseURL "#mesh_base_url" MouseCCFMeshBaseURL;
   BaseURL "#mask_base_url" MouseCCFMaskBaseURL;
   BaseURL "#mesh_download_url" MouseCCFDownloadBaseURL;
   BaseURL "#average_template_base_url" MouseCCFAverageTemplateBaseURL;
   BaseURL "#ara_nissl_base_url" MouseCCFAraNisslURL].

Definition mesh_ds_node (mid : Z) : node :=
  [("@id", VStr (id_string (KMesh mid)));
   ("@type", VList [VStr "DataSource"; VStr "GeometryDataSource";
                    VStr "TriangleMeshDataSource"]);
   ("baseURL", VStr "#mesh_base_url");
   ("mimeType", VStr "text/plain");
   ("source", VStr (pretty mid +:+ ".obj"))].

Definition mask_ds_node (mid r : Z) : node :=
  [("@id", VStr (id_string (KMask r mid)));
   ("@type", VList [VStr "DataSource"; VStr "ImageDataSource";
                    VStr "VoxelMaskDataSource"]);
   ("baseURL", VStr "#mesh_download_url");
   ("mimeType", VStr "application/octet-stream");
   ("source", VStr ("structure_masks_" +:+ pretty r +:+ "/structure_"
                      +:+ pretty mid +:+ ".nrrd"));
   ("annotation", resolution_annotation r)].

Definition mask_ds_dict (mid : Z) : odict Z node :=
  map (λ r, (r, mask_ds_node mid r)) resolutions.

Definition average_template_node (r : Z) : node :=
  [("@id", VStr (id_string (KAverageTemplate r)));
   ("@type", VList [VStr "DataSource"; VStr "ImageDataSource";
                    VStr "AverageTemplateDataSource"]);
   ("baseURL", VStr "#average_template_base_url");
   ("mimeType", VStr "application/octet-stream");
   ("source", VStr ("average_template_" +:+ pretty r +:+ ".nrrd"));
   ("annotation", resolution_annotation r)].

Definition ara_nissl_node (r : Z) : node :=
  [("@id", VStr (id_string (KAraNissl r)));
   ("@type", VList [VStr "DataSource"; VStr "ImageDataSource";
                    VStr "AraNisslDataSource"]);
   ("baseURL", VStr "#ara_nissl_base_url");
   ("mimeType", VStr "application/octet-stream");
   ("source", VStr ("ara_nissl_" +:+ pretty r +:+ ".nrrd"));
   ("annotation", resolution_annotation r)].

(** The identifiers in the [shape.dataSource] list of a structure. *)
Definition shape_data_source (mid : Z) : list pyval :=
  VStr (id_string (KMesh mid))
    :: map (λ r, VStr (id_string (KMask r mid))) resolutions.

Definition structure_node (mid : Z) (color : string)
    (name acronym allenAtlasId : pyval) : node :=
  [("@id", VStr (id_string (KStructure mid)));
   ("@type", VStr "Structure");
   ("style", VDict [("color", VStr color)]);
   ("shape", VDict [("@type", VStr "Shape");
                    ("dataSource", VList (shape_data_source mid))]);
   ("annotation", VDict [("name", name); ("acronym", acronym);
                         ("allenAtlasId", allenAtlasId)])].

Definition header_node : node :=
  [("@id", VStr "#__header__"); ("@type", VStr "Header");
   ("root", VList [VStr "#structure_997"]);
   ("formatVersion", VStr "0.9");
   ("backgroundImage",
      VList (map (λ r, VStr (id_string (KAverageTemplate r))) resolutions));
   ("annotation",
      VDict [("name", VStr "Allen Mouse CCF Atlas");
             ("about", VList [
                VStr "http://help.brain-map.org/display/mousebrain/";
                VStr "http://help.brain-map.org/display/mousebrain/API";
                VStr "http://portal.brain-map.org/"])])].

Section closed_form.
Variable py_repr : pyval → string.

(** The structure node of one mesh ID, or the lookup that fails for it. *)
Definition structure_of (ontology : odict Z node) (mid : Z) : result node :=
  ontology_entry ← dict_get mid ontology;
  color_hex_triplet ← dict_get "color_hex_triplet" ontology_entry;
  name ← dict_get "safe_name" ontology_entry;
  acronym ← dict_get "acronym" ontology_entry;
  allenAtlasId ← dict_get "id" ontology_entry;
  Ok (structure_node mid ("#" +:+ py_format py_repr color_hex_triplet)
        name acronym allenAtlasId).

Definition structure_or_empty (ontology : odict Z node) (mid : Z) : node :=
  match structure_of ontology mid with
  | Ok s => s
  | Raise _ => []
  end.

(** The document for the mesh IDs [u], each listed once. *)
Definition atlas_nodes (ontology : odict Z node) (u : list Z) : list node :=
  header_node
    :: base_url_nodes
    ++ map mesh_ds_node u
    ++ concat (map (λ mid, map (mask_ds_node mid) resolutions) u)
    ++ map (structure_or_empty ontology) u
    ++ map average_template_node resolutions
    ++ map ara_nissl_node resolutions.
End closed_form.

(** The keys of the nodes of [atlas_nodes], in the same order. *)
Definition atlas_keys (u : list Z) : list id_key :=
  KHeader
    :: [KMeshBase; KMaskBase; KDownloadBase; KAverageTemplateBase; KAraNisslBase]
    ++ map KMesh u
    ++ concat (map (λ mid, map (λ r, KMask r mid) resolutions) u)
    ++ map KStructure u
    ++ map KAverageTemplate resolutions
    ++ map KAraNissl resolutions.

(** [n['@id'] == s] *)
Definition has_id (s : string) (n : node) : bool :=
  match dict_find "@id" n with
  | Some v => py_eq_str v s
  | None => false
  end.

(** ** What the builder needs of the ontology *)

(** The four fields the builder reads from the entry of a mesh ID. *)
Definition entry_complete (entry : node) : Prop :=
  is_Some (dict_find "color_hex_triplet" entry)
  ∧ is_Some (dict_find "safe_name" entry)
  ∧ is_Some (dict_find "acronym" entry)
  ∧ is_Some (dict_find "id" entry).

(** [mid] is a key of the ontology and its entry has those fields. *)
Definition resolves (ontology : odict Z node) (mid : Z) : Prop :=
  ∃ entry, dict_find mid ontology = Some entry ∧ entry_complete entry.

(** ** What a document holds for its mesh IDs *)

(** For every mesh ID, one node named [#structure_<id>], a structure, and
    one node named [#mesh_ds_<id>], a triangle-mesh data source. *)
Definition mesh_and_structure_emitted (ids : list Z) (nodes : list node)
  : Prop :=
  ∀ mid, mid ∈ ids →
    (∃ n, List.filter (has_id ("#structure_" +:+ pretty mid)) nodes = [n]
          ∧ dict_find "@type" n = Some (VStr "Structure"))
    ∧ (∃ n, List.filter (has_id ("#mesh_ds_" +:+ pretty mid)) nodes = [n]
            ∧ dict_find "@type" n
              = Some (VList [VStr "DataSource"; VStr "GeometryDataSource";
                             VStr "TriangleMeshDataSource"])).

(** For every mesh ID and resolution, one node named
    [#mask_ds_<resolution>_<id>], a voxel-mask data source; and the
    structure of the mesh ID lists its mesh data source, then its four mask
    data sources. *)
Definition masks_emitted (ids : list Z) (nodes : list node) : Prop :=
  ∀ mid, mid ∈ ids →
    (∀ r, r ∈ resolutions →
       ∃ n, List.filter
              (has_id ("#mask_ds_" +:+ pretty r +:+ "_" +:+ pretty mid)) nodes
            = [n]
            ∧ dict_find "@type" n
              = Some (VList [VStr "DataSource"; VStr "ImageDataSource";
                             VStr "VoxelMaskDataSource"]))
    ∧ (∃ s shape,
         List.filter (has_id ("#structure_" +:+ pretty mid)) nodes = [s]
         ∧ dict_find "shape" s = Some (VDict shape)
         ∧ dict_find "dataSource" shape
           = Some (VList (VStr ("#mesh_ds_" +:+ pretty mid)
                            :: map (λ r, VStr ("#mask_ds_" +:+ pretty r +:+ "_"
                                                 +:+ pretty mid))
                                 resolutions))).

(** ** The linked ontology in closed form *)

(** What linking expects of the mapping it is given: no entry holds a child
    list yet, every entry is stored under its own [id], and the parent of an
    entry is empty or a key of the mapping. *)
Definition unlinked (ontology : odict Z node) : Prop :=
  ∀ k e, (k, e) ∈ ontology → dict_find "child_structure_ids" e = None.

Definition indexed_by_id (ontology : odict Z node) : Prop :=
  ∀ k e, (k, e) ∈ ontology → dict_find "id" e = Some (VInt k).

Definition parents_resolve (ontology : odict Z node) : Prop :=
  ∀ k e, (k, e) ∈ ontology →
    dict_find "parent_structure_id" e = Some (VStr "")
    ∨ ∃ p, dict_find "parent_structure_id" e = Some (VInt p)
           ∧ p ∈ dict_keys ontology.

(** The entry names [p] as its parent. *)
Definition is_child_of (p : Z) (e : node) : bool :=
  match dict_find "parent_structure_id" e with
  | Some (VInt z) => bool_decide (z = p)
  | _ => false
  end.

(** The ids of the entries among [entries] whose parent is [p], in order. *)
Definition children_ids (entries : odict Z node) (p : Z) : list pyval :=
  map (λ ke, VInt ke.1) (List.filter (λ ke, is_child_of p ke.2) entries).

Definition add_children (e : node) (children : list pyval) : node :=
  match children with
  | [] => e
  | _ => dict_set "child_structure_ids" (VList children) e
  end.

(** The mapping once the entries [visited] have been attached to their
    parents. *)
Definition link_children (visited ontology : odict Z node) : odict Z node :=
  map (λ ke, (ke.1, add_children ke.2 (children_ids visited ke.1))) ontology.

(** How often the value [x] occurs in a list. *)
Definition py_count (x : pyval) (l : list pyval) : nat :=
  length (List.filter (py_key_eqb x) l).

(** The types linking relies on: a child list, where an entry has one, is a
    list, and the parent of an entry is a string or an integer. *)
Definition linkable (ontology : odict Z node) : Prop :=
  ∀ k e, (k, e) ∈ ontology →
    (∀ v, dict_find "child_structure_ids" e = Some v → ∃ l, v = VList l)
    ∧ (∀ p, dict_find "parent_structure_id" e = Some p → py_hashable p = true).

(** A parent reference that is not empty and is no key of the mapping. *)
Definition dangling_parent (ontology : odict Z node) (p : pyval) : Prop :=
  p ≠ VStr "" ∧ ∀ z, p = VInt z → z ∉ dict_keys ontology.

(** What the turns of the loop keep of the mapping they started from: the
    keys, the parent of every entry, and that child lists are lists. *)
Definition same_links (ontology state : odict Z node) : Prop :=
  dict_keys state = dict_keys ontology
  ∧ ∀ k e, (k, e) ∈ ontology →
      ∃ e', dict_find k state = Some e'
            ∧ dict_find "parent_structure_id" e'
              = dict_find "parent_structure_id" e
            ∧ ∀ v, dict_find "child_structure_ids" e' = Some v →
                   ∃ l, v = VList l.

(** ** The records of the ontology table *)

(** The record made from one data row: every cell under its field name,
    passed through [possibly_int]. *)
Definition row_record (header row : list string) : node :=
  map (λ kv, (kv.1, possibly_int kv.2)) (zip header row).

(** The key a data row is stored under: [int] of its [id] cell. *)
Definition row_key (header row : list string) : option Z :=
  match dict_find "id" (zip header row) with
  | Some id => py_int id
  | None => None
  end.

(** A table the loader accepts: the header holds field names, and every
    data row has one cell per field and an [id] cell that is an integer. *)
Definition well_formed_table (header : list string)
    (rows : list (list string)) : Prop :=
  namedtuple_fields_ok header = true
  ∧ Forall (λ row, length row = length header
                   ∧ is_Some (row_key header row)) rows.

(** What one data row does to the mapping. *)
Definition store_row (header : list string) (results : odict Z node)
    (row : list string) : odict Z node :=
  match row_key header row with
  | Some key => dict_set key (row_record header row) results
  | None => results
  end.

(** ** Mesh file names and the integers they denote

    What mesh discovery is to find is said here without the functions above:
    by how a line splits into parts. *)

(** A run of one or more decimal digits. *)
Definition digit_run (db : unicode_db) (d : text) : Prop :=
  d ≠ [] ∧ Forall (λ c, is_decimal db c = true) d.

(** The number a run of decimal digits denotes, continuing from [acc]. *)
Definition digits_value (db : unicode_db) (acc : Z) (l : text) : Z :=
  fold_left (λ a c, 10 * a + default 0 (decimal_value db c)) l acc.

(** A name of the form [<digits>.obj]. *)
Definition mesh_file_name (db : unicode_db) (m : text) : Prop :=
  ∃ d, m = d ++ dot_obj ∧ digit_run db d.

(** [s] starts with a mesh file name. *)
Definition starts_with_name (db : unicode_db) (s : text) : Prop :=
  ∃ m post, s = m ++ post ∧ mesh_file_name db m.

(** [m] is the mesh file name that starts leftmost in [line]: no part of
    [line] that begins further left starts with a mesh file name. *)
Definition first_match (db : unicode_db) (line m : text) : Prop :=
  ∃ pre post,
    line = pre ++ m ++ post
    ∧ mesh_file_name db m
    ∧ ∀ pre1 pre2, pre = pre1 ++ pre2 → pre2 ≠ [] →
        ¬ starts_with_name db (pre2 ++ m ++ post).

(** The integer a mesh file name denotes: the number that its digits, all
    its characters but the last four, denote. *)
Definition mesh_id_of_name (db : unicode_db) (name : text) : Z :=
  digits_value db 0 (take (length name - 4) name).

(** No mesh file name found in the listing has more digits than [int]
    converts. *)
Definition short_names (db : unicode_db) (lines : list text) : Prop :=
  ∀ line name, line ∈ lines → first_match db line name →
    (N.of_nat (length name - 4) ≤ int_max_str_digits)%N.

(** [list(s)] lists the elements of a set of texts, in some order. *)
Definition names_order_spec (names_order : list text → list text) : Prop :=
  ∀ l, names_order l ≡ₚ l.

(** ** What the merge expects of its arguments *)

(** The [members] of a node, where it has any, are a list of hashable
    values (node identifiers). *)
Definition members_ok (s : node) : Prop :=
  ∀ v, dict_find "members" s = Some v →
    ∃ l, v = VList l ∧ Forall (λ x, py_hashable x = true) l.

(** The node has an [@id] that can be put in a set. *)
Definition has_hashable_id (m : node) : Prop :=
  ∃ i, dict_find "@id" m = Some i ∧ py_hashable i = true.

(** [list(s)] lists the elements of the set [s], in some order. *)
Definition set_order_spec (set_order : list pyval → list pyval) : Prop :=
  ∀ l, set_order l ≡ₚ l.

(** ** Sample inputs *)

Definition sample_entry (id : Z) (parent : pyval) (color : pyval)
    (name : string) : node :=
  [("id", VInt id); ("parent_structure_id", parent);
   ("color_hex_triplet", color); ("safe_name", VStr name);
   ("acronym", VStr name)].

(** The root and one structure below it. *)
Definition sample_ontology : odict Z node :=
  [(997, sample_entry 997 (VStr "") (VStr "FFFFFF") "root");
   (8, sample_entry 8 (VInt 997) (VStr "BFDAE3") "grey")].

(** An ontology that lacks the root. *)
Definition rootless_ontology : odict Z node :=
  [(8, sample_entry 8 (VStr "") (VStr "BFDAE3") "grey")].

(** An ontology whose only entry names a parent that is no key. *)
Definition dangling_ontology : odict Z node :=
  [(8, sample_entry 8 (VInt 997) (VStr "BFDAE3") "grey")].

Definition sample_repr (v : pyval) : string := "".

(** A part of the Unicode database: the Arabic-Indic digits (from 1632) and
    the fullwidth digits (from 65296), the line separator (8232) and the
    ideographic space (12288). *)
Definition sample_db : unicode_db :=
  {| db_decimal := λ c,
       if ((1632 <=? c) && (c <=? 1641))%N then Some (Z.of_N c - 1632)
       else if ((65296 <=? c) && (c <=? 65305))%N then Some (Z.of_N c - 65296)
       else None;
     db_space := λ c, ((c =? 8232) || (c =? 12288))%N |}.

(** A directory listing: a line with two file names, a line with none, a
    name with leading zeros, and a name seen before. *)
Definition sample_lines : list text :=
  map codes ["997.obj 12.obj"; "Parent Directory"; "008.obj"; "997.obj"].

(** A line whose first file name is written with the Arabic-Indic digit
    three. *)
Definition arabic_line : text := 1635%N :: codes ".obj 12.obj".

(** A line whose first file name is 997 written with a fullwidth nine, an
    ASCII nine and an Arabic-Indic seven. *)
Definition mixed_line : text :=
  codes "<a>" ++ [65305%N; 57%N; 1639%N] ++ dot_obj ++ codes " 12.obj".

(** A file name with one digit more than [int] converts. *)
Definition long_name : text := repeat 57%N 4301 ++ dot_obj.

(** The ontology table of [sample_ontology]. *)
Definition sample_header : list string :=
  ["id"; "parent_structure_id"; "color_hex_triplet"; "safe_name"; "acronym"].

Definition sample_rows : list (list string) :=
  [["997"; ""; "FFFFFF"; "root"; "root"];
   ["8"; "997"; "BFDAE3"; "grey"; "grey"]].

(** A structure node and a node to make a member of it. *)
Definition sample_structure : node :=
  structure_node 997 "#FFFFFF" (VStr "root") (VStr "root") (VInt 997).

Definition sample_member : node :=
  structure_node 8 "#BFDAE3" (VStr "grey") (VStr "grey") (VInt 8).

(** An iteration order of sets: the order of insertion. *)
Definition insertion_order {A : Type} (l : list A) : list A := l.

(** ** The first lookup that fails for a mesh ID *)

(** The first of the four fields the builder reads that an entry lacks. *)
Definition first_missing_field (entry : node) : option string :=
  List.find (λ f, negb (dict_mem f entry))
    ["color_hex_triplet"; "safe_name"; "acronym"; "id"].

(** The mesh IDs not in [seen], each at its first occurrence. *)
Fixpoint unseen (seen ids : list Z) : list Z :=
  match ids with
  | [] => []
  | k :: ids' =>
      if decide (k ∈ seen) then unseen seen ids'
      else k :: unseen (seen ++ [k]) ids'
  end.

(** ** What linking leaves alone *)

(** [e'] is [e] but for its child list, which has only grown. *)
Definition grown_entry (e e' : node) : Prop :=
  (∀ f, f ≠ "child_structure_ids" → dict_find f e' = dict_find f e)
  ∧ (∀ l, dict_find "child_structure_ids" e = Some (VList l) →
       ∃ l', dict_find "child_structure_ids" e' = Some (VList (l ++ l'))).

(** [state] has the keys of [ontology], in the same order, and under every
    key the entry of [ontology] with a grown child list. *)
Definition grown_mapping (ontology state : odict Z node) : Prop :=
  dict_keys state = dict_keys ontology
  ∧ ∀ k, match dict_find k ontology, dict_find k state with
         | Some e, Some e' => grown_entry e e'
         | None, None => True
         | _, _ => False
         end.

(** ** Linking a mapping that may hold child lists already *)

(** The child list of an entry; none counts as empty. *)
Definition child_list (e : node) : list pyval :=
  match dict_find "child_structure_ids" e with
  | Some (VList l) => l
  | _ => []
  end.

(** The entry with [children] appended to its child list. *)
Definition extend_children (e : node) (children : list pyval) : node :=
  match children with
  | [] => e
  | _ => dict_set "child_structure_ids" (VList (child_list e ++ children)) e
  end.

(** A child list, where an entry has one, is a list. *)
Definition lists_only (ontology : odict Z node) : Prop :=
  ∀ k e, (k, e) ∈ ontology →
    ∀ v, dict_find "child_structure_ids" e = Some v → ∃ l, v = VList l.

(** The mapping once the entries [visited] have been appended to the child
    lists of their parents. *)
Definition extend_links (visited ontology : odict Z node) : odict Z node :=
  map (λ ke, (ke.1, extend_children ke.2 (children_ids visited ke.1)))
    ontology.

(** ** More sample inputs *)

(** An ontology as the loader stores it when the colour cell of the root
    reads [008000]. *)
Definition green_ontology : odict Z node :=
  [(997, sample_entry 997 (VStr "") (possibly_int "008000") "root")].

(** An ontology whose entry 8 lacks [safe_name] and [acronym]. *)
Definition incomplete_ontology : odict Z node :=
  [(997, sample_entry 997 (VStr "") (VStr "FFFFFF") "root");
   (8, [("id", VInt 8); ("parent_structure_id", VInt 997);
        ("color_hex_triplet", VStr "BFDAE3")])].

(** [sample_ontology] once linked. *)
Definition sample_linked : odict Z node :=
  [(997, sample_entry 997 (VStr "") (VStr "FFFFFF") "root"
           ++ [("child_structure_ids", VList [VInt 8])]);
   (8, sample_entry 8 (VInt 997) (VStr "BFDAE3") "grey")].

(** ** Members and type tags of a group *)

(** The type tags the merge can work on: a string, or a list of hashable
    values. *)
Definition type_ok (s : node) : Prop :=
  ∀ t, dict_find "@type" s = Some t →
    (∃ x, t = VStr x)
    ∨ (∃ l, t = VList l ∧ Forall (λ x, py_hashable x = true) l).

(** The members a node has; none if it has no [members]. *)
Definition members_of (s : node) : list pyval :=
  match dict_find "members" s with
  | Some (VList l) => l
  | _ => []
  end.

(** The second half of [add_members_to_group], which merges the tag
    ["Group"] into the [@type] of the node. *)
Definition merge_group_tag (set_order : list pyval → list pyval) (s : node)
  : result node :=
  if negb (dict_mem "@type" s) then Ok (dict_set "@type" (VStr "Group") s)
  else
    s_type ← dict_get "@type" s;
    if py_eq_str s_type "Group" then Ok s else
    if py_is_str s_type
    then Ok (dict_set "@type" (VList [s_type; VStr "Group"]) s)
    else
      s_type ← py_set s_type;
      if existsb (py_key_eqb (VStr "Group")) s_type then Ok s else
      let s_type := set_add py_key_eqb (VStr "Group") s_type in
      Ok (dict_set "@type" (VList (set_order s_type)) s).

(** A group node to merge into, one of its members, and a member to add. *)
Definition sample_group_children : list node := [sample_member; sample_member].

Definition sample_tagged : node :=
  [("@id", VStr "#structure_997");
   ("@type", VList [VStr "Structure"; VStr "Structure"]);
   ("members", VList [VStr "#structure_8"; VStr "#structure_8"])].

(** ** The script *)

(** What the module does when it is run: load, link, discover, build.  The
    two downloads are the arguments [csv_rows] and [lines]; the result is
    the document that is printed. *)
Definition main (db : unicode_db) (py_repr : pyval → string)
    (names_order : list text → list text)
    (csv_rows : list (list string)) (lines : list text)
  : result (list node) :=
  ontology ← get_allen_mouse_ontology csv_rows;
  ontology ← find_children ontology;
  mesh_ids ← get_mesh_ids db names_order lines;
  build_atlas py_repr ontology mesh_ids.

(** Every [parent_structure_id] cell of the table is empty or the integer
    key of a row of the table. *)
Definition table_parents_resolve (header : list string)
    (rows : list (list string)) : Prop :=
  ∀ row text, row ∈ rows → ("parent_structure_id", text) ∈ zip header row →
    text = ""
    ∨ ∃ p row', py_int text = Some p ∧ row' ∈ rows
                ∧ row_key header row' = Some p.

(** * Properties *)

(** ** Exceptions and loops *)

Ltac unfold_bind :=
  unfold mbind, result_bind, mret, result_ret in *.

Lemma bind_Ok_inv {A B : Type} (m : result A) (f : A → result B) (b : B) :
  (m ≫= f) = Ok b → ∃ a, m = Ok a ∧ f a = Ok b.
Proof. unfold_bind. destruct m as [a|e]; [eauto|discriminate]. Qed.

Lemma bind_Ok {A B : Type} (a : A) (f : A → result B) : (Ok a ≫= f) = f a.
Proof. reflexivity. Qed.

Lemma bind_Raise {A B : Type} (e : py_error) (f : A → result B) :
  (Raise e ≫= f) = Raise e.
Proof. reflexivity. Qed.

Lemma for_each_pure {S B : Type} (f : S → B → S) (l : list B) (s : S)
    (body : S → B → result S) :
  (∀ s x, x ∈ l → body s x = Ok (f s x)) →
  for_each l s body = Ok (fold_left f l s).
Proof.
  revert s. induction l as [|x l IH]; intros s Hbody; [reflexivity|].
  simpl. rewrite Hbody by left. rewrite bind_Ok.
  apply IH. intros s' y Hy. apply Hbody. by right.
Qed.

Lemma for_each_ext {S B : Type} (l : list B) (s : S)
    (body body' : S → B → result S) :
  (∀ s x, x ∈ l → body s x = body' s x) →
  for_each l s body = for_each l s body'.
Proof.
  revert s. induction l as [|x l IH]; intros s Hbody; [reflexivity|].
  simpl. rewrite Hbody by left. destruct (body' s x) as [s'|e]; [|reflexivity].
  rewrite !bind_Ok. apply IH. intros s'' y Hy. apply Hbody. by right.
Qed.

Lemma for_each_app {S B : Type} (l1 l2 : list B) (s : S)
    (body : S → B → result S) :
  for_each (l1 ++ l2) s body = (for_each l1 s body ≫= λ s', for_each l2 s' body).
Proof.
  revert s. induction l1 as [|x l1 IH]; intros s; [reflexivity|].
  simpl. destruct (body s x) as [s'|e]; [|reflexivity].
  rewrite !bind_Ok. apply IH.
Qed.

(** ** Dictionaries *)

Section odict_facts.
Context {K V : Type} `{EqDecision K} `{PyKey K}.
Implicit Types (k : K) (v : V) (d : list (K * V)).

Lemma dict_find_set_eq k v d : dict_find k (dict_set k v d) = Some v.
Proof.
  induction d as [|[k' v'] d IH]; simpl.
  - by rewrite decide_True.
  - destruct (decide (k = k')) as [->|Hne]; simpl.
    + by rewrite decide_True.
    + by rewrite decide_False.
Qed.

Lemma dict_find_set_ne k k' v d :
  k ≠ k' → dict_find k (dict_set k' v d) = dict_find k d.
Proof.
  intros Hne. induction d as [|[k'' v''] d IH]; simpl.
  - by rewrite decide_False.
  - destruct (decide (k' = k'')) as [->|Hne']; simpl.
    + by rewrite !decide_False.
    + destruct (decide (k = k'')); [reflexivity|apply IH].
Qed.

Lemma dict_set_set k v v' d :
  dict_set k v (dict_set k v' d) = dict_set k v d.
Proof.
  induction d as [|[k' v''] d IH]; simpl.
  - by rewrite decide_True.
  - destruct (decide (k = k')) as [->|Hne]; simpl.
    + by rewrite decide_True.
    + rewrite decide_False by done. by rewrite IH.
Qed.

Lemma dict_keys_set k v d :
  dict_keys (dict_set k v d)
  = if decide (k ∈ dict_keys d) then dict_keys d else dict_keys d ++ [k].
Proof.
  induction d as [|[k' v'] d IH]; simpl.
  - reflexivity.
  - destruct (decide (k = k')) as [->|Hne]; simpl.
    + rewrite decide_True; [reflexivity|]. by left.
    + rewrite IH. destruct (decide (k ∈ dict_keys d)) as [Hin|Hnin].
      * rewrite decide_True; [reflexivity|]. by right.
      * rewrite decide_False; [reflexivity|].
        intros [?|?]%elem_of_cons; done.
Qed.

Lemma dict_ok_set k v d : dict_ok d → dict_ok (dict_set k v d).
Proof.
  unfold dict_ok. rewrite dict_keys_set. intros Hd.
  destruct (decide (k ∈ dict_keys d)) as [Hin|Hnin]; [done|].
  apply NoDup_app. split_and!; [done| |apply NoDup_singleton].
  intros x Hx ->%list_elem_of_singleton. done.
Qed.

Lemma dict_find_Some_elem k v d : dict_find k d = Some v → (k, v) ∈ d.
Proof.
  induction d as [|[k' v'] d IH]; simpl; [discriminate|].
  destruct (decide (k = k')) as [->|Hne].
  - intros [= ->]. by left.
  - intros Hf. right. by apply IH.
Qed.

Lemma dict_find_None k d : dict_find k d = None ↔ k ∉ dict_keys d.
Proof.
  induction d as [|[k' v'] d IH]; simpl.
  - split; [intros _ ?%elem_of_nil; done|done].
  - destruct (decide (k = k')) as [->|Hne].
    + split; [discriminate|]. intros Hn. destruct Hn. by left.
    + rewrite IH. split.
      * intros Hn [?|?]%elem_of_cons; done.
      * intros Hn Hin. apply Hn. by right.
Qed.

Lemma dict_find_is_Some k d : is_Some (dict_find k d) ↔ k ∈ dict_keys d.
Proof.
  destruct (dict_find k d) as [v|] eqn:Hf.
  - split; [intros _|by eauto].
    apply dict_find_Some_elem in Hf.
    apply list_elem_of_fmap. by exists (k, v).
  - split; [by intros [? [=]]|].
    intros Hin. by apply dict_find_None in Hf.
Qed.

Lemma dict_find_elem k v d : dict_ok d → (k, v) ∈ d → dict_find k d = Some v.
Proof.
  unfold dict_ok.
  induction d as [|[k' v'] d IH]; simpl; [by intros _ ?%elem_of_nil|].
  intros [Hnin Hnd]%NoDup_cons [Heq|Hin]%elem_of_cons.
  - injection Heq as -> ->. by rewrite decide_True.
  - rewrite decide_False; [by apply IH|].
    intros ->. apply Hnin. apply list_elem_of_fmap. by exists (k', v).
Qed.

(** A dictionary filled from a function of the key. *)
Lemma dict_find_tabulate (f : K → V) (ks : list K) k :
  dict_find k (map (λ k, (k, f k)) ks)
  = if decide (k ∈ ks) then Some (f k) else None.
Proof.
  induction ks as [|k' ks IH]; simpl.
  - reflexivity.
  - destruct (decide (k = k')) as [->|Hne].
    + rewrite decide_True; [reflexivity|]. by left.
    + rewrite IH. destruct (decide (k ∈ ks)) as [Hin|Hnin].
      * rewrite decide_True; [reflexivity|]. by right.
      * rewrite decide_False; [reflexivity|].
        intros [?|?]%elem_of_cons; done.
Qed.

Lemma dict_set_tabulate (f : K → V) (ks : list K) k :
  dict_set k (f k) (map (λ k, (k, f k)) ks)
  = map (λ k, (k, f k)) (if decide (k ∈ ks) then ks else ks ++ [k]).
Proof.
  induction ks as [|k' ks IH]; simpl.
  - reflexivity.
  - destruct (decide (k = k')) as [->|Hne].
    + rewrite decide_True; [reflexivity|]. by left.
    + rewrite IH. destruct (decide (k ∈ ks)) as [Hin|Hnin].
      * rewrite decide_True; [reflexivity|]. by right.
      * rewrite decide_False; [reflexivity|].
        intros [?|?]%elem_of_cons; done.
Qed.
End odict_facts.

(** ** Filling a dictionary in a loop *)

Lemma first_occurrences_elem (seen ids : list Z) (x : Z) :
  x ∈ first_occurrences seen ids ↔ x ∈ seen ∨ x ∈ ids.
Proof.
  unfold first_occurrences. revert seen.
  induction ids as [|k ids IH]; intros seen; simpl.
  - rewrite elem_of_nil. tauto.
  - rewrite IH, elem_of_cons. destruct (decide (k ∈ seen)) as [Hin|Hnin].
    + split; [tauto|]. intros [?|[->|?]]; tauto.
    + rewrite elem_of_app, list_elem_of_singleton. tauto.
Qed.

Lemma first_occurrences_NoDup (seen ids : list Z) :
  NoDup seen → NoDup (first_occurrences seen ids).
Proof.
  unfold first_occurrences. revert seen.
  induction ids as [|k ids IH]; intros seen Hnd; simpl; [done|].
  apply IH. destruct (decide (k ∈ seen)) as [Hin|Hnin]; [done|].
  apply NoDup_app. split_and!; [done| |apply NoDup_singleton].
  by intros x Hx ->%list_elem_of_singleton.
Qed.

Section fill.
Context {V : Type}.
Implicit Types (f : Z → V) (g : Z → result V).

Lemma fold_dict_fill f (ids ks : list Z) :
  fold_left (λ d k, dict_set k (f k) d) ids (map (λ k, (k, f k)) ks)
  = map (λ k, (k, f k)) (first_occurrences ks ids).
Proof.
  unfold first_occurrences. revert ks.
  induction ids as [|k ids IH]; intros ks; simpl; [reflexivity|].
  by rewrite dict_set_tabulate, IH.
Qed.

Lemma for_each_fill g f (ids ks : list Z) :
  (∀ k, k ∈ ids → g k = Ok (f k)) →
  for_each ids (map (λ k, (k, f k)) ks)
    (λ d k, v ← g k; Ok (dict_set k v d))
  = Ok (map (λ k, (k, f k)) (first_occurrences ks ids)).
Proof.
  intros Hg.
  rewrite (for_each_pure (λ d k, dict_set k (f k) d)).
  - by rewrite fold_dict_fill.
  - intros d k Hk. by rewrite Hg.
Qed.

Lemma for_each_fill_Ok_inv g (ids : list Z) (d d' : odict Z V) :
  for_each ids d (λ d k, v ← g k; Ok (dict_set k v d)) = Ok d' →
  ∀ k, k ∈ ids → ∃ v, g k = Ok v.
Proof.
  revert d. induction ids as [|k ids IH]; intros d Hloop x Hx.
  - by apply elem_of_nil in Hx.
  - simpl in Hloop. apply bind_Ok_inv in Hloop as (d1 & Hbody & Hrest).
    apply bind_Ok_inv in Hbody as (v & Hv & _).
    apply elem_of_cons in Hx as [->|Hx]; [eauto|].
    by apply (IH d1).
Qed.

(** If the element expression raises for some key, the loop raises what
    the first such key raises. *)
Lemma for_each_fill_Raise g (ids : list Z) (d : odict Z V) (k : Z) (e0 : py_error) :
  k ∈ ids → g k = Raise e0 →
  ∃ k' e, k' ∈ ids ∧ g k' = Raise e
          ∧ for_each ids d (λ d k, v ← g k; Ok (dict_set k v d)) = Raise e.
Proof.
  revert d. induction ids as [|x ids IH]; intros d Hk Hg.
  - by apply elem_of_nil in Hk.
  - simpl. destruct (g x) as [v|e] eqn:Hgx.
    + apply elem_of_cons in Hk as [->|Hk]; [congruence|].
      destruct (IH (dict_set x v d) Hk Hg) as (k' & e & Hk' & Hgk' & Hloop).
      exists k', e. split_and!; [by right|done|].
      by rewrite !bind_Ok.
    + exists x, e. split_and!; [by left|done|reflexivity].
Qed.
End fill.

(** ** The graph builder in closed form *)

Lemma dict_get_set_eq {K V : Type} `{EqDecision K} `{PyKey K}
    (k : K) (v : V) (d : odict K V) :
  dict_get k (dict_set k v d) = Ok v.
Proof. unfold dict_get. by rewrite dict_find_set_eq. Qed.

Lemma dict_get_tabulate {V : Type} (f : Z → V) (ks : list Z) (k : Z) :
  k ∈ ks → dict_get k (map (λ k, (k, f k)) ks) = Ok (f k).
Proof.
  intros Hk. unfold dict_get. rewrite dict_find_tabulate.
  by rewrite decide_True.
Qed.

Lemma dict_values_tabulate {V : Type} (f : Z → V) (ks : list Z) :
  dict_values (map (λ k, (k, f k)) ks) = map f ks.
Proof. unfold dict_values. rewrite map_map. reflexivity. Qed.

Lemma mesh_loop (ids : list Z) :
  for_each ids ([] : odict Z node)
    (λ mesh_data_sources mid,
       ds ← DataSource ("#mesh_ds_" +:+ pretty mid)
              (BaseURL "#mesh_base_url" MouseCCFMeshBaseURL) "text/plain"
              (pretty mid +:+ ".obj") None
              (Some ["GeometryDataSource"; "TriangleMeshDataSource"]);
       Ok (dict_set mid ds mesh_data_sources))
  = Ok (map (λ k, (k, mesh_ds_node k)) (first_occurrences [] ids)).
Proof. by apply (for_each_fill _ mesh_ds_node ids []). Qed.

Lemma mask_loop_body (label_data_sources : odict Z (odict Z node)) (mid : Z) :
  for_each resolutions (dict_set mid [] label_data_sources)
    (λ label_data_sources r,
       ds ← DataSource ("#mask_ds_" +:+ pretty r +:+ "_" +:+ pretty mid)
              (BaseURL "#mesh_download_url" MouseCCFDownloadBaseURL)
              "application/octet-stream"
              ("structure_masks_" +:+ pretty r +:+ "/structure_"
                 +:+ pretty mid +:+ ".nrrd")
              (Some (resolution_annotation r))
              (Some ["ImageDataSource"; "VoxelMaskDataSource"]);
       inner ← dict_get mid label_data_sources;
       Ok (dict_set mid (dict_set r ds inner) label_data_sources))
  = Ok (dict_set mid (mask_ds_dict mid) label_data_sources).
Proof.
  assert (Hds : ∀ r,
    DataSource ("#mask_ds_" +:+ pretty r +:+ "_" +:+ pretty mid)
      (BaseURL "#mesh_download_url" MouseCCFDownloadBaseURL)
      "application/octet-stream"
      ("structure_masks_" +:+ pretty r +:+ "/structure_"
         +:+ pretty mid +:+ ".nrrd")
      (Some (resolution_annotation r))
      (Some ["ImageDataSource"; "VoxelMaskDataSource"])
    = Ok (mask_ds_node mid r)) by reflexivity.
  unfold resolutions. cbn [for_each].
  rewrite !Hds.
  repeat first [rewrite bind_Ok | rewrite dict_get_set_eq
               | rewrite dict_set_set | progress cbv beta].
  reflexivity.
Qed.

Lemma mask_loop (ids : list Z) :
  for_each ids ([] : odict Z (odict Z node))
    (λ label_data_sources mid,
       let label_data_sources := dict_set mid [] label_data_sources in
       for_each resolutions label_data_sources
         (λ label_data_sources r,
            ds ← DataSource ("#mask_ds_" +:+ pretty r +:+ "_" +:+ pretty mid)
                   (BaseURL "#mesh_download_url" MouseCCFDownloadBaseURL)
                   "application/octet-stream"
                   ("structure_masks_" +:+ pretty r +:+ "/structure_"
                      +:+ pretty mid +:+ ".nrrd")
                   (Some (resolution_annotation r))
                   (Some ["ImageDataSource"; "VoxelMaskDataSource"]);
            inner ← dict_get mid label_data_sources;
            Ok (dict_set mid (dict_set r ds inner) label_data_sources)))
  = Ok (map (λ k, (k, mask_ds_dict k)) (first_occurrences [] ids)).
Proof.
  rewrite (for_each_pure (λ d k, dict_set k (mask_ds_dict k) d)).
  - f_equal. apply (fold_dict_fill mask_ds_dict ids []).
  - intros d k _. cbv zeta. apply mask_loop_body.
Qed.

Lemma average_template_loop :
  for_each resolutions ([] : odict Z node)
    (λ average_templates r,
       ds ← DataSource ("#average_template_ds_" +:+ pretty r)
              (BaseURL "#average_template_base_url" MouseCCFAverageTemplateBaseURL)
              "application/octet-stream"
              ("average_template_" +:+ pretty r +:+ ".nrrd")
              (Some (resolution_annotation r))
              (Some ["ImageDataSource"; "AverageTemplateDataSource"]);
       Ok (dict_set r ds average_templates))
  = Ok (map (λ r, (r, average_template_node r)) resolutions).
Proof. reflexivity. Qed.

Lemma ara_nissl_loop :
  for_each resolutions ([] : odict Z node)
    (λ ara_nissl r,
       ds ← DataSource ("#ara_nissl_ds_" +:+ pretty r)
              (BaseURL "#ara_nissl_base_url" MouseCCFAraNisslURL)
              "application/octet-stream"
              ("ara_nissl_" +:+ pretty r +:+ ".nrrd")
              (Some (resolution_annotation r))
              (Some ["ImageDataSource"; "AraNisslDataSource"]);
       Ok (dict_set r ds ara_nissl))
  = Ok (map (λ r, (r, ara_nissl_node r)) resolutions).
Proof. reflexivity. Qed.

Section builder_facts.
Variable py_repr : pyval → string.
Implicit Types (ontology : odict Z node) (ids u : list Z).

Lemma structure_loop_body ontology u (structures : odict Z node) (mid : Z) :
  mid ∈ u →
  (ontology_entry ← dict_get mid ontology;
   color_hex_triplet ← dict_get "color_hex_triplet" ontology_entry;
   let color := "#" +:+ py_format py_repr color_hex_triplet in
   mesh_ds ← dict_get mid (map (λ k, (k, mesh_ds_node k)) u);
   label_ds ← dict_get mid (map (λ k, (k, mask_ds_dict k)) u);
   name ← dict_get "safe_name" ontology_entry;
   acronym ← dict_get "acronym" ontology_entry;
   allenAtlasId ← dict_get "id" ontology_entry;
   s ← Structure ("#structure_" +:+ pretty mid) mid color mesh_ds
         (dict_values label_ds) false
         (Some (VDict [("name", name); ("acronym", acronym);
                       ("allenAtlasId", allenAtlasId)]));
   Ok (dict_set mid s structures))
  = (s ← structure_of py_repr ontology mid; Ok (dict_set mid s structures)).
Proof.
  intros Hmid. unfold structure_of.
  rewrite !dict_get_tabulate by done.
  destruct (dict_get mid ontology) as [entry|e]; [|reflexivity].
  rewrite ?bind_Ok.
  destruct (dict_get "color_hex_triplet" entry) as [cht|e]; [|reflexivity].
  rewrite ?bind_Ok. cbv zeta. rewrite ?bind_Ok.
  destruct (dict_get "safe_name" entry) as [name|e]; [|reflexivity].
  rewrite ?bind_Ok.
  destruct (dict_get "acronym" entry) as [acronym|e]; [|reflexivity].
  rewrite ?bind_Ok.
  destruct (dict_get "id" entry) as [allenAtlasId|e]; [|reflexivity].
  reflexivity.
Qed.

Lemma build_atlas_unfold ontology ids :
  build_atlas py_repr ontology ids
  = (structures ← for_each ids ([] : odict Z node)
       (λ structures mid,
          s ← structure_of py_repr ontology mid;
          Ok (dict_set mid s structures));
     root ← dict_get 997 structures;
     header ← Header "#__header__" [root]
                (Some (map average_template_node resolutions))
                (Some (VDict [("name", VStr "Allen Mouse CCF Atlas");
                              ("about", VList [
                                 VStr "http://help.brain-map.org/display/mousebrain/";
                                 VStr "http://help.brain-map.org/display/mousebrain/API";
                                 VStr "http://portal.brain-map.org/"])]));
     Ok (header
           :: base_url_nodes
           ++ map mesh_ds_node (first_occurrences [] ids)
           ++ concat (map (λ mid, map (mask_ds_node mid) resolutions)
                        (first_occurrences [] ids))
           ++ dict_values structures
           ++ map average_template_node resolutions
           ++ map ara_nissl_node resolutions)).
Proof.
  unfold build_atlas. cbv zeta.
  rewrite mesh_loop, bind_Ok, mask_loop, bind_Ok.
  rewrite (for_each_ext ids _ _
             (λ structures mid,
                s ← structure_of py_repr ontology mid;
                Ok (dict_set mid s structures))).
  2: { intros st mid Hmid. apply structure_loop_body.
       apply first_occurrences_elem. by right. }
  destruct (for_each ids _ _) as [structures|e]; [|reflexivity].
  rewrite ?bind_Ok, average_template_loop, bind_Ok, ara_nissl_loop, bind_Ok.
  rewrite !dict_values_tabulate.
  destruct (dict_get 997 structures) as [root|e]; [|reflexivity].
  rewrite ?bind_Ok.
  destruct (Header _ _ _ _) as [header|e]; [|reflexivity].
  rewrite ?bind_Ok. do 2 f_equal.
  rewrite map_map. rewrite <- !app_assoc. reflexivity.
Qed.
Lemma structure_of_Ok_inv ontology (mid : Z) (s : node) :
  structure_of py_repr ontology mid = Ok s →
  ∃ entry color_hex_triplet name acronym allenAtlasId,
    dict_find mid ontology = Some entry
    ∧ dict_find "color_hex_triplet" entry = Some color_hex_triplet
    ∧ dict_find "safe_name" entry = Some name
    ∧ dict_find "acronym" entry = Some acronym
    ∧ dict_find "id" entry = Some allenAtlasId
    ∧ s = structure_node mid ("#" +:+ py_format py_repr color_hex_triplet)
            name acronym allenAtlasId.
Proof.
  unfold structure_of, dict_get. intros Hs.
  destruct (dict_find mid ontology) as [entry|] eqn:He; [|discriminate].
  rewrite bind_Ok in Hs.
  destruct (dict_find "color_hex_triplet" entry) as [cht|] eqn:Hc;
    [|discriminate].
  destruct (dict_find "safe_name" entry) as [name|] eqn:Hn; [|discriminate].
  destruct (dict_find "acronym" entry) as [acronym|] eqn:Ha; [|discriminate].
  destruct (dict_find "id" entry) as [allenAtlasId|] eqn:Hi; [|discriminate].
  rewrite ?bind_Ok in Hs. injection Hs as <-.
  by exists entry, cht, name, acronym, allenAtlasId.
Qed.

(** Whatever goes wrong for one mesh ID is a failed dictionary lookup. *)
Lemma structure_of_Raise_inv ontology (mid : Z) (e : py_error) :
  structure_of py_repr ontology mid = Raise e → ∃ k, e = KeyError k.
Proof.
  unfold structure_of, dict_get. intros Hs.
  destruct (dict_find mid ontology) as [entry|];
    [rewrite bind_Ok in Hs|injection Hs as <-; eauto].
  destruct (dict_find "color_hex_triplet" entry) as [cht|];
    [rewrite bind_Ok in Hs|injection Hs as <-; eauto].
  destruct (dict_find "safe_name" entry) as [name|];
    [rewrite bind_Ok in Hs|injection Hs as <-; eauto].
  destruct (dict_find "acronym" entry) as [acronym|];
    [rewrite bind_Ok in Hs|injection Hs as <-; eauto].
  destruct (dict_find "id" entry) as [allenAtlasId|];
    [rewrite bind_Ok in Hs; discriminate|injection Hs as <-; eauto].
Qed.

Lemma structure_of_not_key ontology (mid : Z) :
  mid ∉ dict_keys ontology →
  structure_of py_repr ontology mid = Raise (KeyError (VInt mid)).
Proof.
  intros Hmid%dict_find_None. unfold structure_of, dict_get.
  by rewrite Hmid.
Qed.

Lemma Header_structure (mid : Z) (color : string) (name acronym allenAtlasId : pyval) :
  Header "#__header__" [structure_node mid color name acronym allenAtlasId]
    (Some (map average_template_node resolutions))
    (Some (VDict [("name", VStr "Allen Mouse CCF Atlas");
                  ("about", VList [
                     VStr "http://help.brain-map.org/display/mousebrain/";
                     VStr "http://help.brain-map.org/display/mousebrain/API";
                     VStr "http://portal.brain-map.org/"])]))
  = Ok (dict_set "root" (VList [VStr (id_string (KStructure mid))]) header_node).
Proof. reflexivity. Qed.

(** The builder returns as soon as every mesh ID has its ontology fields
    and the root 997 is one of them. *)
Lemma build_atlas_Ok ontology ids :
  (∀ mid, mid ∈ ids → ∃ s, structure_of py_repr ontology mid = Ok s) →
  997 ∈ ids →
  build_atlas py_repr ontology ids
  = Ok (atlas_nodes py_repr ontology (first_occurrences [] ids)).
Proof.
  intros Hall Hroot. rewrite build_atlas_unfold.
  rewrite (for_each_fill _ (structure_or_empty py_repr ontology) ids []).
  2: { intros k Hk. destruct (Hall k Hk) as [s Hs].
       unfold structure_or_empty. by rewrite Hs. }
  rewrite bind_Ok, dict_get_tabulate by (apply first_occurrences_elem; by right).
  rewrite bind_Ok. destruct (Hall 997 Hroot) as [s Hs].
  assert (Hroot_node : structure_or_empty py_repr ontology 997 = s)
    by (unfold structure_or_empty; by rewrite Hs).
  rewrite Hroot_node.
  apply structure_of_Ok_inv in Hs
    as (entry & cht & name & acronym & aid & _ & _ & _ & _ & _ & ->).
  rewrite Header_structure, bind_Ok, dict_values_tabulate. reflexivity.
Qed.

Lemma build_atlas_Raise_structure ontology ids (mid : Z) (e0 : py_error) :
  mid ∈ ids → structure_of py_repr ontology mid = Raise e0 →
  ∃ mid' k, mid' ∈ ids
    ∧ structure_of py_repr ontology mid' = Raise (KeyError k)
    ∧ build_atlas py_repr ontology ids = Raise (KeyError k).
Proof.
  intros Hmid Hs. rewrite build_atlas_unfold.
  destruct (for_each_fill_Raise (structure_of py_repr ontology) ids [] mid e0
              Hmid Hs) as (mid' & e & Hmid' & He & ->).
  destruct (structure_of_Raise_inv _ _ _ He) as [k ->].
  by exists mid', k.
Qed.

Lemma build_atlas_Raise_root ontology ids :
  (∀ mid, mid ∈ ids → ∃ s, structure_of py_repr ontology mid = Ok s) →
  997 ∉ ids →
  build_atlas py_repr ontology ids = Raise (KeyError (VInt 997)).
Proof.
  intros Hall Hroot. rewrite build_atlas_unfold.
  rewrite (for_each_fill _ (structure_or_empty py_repr ontology) ids []).
  2: { intros k Hk. destruct (Hall k Hk) as [s Hs].
       unfold structure_or_empty. by rewrite Hs. }
  rewrite bind_Ok. unfold dict_get. rewrite dict_find_tabulate.
  rewrite decide_False; [reflexivity|].
  intros [?%elem_of_nil|?]%first_occurrences_elem; done.
Qed.

Lemma build_atlas_Ok_inv ontology ids (nodes : list node) :
  build_atlas py_repr ontology ids = Ok nodes →
  (∀ mid, mid ∈ ids → ∃ s, structure_of py_repr ontology mid = Ok s)
  ∧ 997 ∈ ids
  ∧ nodes = atlas_nodes py_repr ontology (first_occurrences [] ids).
Proof.
  intros Hb.
  assert (Hall : ∀ mid, mid ∈ ids →
                   ∃ s, structure_of py_repr ontology mid = Ok s).
  { intros mid Hmid.
    destruct (structure_of py_repr ontology mid) as [s|e0] eqn:Hs; [eauto|].
    destruct (build_atlas_Raise_structure _ _ _ _ Hmid Hs)
      as (? & ? & _ & _ & Hr). congruence. }
  destruct (decide (997 ∈ ids)) as [Hroot|Hroot].
  - rewrite build_atlas_Ok in Hb by done. by injection Hb as <-.
  - rewrite build_atlas_Raise_root in Hb by done. discriminate.
Qed.
End builder_facts.

(** ** The identifier scheme names every node differently *)

Lemma pretty_resolutions :
  pretty 10 = "10" ∧ pretty 25 = "25" ∧ pretty 50 = "50" ∧ pretty 100 = "100".
Proof. by vm_compute. Qed.

Lemma elem_of_resolutions (r : Z) :
  r ∈ resolutions → r = 10 ∨ r = 25 ∨ r = 50 ∨ r = 100.
Proof.
  unfold resolutions. rewrite !elem_of_cons, elem_of_nil. tauto.
Qed.

Lemma id_string_inj (k1 k2 : id_key) :
  id_key_ok k1 → id_key_ok k2 → id_string k1 = id_string k2 → k1 = k2.
Proof.
  destruct pretty_resolutions as (P10 & P25 & P50 & P100).
  intros H1 H2 Heq.
  destruct k1, k2; unfold id_key_ok in H1, H2;
    repeat match goal with
      | H : _ ∈ resolutions |- _ =>
          apply elem_of_resolutions in H as [-> | [-> | [-> | ->]]]
      end;
    cbn [id_string] in Heq; rewrite ?P10, ?P25, ?P50, ?P100 in Heq;
    cbn [String.append] in Heq;
    first [discriminate Heq | reflexivity | by simplify_eq].
Qed.

Lemma elem_of_concat_map {A B : Type} (f : A → list B) (l : list A) (x : B) :
  x ∈ concat (map f l) ↔ ∃ y, y ∈ l ∧ x ∈ f y.
Proof.
  induction l as [|a l IH]; simpl.
  - rewrite elem_of_nil. split; [done|]. by intros (y & ?%elem_of_nil & _).
  - rewrite elem_of_app, IH. split.
    + intros [Hx|(y & Hy & Hx)]; [exists a|exists y]; split; try done.
      * by left.
      * by right.
    + intros (y & [->|Hy]%elem_of_cons & Hx); [by left|right; eauto].
Qed.

Ltac elem_inv :=
  repeat match goal with
    | H : _ ∈ [] |- _ => by apply elem_of_nil in H
    | H : _ ∈ _ :: _ |- _ => apply elem_of_cons in H as [H|H]
    | H : _ ∈ _ ++ _ |- _ => apply elem_of_app in H as [H|H]
    | H : _ ∈ concat (map _ _) |- _ =>
        apply elem_of_concat_map in H as (? & ? & H)
    | H : _ ∈ map _ _ |- _ => apply list_elem_of_fmap in H as (? & H & ?)
    end.

Lemma resolutions_NoDup : NoDup resolutions.
Proof.
  unfold resolutions.
  repeat (apply NoDup_cons_2; [intros Hin; elem_inv; done|]).
  apply NoDup_nil_2.
Qed.

Lemma mask_keys_NoDup (u : list Z) :
  NoDup u → NoDup (concat (map (λ mid, map (λ r, KMask r mid) resolutions) u)).
Proof.
  induction 1 as [|mid u Hmid Hu IH]; [apply NoDup_nil_2|].
  rewrite map_cons, concat_cons. apply NoDup_app. split_and!.
  - apply (NoDup_fmap_2_strong (λ r, KMask r mid)); [|apply resolutions_NoDup].
    by intros r r' _ _ [=].
  - intros k Hk Hk'. elem_inv; subst; simplify_eq. done.
  - exact IH.
Qed.

Lemma atlas_keys_NoDup (u : list Z) : NoDup u → NoDup (atlas_keys u).
Proof.
  intros Hu. unfold atlas_keys. cbn [app].
  repeat (apply NoDup_cons_2; [intros Hin; elem_inv; discriminate|]).
  repeat (apply NoDup_app; split_and!;
          [|intros k Hk Hk'; unfold resolutions in *; simpl in *; elem_inv;
            subst; discriminate|]).
  - apply (NoDup_fmap_2_strong KMesh); [by intros ?? _ _ [=]|done].
  - by apply mask_keys_NoDup.
  - apply (NoDup_fmap_2_strong KStructure); [by intros ?? _ _ [=]|done].
  - apply (NoDup_fmap_2_strong KAverageTemplate); [by intros ?? _ _ [=]|].
    apply resolutions_NoDup.
  - apply (NoDup_fmap_2_strong KAraNissl); [by intros ?? _ _ [=]|].
    apply resolutions_NoDup.
Qed.

Lemma atlas_keys_ok (u : list Z) : Forall id_key_ok (atlas_keys u).
Proof.
  apply Forall_forall. intros k Hk. unfold atlas_keys in Hk.
  elem_inv; subst; simpl; try done.
Qed.

(** The [@id] of a node, when it has one. *)
Lemma atlas_nodes_ids (py_repr : pyval → string) (ontology : odict Z node)
    (u : list Z) :
  (∀ mid, mid ∈ u → ∃ s, structure_of py_repr ontology mid = Ok s) →
  map (dict_find "@id") (atlas_nodes py_repr ontology u)
  = map (λ k, Some (VStr (id_string k))) (atlas_keys u).
Proof.
  intros Hall. unfold atlas_nodes, atlas_keys.
  cbn [map app base_url_nodes]. rewrite !map_app, !map_map.
  rewrite !concat_map, !map_map.
  assert (Hs : map (λ x, dict_find "@id" (structure_or_empty py_repr ontology x)) u
               = map (λ x, Some (VStr (id_string (KStructure x)))) u).
  { apply map_ext_in. intros mid Hmid%list_elem_of_In.
    destruct (Hall mid Hmid) as [s Hs]. unfold structure_or_empty. rewrite Hs.
    by apply structure_of_Ok_inv in Hs
      as (? & ? & ? & ? & ? & _ & _ & _ & _ & _ & ->). }
  rewrite Hs. reflexivity.
Qed.

(** ** What the builder emits *)

Lemma has_id_true (s : string) (n : node) :
  has_id s n = true ↔ dict_find "@id" n = Some (VStr s).
Proof.
  unfold has_id, py_eq_str.
  destruct (dict_find "@id" n) as [[t| | |]|];
    try (split; [discriminate|by intros [=]]).
  rewrite bool_decide_eq_true. split; [by intros ->|by intros [= ->]].
Qed.

(** In a list of nodes with distinct [@id]s, a node is the only one with
    its [@id]. *)
Lemma filter_has_id_unique (nodes : list node) (n : node) (s : string) :
  NoDup (map (dict_find "@id") nodes) → n ∈ nodes →
  dict_find "@id" n = Some (VStr s) →
  List.filter (has_id s) nodes = [n].
Proof.
  intros Hnd Hn Hid.
  induction nodes as [|a nodes IH]; [by apply elem_of_nil in Hn|].
  simpl in Hnd. apply NoDup_cons in Hnd as [Ha Hnd].
  assert (Hnone : ∀ b, b ∈ nodes → dict_find "@id" b = dict_find "@id" a →
                   False).
  { intros b Hb Hba. apply Ha. rewrite <- Hba.
    apply list_elem_of_fmap. by exists b. }
  simpl. apply elem_of_cons in Hn as [->|Hn].
  - apply has_id_true in Hid as Hida. rewrite Hida. f_equal.
    clear IH Ha Hnd Hida.
    induction nodes as [|b nodes IH]; [reflexivity|]. simpl.
    destruct (has_id s b) eqn:Hb.
    + exfalso. apply has_id_true in Hb. apply (Hnone b); [by left|congruence].
    + apply IH. intros c Hc. apply Hnone. by right.
  - destruct (has_id s a) eqn:Ha'.
    + exfalso. apply has_id_true in Ha'. apply (Hnone n Hn). congruence.
    + by apply IH.
Qed.

Section builder_output.
Variable py_repr : pyval → string.
Implicit Types (ontology : odict Z node) (ids u : list Z).

Lemma structure_of_Ok_iff ontology (mid : Z) :
  (∃ s, structure_of py_repr ontology mid = Ok s) ↔ resolves ontology mid.
Proof.
  split.
  - intros [s Hs]. apply structure_of_Ok_inv in Hs
      as (entry & c & n & a & i & He & Hc & Hn & Ha & Hi & _).
    exists entry. unfold entry_complete. rewrite Hc, Hn, Ha, Hi. eauto 10.
  - intros (entry & He & [c Hc] & [n Hn] & [a Ha] & [i Hi]).
    unfold structure_of, dict_get. rewrite He, bind_Ok, Hc, Hn, Ha, Hi.
    eauto.
Qed.

Lemma atlas_nodes_NoDup ontology u :
  NoDup u →
  (∀ mid, mid ∈ u → ∃ s, structure_of py_repr ontology mid = Ok s) →
  NoDup (map (dict_find "@id") (atlas_nodes py_repr ontology u)).
Proof.
  intros Hu Hall. rewrite atlas_nodes_ids by done.
  apply (NoDup_fmap_2_strong (λ k, Some (VStr (id_string k))));
    [|by apply atlas_keys_NoDup].
  intros k1 k2 Hk1 Hk2 [= Heq].
  pose proof (atlas_keys_ok u) as Hok. rewrite Forall_forall in Hok.
  apply id_string_inj; auto.
Qed.

Lemma mesh_ds_node_emitted ontology u (mid : Z) :
  mid ∈ u → mesh_ds_node mid ∈ atlas_nodes py_repr ontology u.
Proof.
  intros Hmid. unfold atlas_nodes. right.
  rewrite !elem_of_app. right. left.
  apply list_elem_of_fmap. by exists mid.
Qed.

Lemma mask_ds_node_emitted ontology u (mid r : Z) :
  mid ∈ u → r ∈ resolutions →
  mask_ds_node mid r ∈ atlas_nodes py_repr ontology u.
Proof.
  intros Hmid Hr. unfold atlas_nodes. right.
  rewrite !elem_of_app. right. right. left.
  apply elem_of_concat_map. exists mid. split; [done|].
  apply list_elem_of_fmap. by exists r.
Qed.

Lemma structure_node_emitted ontology u (mid : Z) :
  mid ∈ u → structure_or_empty py_repr ontology mid
            ∈ atlas_nodes py_repr ontology u.
Proof.
  intros Hmid. unfold atlas_nodes. right.
  rewrite !elem_of_app. right. right. right. left.
  apply list_elem_of_fmap. by exists mid.
Qed.

(** What a successful run returns, with the facts the theorems below
    draw on. *)
Lemma build_atlas_Ok_nodes ontology ids (nodes : list node) :
  build_atlas py_repr ontology ids = Ok nodes →
  let u := first_occurrences [] ids in
  nodes = atlas_nodes py_repr ontology u
  ∧ NoDup (map (dict_find "@id") nodes)
  ∧ 997 ∈ ids
  ∧ ∀ mid, mid ∈ ids →
      mid ∈ u
      ∧ ∃ color name acronym allenAtlasId,
          structure_or_empty py_repr ontology mid
          = structure_node mid color name acronym allenAtlasId.
Proof.
  intros (Hall & Hroot & ->)%build_atlas_Ok_inv. cbv zeta.
  assert (Hu : ∀ mid, mid ∈ first_occurrences [] ids ↔ mid ∈ ids).
  { intros mid. rewrite first_occurrences_elem, elem_of_nil. tauto. }
  split_and!; [done| |done|].
  - apply atlas_nodes_NoDup.
    + apply first_occurrences_NoDup, NoDup_nil_2.
    + intros mid Hmid%Hu. by apply Hall.
  - intros mid Hmid. split; [by apply Hu|].
    destruct (Hall mid Hmid) as [s Hs]. unfold structure_or_empty.
    rewrite Hs. apply structure_of_Ok_inv in Hs
      as (entry & c & n & a & i & _ & _ & _ & _ & _ & ->).
    eauto.
Qed.
End builder_output.

Section builder_theorems.
Variable py_repr : pyval → string.
Implicit Types (ontology : odict Z node) (ids : list Z) (nodes : list node).

Lemma structures_all_or_raise ontology ids :
  (∀ mid, mid ∈ ids → ∃ s, structure_of py_repr ontology mid = Ok s)
  ∨ (∃ mid e, mid ∈ ids ∧ structure_of py_repr ontology mid = Raise e).
Proof.
  induction ids as [|mid ids [IH|(mid' & e & Hin & He)]].
  - left. by intros mid ?%elem_of_nil.
  - destruct (structure_of py_repr ontology mid) as [s|e] eqn:Hs.
    + left. intros mid' [->|Hin]%elem_of_cons; eauto.
    + right. exists mid, e. split; [by left|done].
  - right. exists mid', e. split; [by right|done].
Qed.

(** C1, amended: whenever [build_atlas] returns a document, that document
    holds, for every mesh ID passed in, exactly one node named
    [#structure_<id>], which is a [Structure], and exactly one node named
    [#mesh_ds_<id>], whose type list is [DataSource],
    [GeometryDataSource], [TriangleMeshDataSource]; mesh IDs passed more
    than once change nothing. *)
Theorem build_atlas_mesh_and_structure_nodes ontology ids nodes :
  build_atlas py_repr ontology ids = Ok nodes →
  mesh_and_structure_emitted ids nodes.
Proof.
  intros (-> & Hnd & _ & Hids)%build_atlas_Ok_nodes mid Hmid.
  destruct (Hids mid Hmid) as (Hu & c & n & a & i & Hs). split.
  - exists (structure_or_empty py_repr ontology mid). split.
    + apply filter_has_id_unique; [done|by apply structure_node_emitted|].
      by rewrite Hs.
    + by rewrite Hs.
  - exists (mesh_ds_node mid). split; [|reflexivity].
    apply filter_has_id_unique; [done|by apply mesh_ds_node_emitted|].
    reflexivity.
Qed.

(** C2, amended: whenever [build_atlas] returns a document, that document
    holds, for every mesh ID [m] passed in and every resolution [r] of 10,
    25, 50, 100, exactly one node named [#mask_ds_<r>_<m>], a voxel-mask
    data source, and the [shape.dataSource] list of the node
    [#structure_<m>] is [#mesh_ds_<m>] followed by the four mask
    identifiers of [m] in the order of the resolutions. *)
Theorem build_atlas_mask_nodes ontology ids nodes :
  build_atlas py_repr ontology ids = Ok nodes →
  masks_emitted ids nodes.
Proof.
  intros (-> & Hnd & _ & Hids)%build_atlas_Ok_nodes mid Hmid.
  destruct (Hids mid Hmid) as (Hu & c & n & a & i & Hs). split.
  - intros r Hr. exists (mask_ds_node mid r). split; [|reflexivity].
    apply filter_has_id_unique; [done|by apply mask_ds_node_emitted|].
    reflexivity.
  - exists (structure_or_empty py_repr ontology mid). eexists. split_and!.
    + apply filter_has_id_unique; [done|by apply structure_node_emitted|].
      by rewrite Hs.
    + rewrite Hs. reflexivity.
    + reflexivity.
Qed.

(** C3: whenever [build_atlas] returns a document, its first node is the
    [Header] node and the [root] field of that node is the one-element list
    [["#structure_997"]]. *)
Theorem build_atlas_header_first ontology ids nodes :
  build_atlas py_repr ontology ids = Ok nodes →
  ∃ header rest,
    nodes = header :: rest
    ∧ dict_find "@type" header = Some (VStr "Header")
    ∧ dict_find "root" header = Some (VList [VStr "#structure_997"]).
Proof.
  intros (-> & _)%build_atlas_Ok_nodes.
  unfold atlas_nodes. eexists _, _. split_and!; reflexivity.
Qed.

(** C5: whenever [build_atlas] returns a document, every node of it has an
    [@id], a string, and no two nodes have the same one. *)
Theorem build_atlas_ids_distinct ontology ids nodes :
  build_atlas py_repr ontology ids = Ok nodes →
  NoDup (map (dict_find "@id") nodes)
  ∧ Forall (λ n, ∃ s, dict_find "@id" n = Some (VStr s)) nodes.
Proof.
  intros Hb. pose proof Hb as (_ & Hnd & _)%build_atlas_Ok_nodes.
  split; [done|].
  apply build_atlas_Ok_inv in Hb as (Hall & _ & ->).
  apply Forall_forall. intros n Hn.
  assert (Hid : dict_find "@id" n
                ∈ map (dict_find "@id")
                    (atlas_nodes py_repr ontology (first_occurrences [] ids))).
  { apply list_elem_of_fmap. by exists n. }
  rewrite atlas_nodes_ids in Hid.
  - apply list_elem_of_fmap in Hid as (k & -> & _). eauto.
  - intros mid Hmid%first_occurrences_elem. apply Hall.
    destruct Hmid as [?%elem_of_nil|?]; done.
Qed.

(** C10: when 997 is not among the mesh IDs, [build_atlas] returns no
    document but raises a [KeyError]; and when every mesh ID has its
    ontology entry and fields, so that every mesh, mask and structure node
    has been made, the error is the lookup of 997 among the structures. *)
Theorem build_atlas_needs_root ontology ids :
  997 ∉ ids →
  (∃ k, build_atlas py_repr ontology ids = Raise (KeyError k))
  ∧ (∀ nodes, build_atlas py_repr ontology ids ≠ Ok nodes)
  ∧ ((∀ mid, mid ∈ ids → resolves ontology mid) →
     build_atlas py_repr ontology ids = Raise (KeyError (VInt 997))).
Proof.
  intros Hroot.
  assert (Hk : ∃ k, build_atlas py_repr ontology ids = Raise (KeyError k)).
  { destruct (structures_all_or_raise ontology ids)
      as [Hall|(mid & e & Hin & He)].
    - exists (VInt 997). by apply build_atlas_Raise_root.
    - destruct (build_atlas_Raise_structure _ _ _ _ _ Hin He)
        as (_ & k & _ & _ & Hr). eauto. }
  split_and!; [done| |].
  - intros nodes Hn. destruct Hk as [k Hk]. congruence.
  - intros Hall. apply build_atlas_Raise_root; [|done].
    intros mid Hmid. by apply structure_of_Ok_iff, Hall.
Qed.

Lemma build_atlas_unknown_mesh_id ontology ids (mid : Z) :
  mid ∈ ids → mid ∉ dict_keys ontology →
  ∃ k, build_atlas py_repr ontology ids = Raise (KeyError k).
Proof.
  intros Hin Hkey.
  destruct (build_atlas_Raise_structure py_repr ontology ids mid
              (KeyError (VInt mid)) Hin (structure_of_not_key _ _ _ Hkey))
    as (_ & k & _ & _ & Hr).
  eauto.
Qed.
End builder_theorems.

Lemma build_atlas_sample :
  build_atlas sample_repr sample_ontology [997; 8; 997]
  = Ok (atlas_nodes sample_repr sample_ontology [997; 8]).
Proof. by vm_compute. Qed.

Lemma build_atlas_rootless :
  build_atlas sample_repr rootless_ontology [8] = Raise (KeyError (VInt 997)).
Proof. by vm_compute. Qed.

Lemma build_atlas_mesh_and_structure_nodes_witness :
  build_atlas sample_repr sample_ontology [997; 8; 997]
  = Ok (atlas_nodes sample_repr sample_ontology [997; 8])
  ∧ mesh_and_structure_emitted [997; 8; 997]
      (atlas_nodes sample_repr sample_ontology [997; 8]).
Proof.
  split; [by vm_compute|].
  apply (build_atlas_mesh_and_structure_nodes sample_repr sample_ontology).
  by vm_compute.
Defined.

(** C1 as stated fails: 8 is a key of [rootless_ontology], yet for the mesh
    IDs [[8]] the builder raises and so emits no node at all. *)
Lemma build_atlas_rootless_emits_nothing :
  (∀ mid, mid ∈ [8] → mid ∈ dict_keys rootless_ontology)
  ∧ build_atlas sample_repr rootless_ontology [8] = Raise (KeyError (VInt 997))
  ∧ ¬ ∃ nodes, build_atlas sample_repr rootless_ontology [8] = Ok nodes
               ∧ mesh_and_structure_emitted [8] nodes.
Proof.
  split_and!.
  - intros mid ->%list_elem_of_singleton. by left.
  - exact build_atlas_rootless.
  - intros (nodes & Hb & _). rewrite build_atlas_rootless in Hb. discriminate.
Qed.

Lemma build_atlas_mask_nodes_witness :
  build_atlas sample_repr sample_ontology [997; 8; 997]
  = Ok (atlas_nodes sample_repr sample_ontology [997; 8])
  ∧ masks_emitted [997; 8; 997]
      (atlas_nodes sample_repr sample_ontology [997; 8]).
Proof.
  split; [by vm_compute|].
  apply (build_atlas_mask_nodes sample_repr sample_ontology).
  by vm_compute.
Defined.

(** C2 as stated fails: for the mesh IDs [[8]] and [rootless_ontology] the
    builder raises, so no mask node and no structure node is emitted. *)
Lemma build_atlas_rootless_no_masks :
  build_atlas sample_repr rootless_ontology [8] = Raise (KeyError (VInt 997))
  ∧ ¬ ∃ nodes, build_atlas sample_repr rootless_ontology [8] = Ok nodes
               ∧ masks_emitted [8] nodes.
Proof.
  split; [exact build_atlas_rootless|].
  intros (nodes & Hb & _). rewrite build_atlas_rootless in Hb. discriminate.
Qed.

Lemma build_atlas_header_first_witness :
  build_atlas sample_repr sample_ontology [997; 8; 997]
  = Ok (atlas_nodes sample_repr sample_ontology [997; 8])
  ∧ ∃ header rest,
      atlas_nodes sample_repr sample_ontology [997; 8] = header :: rest
      ∧ dict_find "@type" header = Some (VStr "Header")
      ∧ dict_find "root" header = Some (VList [VStr "#structure_997"]).
Proof.
  split; [by vm_compute|].
  apply (build_atlas_header_first sample_repr sample_ontology [997; 8; 997]).
  by vm_compute.
Defined.

Lemma build_atlas_ids_distinct_witness :
  build_atlas sample_repr sample_ontology [997; 8; 997]
  = Ok (atlas_nodes sample_repr sample_ontology [997; 8])
  ∧ NoDup (map (dict_find "@id")
             (atlas_nodes sample_repr sample_ontology [997; 8])).
Proof.
  split; [by vm_compute|].
  apply (build_atlas_ids_distinct sample_repr sample_ontology [997; 8; 997]).
  by vm_compute.
Defined.

Lemma build_atlas_needs_root_witness :
  (997 ∉ [8])
  ∧ build_atlas sample_repr rootless_ontology [8] = Raise (KeyError (VInt 997)).
Proof.
  assert (Hroot : 997 ∉ [8]) by (by intros [=]%list_elem_of_singleton).
  split; [done|].
  apply (build_atlas_needs_root sample_repr rootless_ontology [8] Hroot).
  intros mid ->%list_elem_of_singleton.
  exists (sample_entry 8 (VStr "") (VStr "BFDAE3") "grey").
  split; [reflexivity|]. unfold entry_complete. simpl. eauto 10.
Defined.

(** ** The hierarchy linker *)

Lemma dict_find_add_children_other (f : string) (e : node) (cs : list pyval) :
  f ≠ "child_structure_ids" →
  dict_find f (add_children e cs) = dict_find f e.
Proof.
  intros Hf. destruct cs as [|c cs]; [reflexivity|].
  by apply dict_find_set_ne.
Qed.

Lemma add_children_snoc (e : node) (cs : list pyval) (x : pyval) :
  dict_find "child_structure_ids" e = None →
  dict_set "child_structure_ids" (VList (cs ++ [x]))
    (match dict_find "child_structure_ids" (add_children e cs) with
     | Some _ => add_children e cs
     | None => dict_set "child_structure_ids" (VList []) (add_children e cs)
     end)
  = add_children e (cs ++ [x]).
Proof.
  intros He. destruct cs as [|c cs]; simpl.
  - rewrite He. apply dict_set_set.
  - rewrite dict_find_set_eq. apply dict_set_set.
Qed.

Lemma children_ids_snoc (visited : odict Z node) (k : Z) (e : node) (p : Z) :
  children_ids (visited ++ [(k, e)]) p
  = children_ids visited p ++ (if is_child_of p e then [VInt k] else []).
Proof.
  unfold children_ids. rewrite List.filter_app, map_app. simpl.
  by destruct (is_child_of p e).
Qed.

Lemma dict_find_map_values {V W : Type} (g : Z → V → W) (d : odict Z V) (k : Z) :
  dict_find k (map (λ ke, (ke.1, g ke.1 ke.2)) d) = g k <$> dict_find k d.
Proof.
  induction d as [|[k' v] d IH]; simpl; [reflexivity|].
  destruct (decide (k = k')) as [->|Hne]; [reflexivity|apply IH].
Qed.

Lemma dict_set_map_values {V W : Type} (g : Z → V → W) (d : odict Z V)
    (z : Z) (w : W) :
  dict_ok d → z ∈ dict_keys d →
  dict_set z w (map (λ ke, (ke.1, g ke.1 ke.2)) d)
  = map (λ ke, (ke.1, if decide (ke.1 = z) then w else g ke.1 ke.2)) d.
Proof.
  unfold dict_ok.
  induction d as [|[k' v] d IH]; simpl; [by intros _ ?%elem_of_nil|].
  intros [Hnin Hnd]%NoDup_cons Hz.
  destruct (decide (z = k')) as [->|Hne].
  - rewrite decide_True by done. f_equal.
    apply map_ext_in. intros [k v'] Hin%list_elem_of_In. simpl.
    rewrite decide_False; [reflexivity|]. intros ->. apply Hnin.
    apply list_elem_of_fmap. by exists (k', v').
  - rewrite (decide_False (P := k' = z)) by done. f_equal.
    apply IH; [done|]. apply elem_of_cons in Hz as [?|?]; done.
Qed.

Lemma dict_find_of_elem (ontology : odict Z node) (k : Z) :
  k ∈ dict_keys ontology → ∃ e, (k, e) ∈ ontology.
Proof.
  intros ([k' e] & -> & Hin)%list_elem_of_fmap. by exists e.
Qed.

Lemma dict_get_link_children (visited ontology : odict Z node) (k : Z) (e : node) :
  dict_ok ontology → (k, e) ∈ ontology →
  dict_get k (link_children visited ontology)
  = Ok (add_children e (children_ids visited k)).
Proof.
  intros Hok Hin. unfold dict_get, link_children.
  rewrite (dict_find_map_values (λ k e, add_children e (children_ids visited k))).
  by rewrite (dict_find_elem k e ontology).
Qed.

Lemma link_children_skip (visited ontology : odict Z node) (k : Z) (e : node) :
  (∀ p, is_child_of p e = false) →
  link_children (visited ++ [(k, e)]) ontology = link_children visited ontology.
Proof.
  intros He. unfold link_children. apply map_ext. intros [k' e']. simpl.
  by rewrite children_ids_snoc, He, app_nil_r.
Qed.

Lemma link_children_attach (visited ontology : odict Z node) (k p : Z)
    (e pe : node) :
  dict_ok ontology → (p, pe) ∈ ontology →
  dict_find "parent_structure_id" e = Some (VInt p) →
  dict_set p (add_children pe (children_ids visited p ++ [VInt k]))
    (link_children visited ontology)
  = link_children (visited ++ [(k, e)]) ontology.
Proof.
  intros Hok Hpe Hp. unfold link_children.
  rewrite (dict_set_map_values
             (λ k e, add_children e (children_ids visited k))); [|done|].
  2: { apply list_elem_of_fmap. by exists (p, pe). }
  apply map_ext_in. intros [k' e'] Hin%list_elem_of_In. simpl.
  rewrite children_ids_snoc. unfold is_child_of. rewrite Hp.
  destruct (decide (k' = p)) as [->|Hne].
  - rewrite bool_decide_eq_true_2 by done.
    assert (e' = pe) as ->; [|done].
    pose proof (dict_find_elem p pe ontology Hok Hpe).
    pose proof (dict_find_elem p e' ontology Hok Hin). congruence.
  - rewrite bool_decide_eq_false_2 by done. by rewrite app_nil_r.
Qed.

Lemma dict_get_Some {K V : Type} `{EqDecision K} `{PyKey K}
    (k : K) (v : V) (d : odict K V) :
  dict_find k d = Some v → dict_get k d = Ok v.
Proof. unfold dict_get. by intros ->. Qed.

Lemma dict_get_add_children_other (f : string) (e : node) (cs : list pyval) :
  f ≠ "child_structure_ids" →
  dict_get f (add_children e cs) = dict_get f e.
Proof.
  intros Hf. unfold dict_get. by rewrite dict_find_add_children_other.
Qed.

(** One turn of the loop attaches the entry it visits. *)
Lemma find_children_step_link (visited ontology : odict Z node) (k : Z) (e : node) :
  dict_ok ontology → unlinked ontology → indexed_by_id ontology →
  parents_resolve ontology → (k, e) ∈ ontology →
  find_children_step (link_children visited ontology) k
  = Ok (link_children (visited ++ [(k, e)]) ontology).
Proof.
  intros Hok Hun Hid Hres Hin. unfold find_children_step.
  rewrite (dict_get_link_children _ _ k e), bind_Ok by done.
  rewrite (dict_get_add_children_other "parent_structure_id") by done.
  destruct (Hres k e Hin) as [Hp|(p & Hp & Hpk)];
    rewrite (dict_get_Some _ _ _ Hp), bind_Ok.
  - simpl. f_equal. symmetry. apply link_children_skip.
    intros p. unfold is_child_of. by rewrite Hp.
  - simpl. destruct (dict_find_of_elem _ _ Hpk) as [pe Hpe].
    rewrite (dict_get_link_children _ _ p pe), !bind_Ok by done.
    cbv beta iota.
    rewrite <- (link_children_attach visited ontology k p e pe) by done.
    pose proof (Hun p pe Hpe) as Hc.
    pose proof (Hid k e Hin) as Hide.
    rewrite <- (add_children_snoc pe (children_ids visited p) (VInt k)) by done.
    assert (Hget : ∀ cs,
              dict_get "id"
                (if decide (p = k)
                 then dict_set "child_structure_ids" (VList cs) pe
                 else add_children e (children_ids visited k))
              = Ok (VInt k)).
    { intros cs. destruct (decide (p = k)) as [->|Hne].
      - assert (pe = e) as ->.
        { pose proof (dict_find_elem k pe ontology Hok Hpe).
          pose proof (dict_find_elem k e ontology Hok Hin). congruence. }
        unfold dict_get. rewrite dict_find_set_ne by done. by rewrite Hide.
      - rewrite dict_get_add_children_other by done.
        by apply dict_get_Some. }
    destruct (children_ids visited p) as [|c cs] eqn:Hcs.
    + simpl. rewrite Hc. simpl. rewrite Hget, bind_Ok. reflexivity.
    + simpl. rewrite dict_find_set_eq. simpl. rewrite Hget, bind_Ok.
      reflexivity.
Qed.

Lemma find_children_loop (visited todo ontology : odict Z node) :
  ontology = visited ++ todo →
  dict_ok ontology → unlinked ontology → indexed_by_id ontology →
  parents_resolve ontology →
  for_each (dict_keys todo) (link_children visited ontology) find_children_step
  = Ok (link_children ontology ontology).
Proof.
  intros Ho Hok Hun Hid Hres. revert visited Ho.
  induction todo as [|[k e] todo IH]; intros visited Ho.
  - rewrite app_nil_r in Ho. by subst.
  - simpl. rewrite (find_children_step_link _ _ k e); try done.
    + rewrite bind_Ok. apply IH. by rewrite <- app_assoc.
    + rewrite Ho. apply elem_of_app. right. by left.
Qed.

(** Linking in closed form. *)
Lemma find_children_link (ontology : odict Z node) :
  dict_ok ontology → unlinked ontology → indexed_by_id ontology →
  parents_resolve ontology →
  find_children ontology = Ok (link_children ontology ontology).
Proof.
  intros Hok Hun Hid Hres. unfold find_children.
  assert (Hstart : link_children [] ontology = ontology).
  { unfold link_children. rewrite <- (map_id ontology) at 2.
    apply map_ext. by intros [k e]. }
  rewrite <- Hstart at 2. by apply find_children_loop.
Qed.

Lemma py_count_children_not_key (ontology : odict Z node) (p k : Z) :
  k ∉ dict_keys ontology → py_count (VInt k) (children_ids ontology p) = 0%nat.
Proof.
  unfold py_count, children_ids.
  induction ontology as [|[k' e'] o IH]; [reflexivity|].
  intros Hk. simpl in Hk. apply not_elem_of_cons in Hk as [Hne Hk].
  simpl. destruct (is_child_of p e'); [|by apply IH].
  simpl. rewrite bool_decide_eq_false_2 by done. by apply IH.
Qed.

Lemma py_count_children_elem (ontology : odict Z node) (p k : Z) (e : node) :
  dict_ok ontology → (k, e) ∈ ontology →
  py_count (VInt k) (children_ids ontology p)
  = if is_child_of p e then 1%nat else 0%nat.
Proof.
  unfold dict_ok.
  induction ontology as [|[k' e'] o IH]; [by intros _ ?%elem_of_nil|].
  simpl. intros [Hnin Hnd]%NoDup_cons [Heq|Hin]%elem_of_cons.
  - injection Heq as <- <-.
    pose proof (py_count_children_not_key o p k Hnin) as H0.
    unfold py_count, children_ids in *. simpl.
    destruct (is_child_of p e); [|done].
    simpl. rewrite bool_decide_eq_true_2 by done. simpl. by rewrite H0.
  - specialize (IH Hnd Hin). unfold py_count, children_ids in *. simpl.
    destruct (is_child_of p e'); [|done]. simpl.
    rewrite bool_decide_eq_false_2; [done|].
    intros ->. apply Hnin. apply list_elem_of_fmap. by exists (k', e).
Qed.

Lemma dict_keys_link_children (visited ontology : odict Z node) :
  dict_keys (link_children visited ontology) = dict_keys ontology.
Proof.
  unfold dict_keys, link_children. rewrite map_map. reflexivity.
Qed.

(** The child list of an entry of the linked mapping. *)
Lemma linked_child_list (ontology : odict Z node) (p : Z) (pe' : node) (v : pyval) :
  dict_ok ontology → unlinked ontology →
  dict_find p (link_children ontology ontology) = Some pe' →
  dict_find "child_structure_ids" pe' = Some v →
  v = VList (children_ids ontology p).
Proof.
  intros Hok Hun Hp Hc. unfold link_children in Hp.
  rewrite (dict_find_map_values
             (λ k e, add_children e (children_ids ontology k))) in Hp.
  destruct (dict_find p ontology) as [pe|] eqn:Hpe; [|discriminate].
  injection Hp as <-. apply dict_find_Some_elem in Hpe.
  destruct (children_ids ontology p) as [|c cs]; simpl in Hc.
  - rewrite (Hun p pe Hpe) in Hc. discriminate.
  - rewrite dict_find_set_eq in Hc. congruence.
Qed.

(** C4: for a mapping whose entries hold no child list yet, are stored
    under their [id], and name as parent nothing or a key of the mapping,
    [find_children] returns, and in the mapping it leaves every entry with a
    parent occurs exactly once in the child list of that parent, while an
    entry with the empty parent is passed over: its turn of the loop leaves
    the mapping as it was, and it occurs in no child list. *)
Theorem find_children_links_each_child_once (ontology : odict Z node) :
  dict_ok ontology → unlinked ontology → indexed_by_id ontology →
  parents_resolve ontology →
  ∃ linked,
    find_children ontology = Ok linked
    ∧ dict_keys linked = dict_keys ontology
    ∧ (∀ k e p, (k, e) ∈ ontology →
         dict_find "parent_structure_id" e = Some (VInt p) →
         ∃ pe l, dict_find p linked = Some pe
                 ∧ dict_find "child_structure_ids" pe = Some (VList l)
                 ∧ py_count (VInt k) l = 1%nat)
    ∧ (∀ k e, (k, e) ∈ ontology →
         dict_find "parent_structure_id" e = Some (VStr "") →
         (∀ state e', dict_find k state = Some e' →
            dict_find "parent_structure_id" e' = Some (VStr "") →
            find_children_step state k = Ok state)
         ∧ ∀ p pe l, dict_find p linked = Some pe →
             dict_find "child_structure_ids" pe = Some (VList l) →
             py_count (VInt k) l = 0%nat).
Proof.
  intros Hok Hun Hid Hres. exists (link_children ontology ontology).
  split_and!.
  - by apply find_children_link.
  - apply dict_keys_link_children.
  - intros k e p Hin Hp.
    destruct (Hres k e Hin) as [Hp'|(p' & Hp' & Hpk)]; [congruence|].
    assert (p' = p) as -> by congruence.
    destruct (dict_find_of_elem _ _ Hpk) as [pe Hpe].
    assert (Hcount : py_count (VInt k) (children_ids ontology p) = 1%nat).
    { rewrite (py_count_children_elem ontology p k e) by done.
      unfold is_child_of. rewrite Hp. by rewrite bool_decide_eq_true_2. }
    exists (add_children pe (children_ids ontology p)),
           (children_ids ontology p).
    split_and!; [|  |done].
    + unfold link_children.
      rewrite (dict_find_map_values
                 (λ k e, add_children e (children_ids ontology k))).
      by rewrite (dict_find_elem p pe ontology).
    + destruct (children_ids ontology p) as [|c cs]; [discriminate|].
      apply dict_find_set_eq.
  - intros k e Hin Hp. split.
    + intros state e' He' Hp'. unfold find_children_step.
      rewrite (dict_get_Some _ _ _ He'), bind_Ok.
      by rewrite (dict_get_Some _ _ _ Hp'), bind_Ok.
    + intros p pe l Hpe Hl.
      pose proof (linked_child_list _ _ _ _ Hok Hun Hpe Hl) as [= ->].
      rewrite (py_count_children_elem ontology p k e) by done.
      unfold is_child_of. by rewrite Hp.
Qed.

(** ** Parents that do not resolve *)

Lemma py_eq_str_true (v : pyval) (s : string) :
  py_eq_str v s = true ↔ v = VStr s.
Proof.
  destruct v as [t| | |]; simpl; try (split; [discriminate|by intros [=]]).
  rewrite bool_decide_eq_true. split; [by intros ->|by intros [= ->]].
Qed.

Lemma same_links_refl (ontology : odict Z node) :
  dict_ok ontology → linkable ontology → same_links ontology ontology.
Proof.
  intros Hok Hl. split; [reflexivity|]. intros k e Hin. exists e.
  split_and!; [by apply dict_find_elem|reflexivity|].
  by apply (Hl k e Hin).
Qed.

Lemma same_links_set (ontology state : odict Z node) (z : Z)
    (parent parent' : node) (l : list pyval) :
  same_links ontology state →
  dict_find z state = Some parent →
  dict_find "parent_structure_id" parent'
  = dict_find "parent_structure_id" parent →
  dict_find "child_structure_ids" parent' = Some (VList l) →
  same_links ontology (dict_set z parent' state).
Proof.
  intros [Hkeys Hent] Hz Hp Hc. split.
  - rewrite dict_keys_set, decide_True; [done|].
    apply dict_find_is_Some. by rewrite Hz.
  - intros k e Hin. destruct (Hent k e Hin) as (e' & He' & Hpe & Hce).
    destruct (decide (k = z)) as [->|Hne].
    + exists parent'. rewrite dict_find_set_eq. split_and!; [done| |].
      * rewrite Hp. congruence.
      * intros v Hv. rewrite Hc in Hv. injection Hv as <-. eauto.
    + exists e'. by rewrite dict_find_set_ne.
Qed.

(** A turn of the loop keeps the invariant, and if it raises, what it
    raises is a [KeyError]. *)
Lemma find_children_step_inv (ontology state : odict Z node) (k : Z) :
  dict_ok ontology → linkable ontology → same_links ontology state →
  match find_children_step state k with
  | Ok state' => same_links ontology state'
  | Raise err => ∃ key, err = KeyError key
  end.
Proof.
  intros Hok Hl Hs. unfold find_children_step, dict_get.
  destruct (dict_find k state) as [e'|] eqn:He'; [|simpl; eauto].
  rewrite bind_Ok.
  destruct (dict_find "parent_structure_id" e') as [p|] eqn:Hp; [|simpl; eauto].
  rewrite bind_Ok. destruct (py_eq_str p "") eqn:Hempty; [done|].
  assert (Hhash : py_hashable p = true).
  { assert (Hk : k ∈ dict_keys ontology).
    { rewrite <- (proj1 Hs). apply dict_find_is_Some. by rewrite He'. }
    destruct (dict_find_of_elem _ _ Hk) as [e Hin].
    destruct (proj2 Hs k e Hin) as (e'' & He'' & Hpe & _).
    assert (e'' = e') as -> by congruence.
    apply (proj2 (Hl k e Hin)). congruence. }
  destruct p as [t|z|l|d]; try discriminate; simpl; [eauto|].
  unfold dict_get.
  destruct (dict_find z state) as [parent|] eqn:Hz; [|simpl; eauto].
  rewrite !bind_Ok. cbv beta iota.
  assert (Hparent : ∀ v, dict_find "child_structure_ids" parent = Some v →
                      ∃ l, v = VList l).
  { assert (Hk : z ∈ dict_keys ontology).
    { rewrite <- (proj1 Hs). apply dict_find_is_Some. by rewrite Hz. }
    destruct (dict_find_of_elem _ _ Hk) as [e Hin].
    destruct (proj2 Hs z e Hin) as (e'' & He'' & _ & Hc).
    assert (e'' = parent) as -> by congruence. done. }
  destruct (dict_find "child_structure_ids" parent) as [v|] eqn:Hc.
  - destruct (Hparent v eq_refl) as [l ->].
    destruct (dict_find "id" _) as [id|]; [|simpl; eauto].
    rewrite bind_Ok. apply (same_links_set _ _ _ parent _ (l ++ [id])); try done.
    + by apply dict_find_set_ne.
    + apply dict_find_set_eq.
  - destruct (dict_find "id" _) as [id|]; [|simpl; eauto].
    rewrite bind_Ok. apply (same_links_set _ _ _ parent _ ([] ++ [id])); try done.
    + by rewrite !dict_find_set_ne.
    + apply dict_find_set_eq.
Qed.

(** The turn of an entry whose parent dangles raises a [KeyError]. *)
Lemma find_children_step_dangling (ontology state : odict Z node) (k : Z)
    (e : node) (p : pyval) :
  linkable ontology → same_links ontology state →
  (k, e) ∈ ontology → dict_find "parent_structure_id" e = Some p →
  dangling_parent ontology p →
  ∃ key, find_children_step state k = Raise (KeyError key).
Proof.
  intros Hl [Hkeys Hent] Hin Hp [Hne Hkey].
  destruct (Hent k e Hin) as (e' & He' & Hpe & _).
  unfold find_children_step.
  rewrite (dict_get_Some _ _ _ He'), bind_Ok.
  rewrite Hp in Hpe. rewrite (dict_get_Some _ _ _ Hpe), bind_Ok.
  destruct (py_eq_str p "") eqn:Hempty;
    [by apply py_eq_str_true in Hempty|].
  pose proof (proj2 (Hl k e Hin) p Hp) as Hhash.
  destruct p as [t|z|l|d]; try discriminate; simpl; [eauto|].
  unfold dict_get.
  assert (Hz : dict_find z state = None).
  { apply dict_find_None. rewrite Hkeys. by apply Hkey. }
  rewrite Hz. simpl. eauto.
Qed.

Lemma find_children_loop_dangling (ontology state : odict Z node)
    (keys : list Z) (k : Z) (e : node) (p : pyval) :
  dict_ok ontology → linkable ontology → same_links ontology state →
  (k, e) ∈ ontology → dict_find "parent_structure_id" e = Some p →
  dangling_parent ontology p → k ∈ keys →
  ∃ key, for_each keys state find_children_step = Raise (KeyError key).
Proof.
  intros Hok Hl Hs Hin Hp Hd. revert state Hs.
  induction keys as [|x keys IH]; intros state Hs Hk;
    [by apply elem_of_nil in Hk|].
  simpl. pose proof (find_children_step_inv ontology state x Hok Hl Hs) as Hx.
  destruct (find_children_step state x) as [state'|err] eqn:Hstep.
  - rewrite bind_Ok. apply IH; [done|].
    apply elem_of_cons in Hk as [->|Hk]; [|done].
    destruct (find_children_step_dangling _ _ _ _ _ Hl Hs Hin Hp Hd)
      as [key Hkey]. congruence.
  - destruct Hx as [key ->]. rewrite bind_Raise. eauto.
Qed.

Lemma find_children_dangling (ontology : odict Z node) (k : Z) (e : node)
    (p : pyval) :
  dict_ok ontology → linkable ontology →
  (k, e) ∈ ontology → dict_find "parent_structure_id" e = Some p →
  dangling_parent ontology p →
  ∃ key, find_children ontology = Raise (KeyError key).
Proof.
  intros Hok Hl Hin Hp Hd. unfold find_children.
  apply (find_children_loop_dangling ontology ontology _ k e p); try done.
  - by apply same_links_refl.
  - apply list_elem_of_fmap. by exists (k, e).
Qed.

(** C8: an entry whose parent is not empty and is no key of the mapping
    makes [find_children] raise a [KeyError], for a mapping whose child
    lists are lists and whose parents are strings or integers; and a mesh ID
    that is no key of the mapping makes [build_atlas] raise a [KeyError]: the
    ID is not passed over. *)
Theorem unresolved_reference_raises (py_repr : pyval → string)
    (ontology : odict Z node) (ids : list Z) :
  (dict_ok ontology → linkable ontology →
   (∃ k e p, (k, e) ∈ ontology
             ∧ dict_find "parent_structure_id" e = Some p
             ∧ dangling_parent ontology p) →
   ∃ key, find_children ontology = Raise (KeyError key))
  ∧ ((∃ mid, mid ∈ ids ∧ mid ∉ dict_keys ontology) →
     ∃ key, build_atlas py_repr ontology ids = Raise (KeyError key)).
Proof.
  split.
  - intros Hok Hl (k & e & p & Hin & Hp & Hd).
    by apply (find_children_dangling ontology k e p).
  - intros (mid & Hin & Hkey).
    by apply (build_atlas_unknown_mesh_id py_repr ontology ids mid).
Qed.

Lemma sample_ontology_ok : dict_ok sample_ontology.
Proof.
  unfold dict_ok, sample_ontology. simpl.
  repeat (apply NoDup_cons_2; [intros Hin; elem_inv; done|]).
  apply NoDup_nil_2.
Qed.

Lemma find_children_links_each_child_once_witness :
  dict_ok sample_ontology ∧ unlinked sample_ontology
  ∧ indexed_by_id sample_ontology ∧ parents_resolve sample_ontology
  ∧ ∃ linked, find_children sample_ontology = Ok linked
              ∧ dict_keys linked = dict_keys sample_ontology.
Proof.
  assert (H1 : dict_ok sample_ontology) by exact sample_ontology_ok.
  assert (H2 : unlinked sample_ontology).
  { intros k e Hin. unfold sample_ontology in Hin.
    elem_inv; simplify_eq; reflexivity. }
  assert (H3 : indexed_by_id sample_ontology).
  { intros k e Hin. unfold sample_ontology in Hin.
    elem_inv; simplify_eq; reflexivity. }
  assert (H4 : parents_resolve sample_ontology).
  { intros k e Hin. unfold sample_ontology in Hin. elem_inv; simplify_eq.
    - by left.
    - right. exists 997. split; [reflexivity|]. simpl. by left. }
  split_and!; try done.
  destruct (find_children_links_each_child_once sample_ontology H1 H2 H3 H4)
    as (linked & Hf & Hk & _).
  by exists linked.
Defined.

Lemma unresolved_reference_raises_witness :
  (∃ key, find_children dangling_ontology = Raise (KeyError key))
  ∧ (∃ key, build_atlas sample_repr dangling_ontology [5]
            = Raise (KeyError key)).
Proof.
  destruct (unresolved_reference_raises sample_repr dangling_ontology [5])
    as [Hlink Hbuild].
  split.
  - apply Hlink.
    + unfold dict_ok, dangling_ontology. simpl.
      apply NoDup_cons_2; [intros Hin; elem_inv|apply NoDup_nil_2].
    + intros k e Hin. unfold dangling_ontology in Hin.
      elem_inv; simplify_eq. split; intros v Hv; [discriminate|].
      by injection Hv as <-.
    + exists 8, (sample_entry 8 (VInt 997) (VStr "BFDAE3") "grey"), (VInt 997).
      split_and!; [by left|reflexivity|].
      split; [discriminate|]. intros z [= <-] Hin.
      unfold dangling_ontology in Hin. simpl in Hin. elem_inv. discriminate.
  - apply Hbuild. exists 5. split; [by left|].
    intros Hin. unfold dangling_ontology in Hin. simpl in Hin.
    elem_inv. discriminate.
Defined.

(** ** Ontology loader *)

Lemma possibly_int_spec (text : string) :
  (∀ z, py_int text = Some z → possibly_int text = VInt z)
  ∧ (py_int text = None → possibly_int text = VStr text).
Proof.
  unfold possibly_int. destruct (py_int text) as [z|].
  - split; [by intros ? [= <-]|discriminate].
  - split; [discriminate|done].
Qed.

Lemma zip_keys_NoDup (header row : list string) :
  NoDup header → dict_ok (zip header row).
Proof.
  unfold dict_ok, dict_keys. intros Hnd.
  revert row. induction Hnd as [|f header Hf Hnd IH]; intros row;
    [apply NoDup_nil_2|].
  destruct row as [|c row]; [apply NoDup_nil_2|].
  simpl. apply NoDup_cons_2; [|apply IH].
  intros ([f' c'] & Heq & Hin)%list_elem_of_fmap. simpl in Heq. subst f'.
  apply Hf. apply elem_of_zip_l in Hin. done.
Qed.

Lemma row_record_cell (header row : list string) (field text : string) :
  NoDup header → (field, text) ∈ zip header row →
  dict_find field (row_record header row) = Some (possibly_int text).
Proof.
  intros Hnd Hin. unfold row_record.
  assert (Hmap : ∀ d : odict string string,
            dict_find field (map (λ kv, (kv.1, possibly_int kv.2)) d)
            = possibly_int <$> dict_find field d).
  { induction d as [|[f c] d IH]; simpl; [reflexivity|].
    destruct (decide (field = f)); [reflexivity|apply IH]. }
  rewrite Hmap. by rewrite (dict_find_elem field text _ (zip_keys_NoDup _ row Hnd)).
Qed.

Lemma load_row (header : list string) (results : odict Z node)
    (row : list string) :
  length row = length header → is_Some (row_key header row) →
  (if negb (bool_decide (length row = length header))
   then Raise TypeError else
   let data := zip header row in
   let record := map (λ kv, (kv.1, possibly_int kv.2)) data in
   match dict_find "id" data with
   | None => Raise AttributeError
   | Some id =>
       match py_int id with
       | None => Raise ValueError
       | Some key => Ok (dict_set key record results)
       end
   end)
  = Ok (store_row header results row).
Proof.
  intros Hlen [key Hkey]. rewrite bool_decide_eq_true_2 by done. simpl.
  unfold store_row. rewrite Hkey. unfold row_key in Hkey.
  destruct (dict_find "id" (zip header row)) as [id|]; [|discriminate].
  by rewrite Hkey.
Qed.

Lemma get_allen_mouse_ontology_Ok (header : list string)
    (rows : list (list string)) :
  well_formed_table header rows →
  get_allen_mouse_ontology (header :: rows)
  = Ok (fold_left (store_row header) rows []).
Proof.
  intros [Hh Hrows]. unfold get_allen_mouse_ontology. rewrite Hh. simpl.
  apply for_each_pure. intros results row Hrow.
  rewrite Forall_forall in Hrows. destruct (Hrows row Hrow) as [Hlen Hkey].
  by apply load_row.
Qed.

(** Under a key the mapping holds the record of the last row stored
    there. *)
Lemma stored_rows_find (header : list string) (rows : list (list string))
    (results : odict Z node) (key : Z) :
  dict_find key (fold_left (store_row header) rows results)
  = match last (List.filter
                 (λ row, bool_decide (row_key header row = Some key)) rows) with
    | Some row => Some (row_record header row)
    | None => dict_find key results
    end.
Proof.
  revert results. induction rows as [|row rows IH]; intros results;
    [reflexivity|].
  simpl. rewrite IH. unfold store_row.
  destruct (bool_decide (row_key header row = Some key)) eqn:Hk.
  - apply bool_decide_eq_true in Hk. rewrite Hk, last_cons.
    destruct (last _); [reflexivity|]. apply dict_find_set_eq.
  - apply bool_decide_eq_false in Hk.
    destruct (last _); [reflexivity|].
    destruct (row_key header row) as [key'|]; [|reflexivity].
    apply dict_find_set_ne. congruence.
Qed.

(** C9: for a table whose header holds field names and whose rows have one
    cell per field and an integer [id] cell, the loader returns a mapping;
    the record of a row holds, under every field name, the integer its cell
    parses to, or else the text of the cell unchanged; and the record is
    stored under [int] of the [id] cell, where it stays unless a later row
    has the same key. *)
Theorem get_allen_mouse_ontology_spec (header : list string)
    (rows : list (list string)) :
  well_formed_table header rows →
  ∃ results,
    get_allen_mouse_ontology (header :: rows) = Ok results
    ∧ results = fold_left (store_row header) rows []
    ∧ (∀ row field text,
         row ∈ rows → (field, text) ∈ zip header row →
         dict_find field (row_record header row)
         = Some (match py_int text with
                 | Some z => VInt z
                 | None => VStr text
                 end))
    ∧ (∀ row, row ∈ rows →
         ∃ id key,
           dict_find "id" (zip header row) = Some id
           ∧ py_int id = Some key
           ∧ (∀ results', store_row header results' row
                = dict_set key (row_record header row) results')
           ∧ dict_find key results
             = (row_record header
                  <$> last (List.filter
                              (λ row', bool_decide
                                         (row_key header row' = Some key))
                              rows)))
    ∧ (∀ rows1 row rows2 key,
         rows = rows1 ++ row :: rows2 → row_key header row = Some key →
         Forall (λ row', row_key header row' ≠ Some key) rows2 →
         dict_find key results = Some (row_record header row)).
Proof.
  intros Hwf. pose proof Hwf as [Hh Hrows].
  assert (Hnd : NoDup header).
  { unfold namedtuple_fields_ok in Hh. apply andb_true_iff in Hh as [_ Hh].
    by apply bool_decide_eq_true in Hh. }
  assert (Hfind : ∀ key,
            dict_find key (fold_left (store_row header) rows [])
            = (row_record header
                 <$> last (List.filter
                             (λ row', bool_decide
                                        (row_key header row' = Some key))
                             rows))).
  { intros key. rewrite stored_rows_find. by destruct (last _). }
  exists (fold_left (store_row header) rows []). split_and!.
  - by apply get_allen_mouse_ontology_Ok.
  - reflexivity.
  - intros row field text _ Hcell.
    by rewrite (row_record_cell header row field text).
  - intros row Hrow. rewrite Forall_forall in Hrows.
    destruct (Hrows row Hrow) as [_ [key Hkey]].
    pose proof Hkey as Hkey'. unfold row_key in Hkey'.
    destruct (dict_find "id" (zip header row)) as [id|]; [|discriminate].
    exists id, key. split_and!; [done|done| |apply Hfind].
    intros results'. unfold store_row. by rewrite Hkey.
  - intros rows1 row rows2 key -> Hkey Hlater. rewrite Hfind.
    rewrite List.filter_app. simpl. rewrite bool_decide_eq_true_2 by done.
    assert (Hnone : List.filter
                      (λ row', bool_decide (row_key header row' = Some key))
                      rows2 = []).
    { clear -Hlater. induction Hlater as [|r rows2 Hr Hlater IH]; [reflexivity|].
      simpl. rewrite bool_decide_eq_false_2 by done. exact IH. }
    rewrite Hnone, last_snoc. reflexivity.
Qed.

(** ** Text *)

Lemma codes_cons (c : ascii) (s : string) :
  codes (String c s) = N_of_ascii c :: codes s.
Proof. reflexivity. Qed.

Lemma codes_app (a b : string) : codes (a +:+ b) = codes a ++ codes b.
Proof.
  induction a as [|c a IH]; [reflexivity|].
  change (String c a +:+ b) with (String c (a +:+ b)).
  by rewrite !codes_cons, IH.
Qed.

Lemma codes_below (s : string) : Forall (λ c, (c < 256)%N) (codes s).
Proof.
  induction s as [|c s IH]; [apply Forall_nil_2|].
  rewrite codes_cons. apply Forall_cons. split; [|done].
  apply N_ascii_bounded.
Qed.

Lemma is_prefix_spec (p s : text) :
  is_prefix p s = true ↔ ∃ post, s = p ++ post.
Proof.
  revert s. induction p as [|a p IH]; intros s; simpl.
  - split; [by exists s|done].
  - destruct s as [|b s].
    + split; [done|by intros [post [=]]].
    + rewrite andb_true_iff, N.eqb_eq, IH. split.
      * intros [-> [post ->]]. by exists post.
      * intros [post [= -> ->]]. split; [done|by exists post].
Qed.

Lemma text_contains_app (sub pre post : text) :
  text_contains sub (pre ++ sub ++ post) = true.
Proof.
  assert (Hpre : is_prefix sub (sub ++ post) = true)
    by (apply is_prefix_spec; by exists post).
  induction pre as [|c pre IH]; simpl.
  - destruct (sub ++ post); simpl in *; by rewrite Hpre.
  - rewrite IH. apply orb_true_r.
Qed.

Section text_facts.
Variable db : unicode_db.

Lemma decimal_value_below (c : N) :
  (c < 256)%N →
  decimal_value db c
  = if ((48 <=? c) && (c <=? 57))%N then Some (Z.of_N c - 48) else None.
Proof.
  intros Hc. unfold decimal_value.
  by rewrite (proj2 (N.ltb_lt c 256) Hc).
Qed.

(** Nothing below 48 is a decimal digit: no dot, no sign, no underscore. *)
Lemma is_decimal_not (c : N) :
  (c < 48)%N ∨ (57 < c < 256)%N → is_decimal db c = false.
Proof.
  intros Hc. unfold is_decimal. rewrite decimal_value_below by lia.
  destruct ((48 <=? c) && (c <=? 57))%N eqn:Hd; [|done].
  apply andb_true_iff in Hd as [H1%N.leb_le H2%N.leb_le]. lia.
Qed.

Lemma is_decimal_ne (c : N) (x : N) :
  is_decimal db c = true → (x < 48)%N ∨ (57 < x < 256)%N → c ≠ x.
Proof. intros Hc Hx ->. by rewrite is_decimal_not in Hc. Qed.

Lemma is_decimal_value (c : N) :
  is_decimal db c = true → ∃ d, decimal_value db c = Some d.
Proof. unfold is_decimal. destruct (decimal_value db c); [eauto|done]. Qed.

(** A decimal digit is no white space. *)
Lemma is_decimal_not_space (c : N) :
  unicode_db_ok db → is_decimal db c = true → is_space db c = false.
Proof.
  intros Hdb. unfold is_decimal, decimal_value, is_space.
  destruct (c <? 256)%N eqn:Hc.
  - destruct ((48 <=? c) && (c <=? 57))%N eqn:Hd; [|done]. intros _.
    apply andb_true_iff in Hd as [H1%N.leb_le H2%N.leb_le].
    rewrite !orb_false_iff, andb_false_iff, !N.eqb_neq, !N.leb_gt. lia.
  - destruct (db_decimal db c) as [d|] eqn:Hd; [|done]. intros _.
    by destruct (Hdb c d Hd).
Qed.

Lemma span_digits_spec (s d r : text) :
  span_digits db s = (d, r) →
  s = d ++ r ∧ Forall (λ c, is_decimal db c = true) d.
Proof.
  revert d r. induction s as [|c s IH]; intros d r; simpl.
  - intros [= <- <-]. split; [done|apply Forall_nil_2].
  - destruct (is_decimal db c) eqn:Hc.
    + destruct (span_digits db s) as [d' r'] eqn:Hs. intros [= <- <-].
      destruct (IH d' r' eq_refl) as [-> Hd]. split; [done|].
      by apply Forall_cons.
    + intros [= <- <-]. split; [done|apply Forall_nil_2].
Qed.

Lemma span_digits_app (d r : text) :
  Forall (λ c, is_decimal db c = true) d →
  span_digits db (d ++ dot_obj ++ r) = (d, dot_obj ++ r).
Proof.
  induction 1 as [|c d Hc _ IH]; [reflexivity|].
  change ((c :: d) ++ dot_obj ++ r) with (c :: (d ++ dot_obj ++ r)).
  cbn [span_digits]. by rewrite Hc, IH.
Qed.

Lemma digit_run_cons (d : text) :
  digit_run db d → ∃ c d', d = c :: d' ∧ is_decimal db c = true.
Proof.
  intros [Hne Hd]. destruct d as [|c d']; [done|].
  apply Forall_cons in Hd as [Hc _]. eauto.
Qed.

(** The pattern at the head of a text, said by how the text splits. *)
Lemma re_match_obj_Some (s m : text) :
  re_match_obj db s = Some m ↔ mesh_file_name db m ∧ ∃ post, s = m ++ post.
Proof.
  unfold re_match_obj. split.
  - destruct (span_digits db s) as [d r] eqn:Hs.
    apply span_digits_spec in Hs as [-> Hd].
    destruct (negb (bool_decide (d = [])) && is_prefix dot_obj r)%bool eqn:Hm;
      [|discriminate].
    intros [= <-]. apply andb_true_iff in Hm as [Hne Hpre].
    apply negb_true_iff, bool_decide_eq_false in Hne.
    apply is_prefix_spec in Hpre as [post ->]. split.
    + by exists d.
    + exists post. by rewrite <- app_assoc.
  - intros [(d & -> & Hne & Hd) [post ->]].
    rewrite <- app_assoc, span_digits_app by done.
    rewrite bool_decide_eq_false_2 by done.
    rewrite (proj2 (is_prefix_spec dot_obj (dot_obj ++ post))) by eauto.
    reflexivity.
Qed.

Lemma re_match_obj_None (s : text) :
  re_match_obj db s = None ↔ ¬ starts_with_name db s.
Proof.
  split.
  - intros Hs (m & post & -> & Hm).
    assert (re_match_obj db (m ++ post) = Some m) as Hsome
      by (apply re_match_obj_Some; eauto).
    congruence.
  - intros Hs. destruct (re_match_obj db s) as [m|] eqn:Hm; [|done].
    apply re_match_obj_Some in Hm as [Hm [post ->]].
    destruct Hs. by exists m, post.
Qed.

Lemma mesh_file_name_cons (m : text) :
  mesh_file_name db m → ∃ c m', m = c :: m'.
Proof.
  intros (d & -> & Hd). destruct (digit_run_cons d Hd) as (c & d' & -> & _).
  by exists c, (d' ++ dot_obj).
Qed.

(** The search, said by how the line splits. *)
Lemma re_search_obj_Some (s m : text) :
  re_search_obj db s = Some m ↔ first_match db s m.
Proof.
  split.
  - induction s as [|c s IH]; simpl.
    + destruct (re_match_obj db []) eqn:Hm; [|done].
      apply re_match_obj_Some in Hm as [Hm [post Hs]].
      destruct (mesh_file_name_cons _ Hm) as (? & ? & ->). done.
    + destruct (re_match_obj db (c :: s)) as [m'|] eqn:Hm.
      * intros [= ->]. apply re_match_obj_Some in Hm as [Hname [post Hs]].
        exists [], post. split_and!; [done|done|].
        intros pre1 pre2 Hpre Hne. by destruct pre1, pre2.
      * intros (pre & post & -> & Hname & Hleft)%IH.
        exists (c :: pre), post. split_and!; [done|done|].
        intros pre1 pre2 Hpre Hne. destruct pre1 as [|c1 pre1]; simpl in Hpre.
        -- subst pre2. by apply re_match_obj_None.
        -- injection Hpre as -> ->. by apply (Hleft pre1 pre2).
  - intros (pre & post & -> & Hname & Hleft).
    induction pre as [|c pre IH].
    + destruct (mesh_file_name_cons _ Hname) as (c & m' & ->).
      simpl. change (c :: m' ++ post) with ((c :: m') ++ post).
      by rewrite (proj2 (re_match_obj_Some ((c :: m') ++ post) (c :: m')))
        by eauto.
    + simpl.
      rewrite (proj2 (re_match_obj_None (c :: pre ++ m ++ post)))
        by (by apply (Hleft [] (c :: pre))).
      apply IH. intros pre1 pre2 -> Hne. by apply (Hleft (c :: pre1) pre2).
Qed.

Lemma first_match_contains (line m : text) :
  first_match db line m → text_contains dot_obj line = true.
Proof.
  intros (pre & post & -> & (d & -> & _) & _).
  rewrite <- (app_assoc d), (app_assoc pre d).
  apply text_contains_app.
Qed.

Lemma text_replace_obj (d : text) :
  Forall (λ c, is_decimal db c = true) d →
  text_replace dot_obj [] (d ++ dot_obj) = d.
Proof.
  unfold text_replace. induction 1 as [|c d Hc _ IH]; [reflexivity|].
  change ((c :: d) ++ dot_obj) with (c :: (d ++ dot_obj)).
  cbn [text_replace_go].
  assert (Hpre : is_prefix dot_obj (c :: (d ++ dot_obj)) = false).
  { change dot_obj with (46%N :: codes "obj") at 1. cbn [is_prefix].
    apply andb_false_iff. left. apply N.eqb_neq. intros <-.
    by rewrite is_decimal_not in Hc by lia. }
  rewrite Hpre. by rewrite IH.
Qed.

Lemma mesh_id_of_digits (d : text) :
  mesh_id_of_name db (d ++ dot_obj) = digits_value db 0 d.
Proof.
  unfold mesh_id_of_name. rewrite length_app.
  change (length dot_obj) with 4%nat.
  replace (length d + 4 - 4)%nat with (length d) by lia.
  by rewrite take_app_length.
Qed.

(** ** What [int] reads *)

Hypothesis db_ok : unicode_db_ok db.

Lemma lstrip_digit (c : N) (l : text) :
  is_decimal db c = true → lstrip db (c :: l) = c :: l.
Proof. intros Hc. simpl. by rewrite is_decimal_not_space. Qed.

Lemma strip_digits (l : text) :
  Forall (λ c, is_decimal db c = true) l → strip db l = l.
Proof.
  intros Hl. unfold strip. destruct l as [|c l]; [reflexivity|].
  pose proof Hl as [Hc _]%Forall_cons. rewrite lstrip_digit by done.
  assert (Hrev : Forall (λ c, is_decimal db c = true) (rev (c :: l)))
    by (by apply Forall_rev).
  destruct (rev (c :: l)) as [|x r] eqn:Hr.
  - apply (f_equal (@length N)) in Hr. rewrite length_rev in Hr. done.
  - apply Forall_cons in Hrev as [Hx _].
    rewrite lstrip_digit by done. rewrite <- Hr. apply rev_involutive.
Qed.

Lemma strip_minus_digits (l : text) :
  l ≠ [] → Forall (λ c, is_decimal db c = true) l →
  strip db (45%N :: l) = 45%N :: l.
Proof.
  intros Hne Hl. unfold strip.
  change (lstrip db (45%N :: l)) with (45%N :: l).
  assert (Hrev : Forall (λ c, is_decimal db c = true) (rev l))
    by (by apply Forall_rev).
  change (rev (45%N :: l)) with (rev l ++ [45%N]).
  destruct (rev l) as [|x r] eqn:Hr.
  - apply (f_equal (@length N)) in Hr. rewrite length_rev in Hr.
    by destruct l.
  - apply Forall_cons in Hrev as [Hx _].
    change ((x :: r) ++ [45%N]) with (x :: (r ++ [45%N])).
    rewrite lstrip_digit by done.
    change (x :: r ++ [45%N]) with ((x :: r) ++ [45%N]).
    rewrite <- Hr, rev_app_distr, rev_involutive. reflexivity.
Qed.

Lemma int_digits_digits (l : text) (acc : Z) :
  Forall (λ c, is_decimal db c = true) l →
  int_digits db l acc true = Some (digits_value db acc l).
Proof.
  intros Hl. revert acc. induction Hl as [|c l Hc _ IH]; intros acc;
    [reflexivity|].
  destruct (is_decimal_value c Hc) as [d Hd].
  cbn [int_digits]. rewrite Hd, IH. unfold digits_value. cbn [fold_left].
  by rewrite Hd.
Qed.

Lemma int_digits_run (d : text) :
  digit_run db d → int_digits db d 0 false = Some (digits_value db 0 d).
Proof.
  intros [Hne Hd]. destruct d as [|c d]; [done|].
  pose proof Hd as [Hc Hd']%Forall_cons.
  destruct (is_decimal_value c Hc) as [v Hv].
  cbn [int_digits]. rewrite Hv, int_digits_digits by done.
  unfold digits_value. cbn [fold_left]. by rewrite Hv.
Qed.

Lemma digit_count_digits (l : text) :
  Forall (λ c, is_decimal db c = true) l →
  digit_count db l = N.of_nat (length l).
Proof.
  intros Hl. unfold digit_count. f_equal. f_equal.
  induction Hl as [|c l Hc _ IH]; [reflexivity|].
  simpl. by rewrite Hc, IH.
Qed.

Lemma int_unsigned_run (d : text) :
  digit_run db d →
  int_unsigned db d
  = if (int_max_str_digits <? N.of_nat (length d))%N then None
    else Some (digits_value db 0 d).
Proof.
  intros Hd. unfold int_unsigned.
  rewrite digit_count_digits by apply Hd. by rewrite int_digits_run.
Qed.

(** [int] of a run of digits is the number the digits denote, if they are
    not too many. *)
Lemma text_int_run (d : text) :
  digit_run db d →
  text_int db d
  = if (int_max_str_digits <? N.of_nat (length d))%N then None
    else Some (digits_value db 0 d).
Proof.
  intros Hd. unfold text_int. rewrite strip_digits by apply Hd.
  destruct (digit_run_cons d Hd) as (c & d' & -> & Hc).
  rewrite (proj2 (N.eqb_neq c 45)) by (apply is_decimal_ne; [done|lia]).
  rewrite (proj2 (N.eqb_neq c 43)) by (apply is_decimal_ne; [done|lia]).
  by apply int_unsigned_run.
Qed.

Lemma text_int_minus_run (d : text) :
  digit_run db d →
  text_int db (45%N :: d)
  = if (int_max_str_digits <? N.of_nat (length d))%N then None
    else Some (- digits_value db 0 d).
Proof.
  intros Hd. unfold text_int. rewrite strip_minus_digits by apply Hd.
  rewrite N.eqb_refl, int_unsigned_run by done.
  by destruct (int_max_str_digits <? _)%N.
Qed.
End text_facts.
(** ** Strings

    For a string nothing is looked up in the database: what [int] makes of
    its code points is the same for every database. *)

Lemma lstrip_suffix (db : unicode_db) (l : text) :
  ∃ pre, l = pre ++ lstrip db l.
Proof.
  induction l as [|c l [pre IH]]; [by exists []|].
  simpl. destruct (is_space db c); [|by exists []].
  exists (c :: pre). simpl. by rewrite <- IH.
Qed.

Section below_256.
Variable db : unicode_db.

Lemma is_space_below (c : N) :
  (c < 256)%N → is_space db c = is_space no_db c.
Proof.
  intros Hc. unfold is_space. by rewrite (proj2 (N.ltb_lt c 256) Hc).
Qed.

Lemma decimal_value_no_db (c : N) :
  (c < 256)%N → decimal_value db c = decimal_value no_db c.
Proof. intros Hc. by rewrite !decimal_value_below. Qed.

Lemma is_decimal_no_db (c : N) :
  (c < 256)%N → is_decimal db c = is_decimal no_db c.
Proof. intros Hc. unfold is_decimal. by rewrite decimal_value_no_db. Qed.

Lemma lstrip_below (l : text) :
  Forall (λ c, (c < 256)%N) l → lstrip db l = lstrip no_db l.
Proof.
  induction 1 as [|c l Hc _ IH]; [reflexivity|].
  simpl. rewrite is_space_below by done. by rewrite IH.
Qed.

Lemma strip_below (l : text) :
  Forall (λ c, (c < 256)%N) l →
  strip db l = strip no_db l ∧ Forall (λ c, (c < 256)%N) (strip no_db l).
Proof.
  intros Hl. unfold strip.
  assert (H1 : Forall (λ c, (c < 256)%N) (lstrip no_db l)).
  { destruct (lstrip_suffix no_db l) as [pre Hpre]. rewrite Hpre in Hl.
    by apply Forall_app in Hl as [_ ?]. }
  assert (H2 : Forall (λ c, (c < 256)%N) (rev (lstrip no_db l)))
    by (by apply Forall_rev).
  assert (H3 : Forall (λ c, (c < 256)%N)
                 (lstrip no_db (rev (lstrip no_db l)))).
  { destruct (lstrip_suffix no_db (rev (lstrip no_db l))) as [pre Hpre].
    rewrite Hpre in H2. by apply Forall_app in H2 as [_ ?]. }
  rewrite (lstrip_below l Hl), (lstrip_below _ H2).
  split; [done|by apply Forall_rev].
Qed.

Lemma int_digits_below (l : text) (acc : Z) (prev_digit : bool) :
  Forall (λ c, (c < 256)%N) l →
  int_digits db l acc prev_digit = int_digits no_db l acc prev_digit.
Proof.
  intros Hl. revert acc prev_digit.
  induction Hl as [|c l Hc _ IH]; intros acc prev_digit; [reflexivity|].
  cbn [int_digits]. rewrite (decimal_value_no_db c Hc).
  destruct (decimal_value no_db c); [apply IH|].
  destruct ((c =? 95)%N && prev_digit)%bool; [apply IH|reflexivity].
Qed.

Lemma int_unsigned_below (l : text) :
  Forall (λ c, (c < 256)%N) l → int_unsigned db l = int_unsigned no_db l.
Proof.
  intros Hl. unfold int_unsigned. rewrite (int_digits_below l 0 false Hl).
  replace (digit_count db l) with (digit_count no_db l); [reflexivity|].
  unfold digit_count. f_equal. f_equal.
  induction Hl as [|c l Hc _ IH]; [reflexivity|].
  cbn [List.filter]. rewrite (is_decimal_no_db c Hc).
  destruct (is_decimal no_db c); cbn [length]; by rewrite IH.
Qed.

Lemma text_int_codes (s : string) : text_int db (codes s) = py_int s.
Proof.
  unfold py_int, text_int.
  destruct (strip_below (codes s) (codes_below s)) as [-> Hl].
  destruct (strip no_db (codes s)) as [|c l]; [reflexivity|].
  pose proof Hl as [_ Hl']%Forall_cons.
  by rewrite (int_unsigned_below l Hl'), (int_unsigned_below (c :: l) Hl).
Qed.
End below_256.

(** ** Mesh discovery *)

Lemma list_comp_pure {A B : Type} (f : A → result B) (g : A → B) (l : list A) :
  (∀ x, x ∈ l → f x = Ok (g x)) → list_comp f l = Ok (map g l).
Proof.
  induction l as [|x l IH]; intros Hf; [reflexivity|].
  simpl. rewrite Hf by left. rewrite bind_Ok, IH; [reflexivity|].
  intros y Hy. apply Hf. by right.
Qed.

Lemma list_comp_length {A B : Type} (f : A → result B) (l : list A)
    (ys : list B) :
  list_comp f l = Ok ys → length ys = length l.
Proof.
  revert ys. induction l as [|x l IH]; intros ys; simpl.
  - by intros [= <-].
  - intros (y & _ & (ys' & Hys & [= <-])%bind_Ok_inv)%bind_Ok_inv.
    simpl. by rewrite (IH ys').
Qed.

(** A comprehension whose element expression raises nothing but [e] raises
    [e] if the expression raises for some element. *)
Lemma list_comp_raise {A B : Type} (f : A → result B) (e : py_error)
    (l : list A) :
  (∀ x, x ∈ l → f x = Raise e ∨ ∃ y, f x = Ok y) →
  (∃ x, x ∈ l ∧ f x = Raise e) →
  list_comp f l = Raise e.
Proof.
  induction l as [|x l IH]; intros Hf (x' & Hx' & Hraise);
    [by apply elem_of_nil in Hx'|].
  simpl. destruct (Hf x ltac:(by left)) as [Hx|[y Hx]]; rewrite Hx;
    [reflexivity|].
  rewrite bind_Ok, IH; [reflexivity| |].
  - intros z Hz. apply Hf. by right.
  - apply elem_of_cons in Hx' as [->|Hx']; [congruence|by exists x'].
Qed.

Lemma existsb_eqb_elem (x : text) (s : list text) :
  existsb (λ b, bool_decide (x = b)) s = true ↔ x ∈ s.
Proof.
  rewrite existsb_exists. split.
  - intros (y & Hy%list_elem_of_In & ->%bool_decide_eq_true). done.
  - intros Hx. exists x. split; [by apply list_elem_of_In|].
    by apply bool_decide_eq_true.
Qed.

Lemma set_add_elem (x y : text) (s : list text) :
  y ∈ set_add (λ a b, bool_decide (a = b)) x s ↔ y ∈ s ∨ y = x.
Proof.
  unfold set_add. destruct (existsb _ s) eqn:Hx.
  - apply existsb_eqb_elem in Hx. split; [tauto|]. by intros [?| ->].
  - by rewrite elem_of_app, list_elem_of_singleton.
Qed.

Lemma set_add_NoDup (x : text) (s : list text) :
  NoDup s → NoDup (set_add (λ a b, bool_decide (a = b)) x s).
Proof.
  intros Hs. unfold set_add. destruct (existsb _ s) eqn:Hx; [done|].
  apply NoDup_app. split_and!; [done| |apply NoDup_singleton].
  intros y Hy ->%list_elem_of_singleton.
  apply existsb_eqb_elem in Hy. congruence.
Qed.

Section mesh_set.
Variable db : unicode_db.

(** What a line adds to the set: the mesh file name that starts leftmost in
    it, if it has one. *)
Lemma mesh_set_step (line : text) (meshes : list text) :
  NoDup meshes →
  let meshes' :=
    if negb (text_contains dot_obj line) then meshes else
    match re_search_obj db line with
    | None => meshes
    | Some m => set_add (λ a b, bool_decide (a = b)) m meshes
    end in
  NoDup meshes'
  ∧ (length meshes' ≤ S (length meshes))%nat
  ∧ ∀ name, name ∈ meshes' ↔ name ∈ meshes ∨ first_match db line name.
Proof.
  intros Hnd. cbv zeta.
  destruct (re_search_obj db line) as [m|] eqn:Hm.
  - pose proof Hm as Hfirst%re_search_obj_Some.
    rewrite (first_match_contains db line m Hfirst). cbn [negb].
    split_and!; [by apply set_add_NoDup| |].
    + unfold set_add. destruct (existsb _ meshes); [lia|].
      rewrite length_app. simpl. lia.
    + intros name. rewrite set_add_elem. split.
      * intros [?| ->]; [by left|by right].
      * intros [?|Hname%re_search_obj_Some]; [by left|]. right. congruence.
  - assert (Hnone : ∀ name, ¬ first_match db line name).
    { intros name Hname%re_search_obj_Some. congruence. }
    destruct (negb (text_contains dot_obj line));
      (split_and!; [done|lia|]); intros name; split; auto;
      (intros [?|?]; [done|by destruct (Hnone name)]).
Qed.

(** The set the loop of [get_mesh_names] builds. *)
Lemma mesh_set_spec (lines meshes : list text) :
  NoDup meshes →
  let final :=
    fold_left
      (λ meshes line,
         if negb (text_contains dot_obj line) then meshes else
         match re_search_obj db line with
         | None => meshes
         | Some m => set_add (λ a b, bool_decide (a = b)) m meshes
         end)
      lines meshes in
  NoDup final
  ∧ (length final ≤ length meshes + length lines)%nat
  ∧ ∀ name, name ∈ final ↔
      name ∈ meshes ∨ ∃ line, line ∈ lines ∧ first_match db line name.
Proof.
  revert meshes. induction lines as [|line lines IH]; intros meshes Hnd.
  - simpl. split_and!; [done|lia|]. intros name. split; [tauto|].
    intros [?|(line & ?%elem_of_nil & _)]; done.
  - cbn [fold_left].
    destruct (mesh_set_step line meshes Hnd) as (Hnd' & Hlen' & Hin').
    cbv zeta in Hnd', Hlen', Hin'.
    destruct (IH _ Hnd') as (Hfinal & Hlen & Hin). cbv zeta in Hfinal, Hlen, Hin.
    split_and!; [done|simpl; lia|].
    intros name. rewrite Hin, Hin'. split.
    + intros [[?|?]|(l & Hl & ?)]; [by left| |].
      * right. exists line. split; [by left|done].
      * right. exists l. split; [by right|done].
    + intros [?|(l & [->|Hl]%elem_of_cons & Hf)].
      * by left; left.
      * by left; right.
      * right. by exists l.
Qed.
End mesh_set.

Section mesh_discovery_facts.
Variable db : unicode_db.
Variable names_order : list text → list text.
Hypothesis db_ok : unicode_db_ok db.
Hypothesis names_order_perm : names_order_spec names_order.

Lemma get_mesh_names_spec (lines : list text) :
  NoDup (get_mesh_names db names_order lines)
  ∧ (length (get_mesh_names db names_order lines) ≤ length lines)%nat
  ∧ ∀ name, name ∈ get_mesh_names db names_order lines ↔
      ∃ line, line ∈ lines ∧ first_match db line name.
Proof.
  unfold get_mesh_names.
  destruct (mesh_set_spec db lines [] (NoDup_nil_2 (A := text)))
    as (Hnd & Hlen & Hin).
  cbv zeta in Hnd, Hlen, Hin. split_and!.
  - by rewrite (names_order_perm _).
  - by rewrite (names_order_perm _).
  - intros name. rewrite (names_order_perm _), Hin, elem_of_nil. tauto.
Qed.

(** What line 63 makes of a mesh file name. *)
Lemma mesh_file_name_id (m : text) :
  mesh_file_name db m →
  text_int db (text_replace dot_obj [] m)
  = if (int_max_str_digits <? N.of_nat (length m - 4))%N then None
    else Some (mesh_id_of_name db m).
Proof.
  intros (d & -> & Hd). rewrite (text_replace_obj db) by apply Hd.
  rewrite text_int_run, mesh_id_of_digits by done.
  rewrite length_app. change (length dot_obj) with 4%nat.
  by replace (length d + 4 - 4)%nat with (length d) by lia.
Qed.

(** Mesh discovery in closed form, for names that are not too long. *)
Lemma get_mesh_ids_names (lines : list text) :
  short_names db lines →
  get_mesh_ids db names_order lines
  = Ok (map (mesh_id_of_name db) (get_mesh_names db names_order lines)).
Proof.
  intros Hshort. destruct (get_mesh_names_spec lines) as (_ & _ & Hin).
  unfold get_mesh_ids. apply list_comp_pure. intros name Hname.
  apply Hin in Hname as (line & Hline & Hfirst).
  pose proof Hfirst as (pre & post & _ & Hfile & _).
  rewrite (mesh_file_name_id name Hfile).
  by rewrite (proj2 (N.ltb_ge _ _) (Hshort line name Hline Hfirst)).
Qed.

(** A name that is too long makes line 63 raise. *)
Lemma get_mesh_ids_long (lines : list text) :
  (∃ line name, line ∈ lines ∧ first_match db line name
     ∧ (int_max_str_digits < N.of_nat (length name - 4))%N) →
  get_mesh_ids db names_order lines = Raise ValueError.
Proof.
  intros (line & name & Hline & Hfirst & Hlong).
  destruct (get_mesh_names_spec lines) as (_ & _ & Hin).
  unfold get_mesh_ids. apply list_comp_raise.
  - intros m Hm. destruct (text_int db _); [right; eauto|by left].
  - exists name. split; [apply Hin; eauto|].
    destruct Hfirst as (pre & post & _ & Hfile & _).
    rewrite (mesh_file_name_id name Hfile).
    by rewrite (proj2 (N.ltb_lt _ _) Hlong).
Qed.

(** C6, amended: where no mesh file name found has more than 4300 digits,
    mesh discovery returns, in some order, the integer of every distinct file
    name found, a file name being found if it is the leftmost [<digits>.obj]
    of some line; a line without one contributes nothing.  Each file name is
    counted once, so two file names that denote the same integer give that
    integer twice.  Where a file name found has more than 4300 digits, mesh
    discovery raises [ValueError]. *)
Theorem get_mesh_ids_spec (lines : list text) :
  (short_names db lines →
   ∃ names,
     get_mesh_ids db names_order lines = Ok (map (mesh_id_of_name db) names)
     ∧ NoDup names
     ∧ ∀ name, name ∈ names ↔
         ∃ line, line ∈ lines ∧ first_match db line name)
  ∧ ((∃ line name, line ∈ lines ∧ first_match db line name
        ∧ (int_max_str_digits < N.of_nat (length name - 4))%N) →
     get_mesh_ids db names_order lines = Raise ValueError).
Proof.
  split; [|apply get_mesh_ids_long].
  intros Hshort. exists (get_mesh_names db names_order lines).
  destruct (get_mesh_names_spec lines) as (Hnd & _ & Hin).
  split_and!; [by apply get_mesh_ids_names|done|done].
Qed.
End mesh_discovery_facts.

(** A listing can be checked for names that are too long by searching its
    lines. *)
Lemma short_names_check (db : unicode_db) (lines : list text) :
  forallb
    (λ line, match re_search_obj db line with
             | Some m => (N.of_nat (length m - 4) <=? int_max_str_digits)%N
             | None => true
             end)
    lines = true →
  short_names db lines.
Proof.
  rewrite forallb_forall. intros Hall line name Hline%list_elem_of_In Hfirst.
  apply re_search_obj_Some in Hfirst. specialize (Hall line Hline).
  rewrite Hfirst in Hall. by apply N.leb_le.
Qed.

(** ** The type-tag merge *)

Lemma set_add_hashable (x : pyval) (s : list pyval) :
  py_hashable x = true → Forall (λ x, py_hashable x = true) s →
  Forall (λ x, py_hashable x = true) (set_add py_key_eqb x s).
Proof.
  intros Hx Hs. unfold set_add. destruct (existsb _ s); [done|].
  apply Forall_app. split; [done|]. by apply Forall_singleton.
Qed.

Lemma py_set_items_hashable (l acc : list pyval) :
  Forall (λ x, py_hashable x = true) l →
  Forall (λ x, py_hashable x = true) acc →
  ∃ v, for_each l acc (λ s x, py_set_add x s) = Ok v
       ∧ Forall (λ x, py_hashable x = true) v.
Proof.
  intros Hl. revert acc. induction Hl as [|x l Hx Hl IH]; intros acc Hacc.
  - by exists acc.
  - simpl. unfold py_set_add at 2. rewrite Hx, bind_Ok.
    apply IH. by apply set_add_hashable.
Qed.

Lemma py_set_list_hashable (l : list pyval) :
  Forall (λ x, py_hashable x = true) l →
  ∃ v, py_set (VList l) = Ok v ∧ Forall (λ x, py_hashable x = true) v.
Proof.
  intros Hl. unfold py_set, py_iter. rewrite bind_Ok.
  by apply py_set_items_hashable.
Qed.

Section groups_facts.
Variable set_order : list pyval → list pyval.
Hypothesis set_order_perm : set_order_spec set_order.

Lemma set_order_hashable (v : list pyval) :
  Forall (λ x, py_hashable x = true) v →
  Forall (λ x, py_hashable x = true) (set_order v).
Proof. intros Hv. by rewrite (set_order_perm v). Qed.

(** The first half of the merge: the member is recorded, nothing else
    changes. *)
Lemma add_member (s m : node) :
  members_ok s → has_hashable_id m →
  ∃ ms,
    (if dict_mem "members" s then
       members ← dict_get "members" s;
       v ← py_set members;
       m_id ← dict_get "@id" m;
       v ← py_set_add m_id v;
       Ok (dict_set "members" (VList (set_order v)) s)
     else
       m_id ← dict_get "@id" m;
       Ok (dict_set "members" (VList [m_id]) s))
    = Ok (dict_set "members" (VList ms) s)
    ∧ Forall (λ x, py_hashable x = true) ms.
Proof.
  intros Hs (i & Hi & Hhash). unfold dict_mem, dict_get. rewrite Hi.
  destruct (dict_find "members" s) as [v|] eqn:Hm.
  - destruct (Hs v Hm) as (l & -> & Hl).
    destruct (py_set_list_hashable l Hl) as (v & Hv & Hvh).
    rewrite !bind_Ok, Hv, !bind_Ok. unfold py_set_add. rewrite Hhash, bind_Ok.
    eexists. split; [reflexivity|].
    by apply set_order_hashable, set_add_hashable.
  - rewrite bind_Ok. exists [i]. split; [reflexivity|].
    by apply Forall_singleton.
Qed.

Lemma add_members_to_group_unfold (s m : node) (ms : list pyval) :
  (if dict_mem "members" s then
     members ← dict_get "members" s;
     v ← py_set members;
     m_id ← dict_get "@id" m;
     v ← py_set_add m_id v;
     Ok (dict_set "members" (VList (set_order v)) s)
   else
     m_id ← dict_get "@id" m;
     Ok (dict_set "members" (VList [m_id]) s))
  = Ok (dict_set "members" (VList ms) s) →
  add_members_to_group set_order s m
  = (let s := dict_set "members" (VList ms) s in
     if negb (dict_mem "@type" s) then Ok (dict_set "@type" (VStr "Group") s)
     else
       s_type ← dict_get "@type" s;
       if py_eq_str s_type "Group" then Ok s else
       if py_is_str s_type
       then Ok (dict_set "@type" (VList [s_type; VStr "Group"]) s)
       else
         s_type ← py_set s_type;
         if existsb (py_key_eqb (VStr "Group")) s_type then Ok s else
         let s_type := set_add py_key_eqb (VStr "Group") s_type in
         Ok (dict_set "@type" (VList (set_order s_type)) s)).
Proof. intros Hm. unfold add_members_to_group. by rewrite Hm. Qed.

(** Merging into a node of type ["Structure"]. *)
Lemma add_members_to_group_structure (s m : node) :
  members_ok s → has_hashable_id m →
  dict_find "@type" s = Some (VStr "Structure") →
  ∃ s1, add_members_to_group set_order s m = Ok s1
        ∧ dict_find "@type" s1 = Some (VList [VStr "Structure"; VStr "Group"])
        ∧ members_ok s1.
Proof.
  intros Hs Hm Ht. destruct (add_member s m Hs Hm) as (ms & Hadd & Hms).
  rewrite (add_members_to_group_unfold s m ms Hadd). cbv zeta.
  unfold dict_mem, dict_get. rewrite dict_find_set_ne, Ht by done.
  simpl. eexists. split; [reflexivity|]. split.
  - apply dict_find_set_eq.
  - intros v. rewrite dict_find_set_ne, dict_find_set_eq by done.
    intros [= <-]. eauto.
Qed.

(** Merging into a node whose type list already holds ["Group"]. *)
Lemma add_members_to_group_again (s m : node) :
  members_ok s → has_hashable_id m →
  dict_find "@type" s = Some (VList [VStr "Structure"; VStr "Group"]) →
  ∃ s2, add_members_to_group set_order s m = Ok s2
        ∧ dict_find "@type" s2 = Some (VList [VStr "Structure"; VStr "Group"]).
Proof.
  intros Hs Hm Ht. destruct (add_member s m Hs Hm) as (ms & Hadd & Hms).
  rewrite (add_members_to_group_unfold s m ms Hadd). cbv zeta.
  unfold dict_mem, dict_get. rewrite dict_find_set_ne, Ht by done.
  simpl. eexists. split; [reflexivity|].
  by rewrite dict_find_set_ne.
Qed.

(** C7: merging the [Group] tag into a node whose [@type] is the string
    ["Structure"] gives the [@type] list [["Structure"; "Group"]], so exactly
    the two tags, each once; merging again leaves that list as it is. *)
Theorem add_members_to_group_type_tags (s m m' : node) :
  members_ok s → has_hashable_id m → has_hashable_id m' →
  dict_find "@type" s = Some (VStr "Structure") →
  ∃ s1 s2 tags,
    add_members_to_group set_order s m = Ok s1
    ∧ dict_find "@type" s1 = Some (VList tags)
    ∧ tags ≡ₚ [VStr "Structure"; VStr "Group"]
    ∧ add_members_to_group set_order s1 m' = Ok s2
    ∧ dict_find "@type" s2 = Some (VList tags)
    ∧ py_count (VStr "Group") tags = 1%nat.
Proof.
  intros Hs Hm Hm' Ht.
  destruct (add_members_to_group_structure s m Hs Hm Ht)
    as (s1 & Hs1 & Ht1 & Hms1).
  destruct (add_members_to_group_again s1 m' Hms1 Hm' Ht1) as (s2 & Hs2 & Ht2).
  exists s1, s2, [VStr "Structure"; VStr "Group"].
  split_and!; done.
Qed.
End groups_facts.

Lemma sample_table_ok : well_formed_table sample_header sample_rows.
Proof.
  split; [by vm_compute|].
  repeat (apply Forall_cons; split;
          [split; [reflexivity|eexists; by vm_compute]|]).
  apply Forall_nil_2.
Qed.

Lemma get_allen_mouse_ontology_spec_witness :
  well_formed_table sample_header sample_rows
  ∧ ∃ results,
      get_allen_mouse_ontology (sample_header :: sample_rows) = Ok results
      ∧ results = fold_left (store_row sample_header) sample_rows [].
Proof.
  split; [exact sample_table_ok|].
  destruct (get_allen_mouse_ontology_spec sample_header sample_rows
              sample_table_ok) as (results & Hload & Hresults & _).
  by exists results.
Defined.

Lemma sample_db_ok : unicode_db_ok sample_db.
Proof.
  intros c d. unfold sample_db. cbn [db_decimal db_space].
  destruct ((1632 <=? c) && (c <=? 1641))%N eqn:H1.
  - intros [= <-]. apply andb_true_iff in H1 as [Ha%N.leb_le Hb%N.leb_le].
    split; [lia|]. apply orb_false_iff. split; apply N.eqb_neq; lia.
  - destruct ((65296 <=? c) && (c <=? 65305))%N eqn:H2; [|discriminate].
    intros [= <-]. apply andb_true_iff in H2 as [Ha%N.leb_le Hb%N.leb_le].
    split; [lia|]. apply orb_false_iff. split; apply N.eqb_neq; lia.
Qed.

Lemma insertion_order_names : names_order_spec insertion_order.
Proof. intros l. reflexivity. Qed.

Lemma long_name_first : first_match sample_db long_name long_name.
Proof. apply re_search_obj_Some. by vm_compute. Qed.

Lemma get_mesh_ids_spec_witness :
  unicode_db_ok sample_db
  ∧ names_order_spec insertion_order
  ∧ short_names sample_db (arabic_line :: sample_lines)
  ∧ (∃ names,
       get_mesh_ids sample_db insertion_order (arabic_line :: sample_lines)
       = Ok (map (mesh_id_of_name sample_db) names)
       ∧ NoDup names
       ∧ ∀ name, name ∈ names ↔
           ∃ line, line ∈ arabic_line :: sample_lines
                   ∧ first_match sample_db line name)
  ∧ get_mesh_ids sample_db insertion_order [long_name] = Raise ValueError.
Proof.
  assert (Hshort : short_names sample_db (arabic_line :: sample_lines))
    by (apply short_names_check; reflexivity).
  split_and!; [exact sample_db_ok|exact insertion_order_names|exact Hshort| |].
  - by apply (get_mesh_ids_spec sample_db insertion_order sample_db_ok
                insertion_order_names (arabic_line :: sample_lines)).
  - apply (get_mesh_ids_spec sample_db insertion_order sample_db_ok
             insertion_order_names [long_name]).
    exists long_name, long_name.
    split_and!; [by left|exact long_name_first|by vm_compute].
Defined.

(** C6 as stated fails: the listing with the lines [007.obj] and [7.obj]
    has two distinct file names, and mesh discovery returns the ID 7 twice;
    and for the listing whose one line is a name of 4301 digits it returns
    nothing: it raises [ValueError].  Both listings are ASCII, so this is so
    whatever the database. *)
Lemma get_mesh_ids_repeats_an_id :
  (∀ db, get_mesh_ids db insertion_order [codes "007.obj"; codes "7.obj"]
         = Ok [7; 7])
  ∧ ¬ NoDup [7; 7]
  ∧ (∀ db, get_mesh_ids db insertion_order [long_name] = Raise ValueError)
  ∧ ¬ (∀ db names_order,
         unicode_db_ok db → names_order_spec names_order →
         ∀ lines, ∃ ids,
           get_mesh_ids db names_order lines = Ok ids ∧ NoDup ids).
Proof.
  assert (Hrun : ∀ db, get_mesh_ids db insertion_order
                         [codes "007.obj"; codes "7.obj"]
                       = Ok [7; 7]) by (intros db; by vm_compute).
  assert (Hdup : ¬ NoDup [7; 7]).
  { intros [Hnin _]%NoDup_cons. apply Hnin. by left. }
  split_and!; [done|done|intros db; by vm_compute|].
  intros Hclaim. apply Hdup.
  destruct (Hclaim sample_db insertion_order sample_db_ok
              insertion_order_names [codes "007.obj"; codes "7.obj"])
    as (ids & Hids & Hnd).
  rewrite Hrun in Hids. by injection Hids as <-.
Qed.

Lemma insertion_order_set : set_order_spec insertion_order.
Proof. intros l. reflexivity. Qed.

Lemma add_members_to_group_type_tags_witness :
  set_order_spec insertion_order
  ∧ dict_find "@type" sample_structure = Some (VStr "Structure")
  ∧ ∃ s1 s2 tags,
      add_members_to_group insertion_order sample_structure sample_member
      = Ok s1
      ∧ dict_find "@type" s1 = Some (VList tags)
      ∧ tags ≡ₚ [VStr "Structure"; VStr "Group"]
      ∧ add_members_to_group insertion_order s1 sample_member = Ok s2
      ∧ dict_find "@type" s2 = Some (VList tags)
      ∧ py_count (VStr "Group") tags = 1%nat.
Proof.
  split; [exact insertion_order_set|]. split; [reflexivity|].
  assert (Hid : has_hashable_id sample_member)
    by (eexists; split; reflexivity).
  apply (add_members_to_group_type_tags insertion_order insertion_order_set
           sample_structure sample_member sample_member).
  - intros v Hv. discriminate.
  - exact Hid.
  - exact Hid.
  - reflexivity.
Defined.

(** ** The stages run on the sample inputs *)

Example sample_table_loads :
  get_allen_mouse_ontology (sample_header :: sample_rows) = Ok sample_ontology.
Proof. by vm_compute. Qed.

Example sample_ontology_links :
  find_children sample_ontology
  = Ok [(997, sample_entry 997 (VStr "") (VStr "FFFFFF") "root"
                ++ [("child_structure_ids", VList [VInt 8])]);
        (8, sample_entry 8 (VInt 997) (VStr "BFDAE3") "grey")].
Proof. by vm_compute. Qed.

Example sample_lines_mesh_ids :
  get_mesh_ids sample_db insertion_order sample_lines = Ok [997; 8].
Proof. by vm_compute. Qed.

(** A digit of another script counts: the Arabic-Indic three before [.obj]
    is found before [12.obj] and read as 3. *)
Example arabic_line_mesh_ids :
  get_mesh_ids sample_db insertion_order [arabic_line] = Ok [3].
Proof. by vm_compute. Qed.

(** White space and digits beyond ASCII, a sign and underscores in what
    [int] takes, and what it refuses: the file separator (28) is no white
    space for [int]. *)
Example text_int_samples :
  text_int sample_db (12288%N :: 1633%N :: 65298%N :: codes "_3 ") = Some 123
  ∧ text_int no_db [133%N; 53%N; 160%N] = Some 5
  ∧ text_int no_db [28%N; 53%N] = None
  ∧ py_int " -007" = Some (-7)
  ∧ py_int "+5" = Some 5
  ∧ py_int "5_" = None
  ∧ py_int "5__5" = None
  ∧ py_int "+ 5" = None
  ∧ py_int "0x10" = None
  ∧ py_int "" = None.
Proof. by vm_compute. Qed.

Example sample_document_root :
  (λ nodes, head nodes ≫= dict_find "root")
    <$> (match build_atlas sample_repr sample_ontology [997; 8] with
         | Ok nodes => Some nodes
         | Raise _ => None
         end)
  = Some (Some (VList [VStr "#structure_997"])).
Proof. by vm_compute. Qed.

(** ** More on what the builder emits *)

Section builder_more.
Variable py_repr : pyval → string.
Implicit Types (ontology : odict Z node) (ids u : list Z) (nodes : list node).

(** The nodes of a document, by kind. *)
Lemma atlas_node_cases ontology u (n : node) :
  (∀ mid, mid ∈ u → ∃ s, structure_of py_repr ontology mid = Ok s) →
  n ∈ atlas_nodes py_repr ontology u →
  n = header_node
  ∨ n ∈ base_url_nodes
  ∨ (∃ mid, mid ∈ u ∧ n = mesh_ds_node mid)
  ∨ (∃ mid r, mid ∈ u ∧ r ∈ resolutions ∧ n = mask_ds_node mid r)
  ∨ (∃ mid color name acronym allenAtlasId,
       mid ∈ u ∧ n = structure_node mid color name acronym allenAtlasId)
  ∨ (∃ r, r ∈ resolutions ∧ n = average_template_node r)
  ∨ (∃ r, r ∈ resolutions ∧ n = ara_nissl_node r).
Proof.
  intros Hall Hn. unfold atlas_nodes in Hn.
  apply elem_of_cons in Hn as [->|Hn]; [by left|]. right.
  apply elem_of_app in Hn as [Hn|Hn]; [by left|]. right.
  apply elem_of_app in Hn as [Hn|Hn].
  { left. apply list_elem_of_fmap in Hn as (mid & -> & Hmid). eauto. }
  right. apply elem_of_app in Hn as [Hn|Hn].
  { left. apply elem_of_concat_map in Hn as (mid & Hmid & Hn).
    apply list_elem_of_fmap in Hn as (r & -> & Hr). eauto. }
  right. apply elem_of_app in Hn as [Hn|Hn].
  { left. apply list_elem_of_fmap in Hn as (mid & -> & Hmid).
    destruct (Hall mid Hmid) as [s Hs]. unfold structure_or_empty.
    rewrite Hs. apply structure_of_Ok_inv in Hs
      as (entry & c & nm & a & i & _ & _ & _ & _ & _ & ->).
    by exists mid, ("#" +:+ py_format py_repr c), nm, a, i. }
  right. apply elem_of_app in Hn as [Hn|Hn].
  - left. apply list_elem_of_fmap in Hn as (r & -> & Hr). eauto.
  - right. apply list_elem_of_fmap in Hn as (r & -> & Hr). eauto.
Qed.

Lemma build_atlas_Ok_cases ontology ids nodes (n : node) :
  build_atlas py_repr ontology ids = Ok nodes → n ∈ nodes →
  n = header_node
  ∨ n ∈ base_url_nodes
  ∨ (∃ mid, mid ∈ ids ∧ n = mesh_ds_node mid)
  ∨ (∃ mid r, mid ∈ ids ∧ r ∈ resolutions ∧ n = mask_ds_node mid r)
  ∨ (∃ mid color name acronym allenAtlasId,
       mid ∈ ids ∧ n = structure_node mid color name acronym allenAtlasId)
  ∨ (∃ r, r ∈ resolutions ∧ n = average_template_node r)
  ∨ (∃ r, r ∈ resolutions ∧ n = ara_nissl_node r).
Proof.
  intros (Hall & _ & ->)%build_atlas_Ok_inv Hn.
  assert (Hu : ∀ mid, mid ∈ first_occurrences [] ids → mid ∈ ids).
  { intros mid [?%elem_of_nil|?]%first_occurrences_elem; done. }
  apply atlas_node_cases in Hn; [|by intros mid ?%Hu%Hall].
  destruct Hn as [?|[?|[(mid & ?%Hu & ?)|[(mid & r & ?%Hu & ? & ?)|
    [(mid & c & nm & a & i & ?%Hu & ?)|[?|?]]]]]]; eauto 15.
Qed.

(** X1: in a document [build_atlas] returns, the [baseURL] of every node
    that has one is the [@id] of a [BaseURL] node of the same document. *)
Theorem build_atlas_base_urls_resolve ontology ids nodes :
  build_atlas py_repr ontology ids = Ok nodes →
  ∀ n url, n ∈ nodes → dict_find "baseURL" n = Some url →
    ∃ b, b ∈ nodes ∧ dict_find "@id" b = Some url
         ∧ dict_find "@type" b = Some (VStr "BaseURL").
Proof.
  intros Hb n url Hn Hurl.
  pose proof Hb as (_ & _ & ->)%build_atlas_Ok_inv.
  assert (Hbase : ∀ b, b ∈ base_url_nodes →
            b ∈ atlas_nodes py_repr ontology (first_occurrences [] ids)).
  { intros b Hin. unfold atlas_nodes. right. apply elem_of_app. by left. }
  destruct (build_atlas_Ok_cases _ _ _ n Hb Hn)
    as [->|[Hin|[(mid & _ & ->)|[(mid & r & _ & _ & ->)|
        [(mid & c & nm & a & i & _ & ->)|[(r & _ & ->)|(r & _ & ->)]]]]]].
  - discriminate.
  - unfold base_url_nodes in Hin. elem_inv; subst; discriminate.
  - injection Hurl as <-.
    exists (BaseURL "#mesh_base_url" MouseCCFMeshBaseURL).
    split; [apply Hbase; unfold base_url_nodes; by left|done].
  - injection Hurl as <-.
    exists (BaseURL "#mesh_download_url" MouseCCFDownloadBaseURL).
    split; [apply Hbase; unfold base_url_nodes; do 2 right; by left|done].
  - discriminate.
  - injection Hurl as <-.
    exists (BaseURL "#average_template_base_url"
              MouseCCFAverageTemplateBaseURL).
    split; [apply Hbase; unfold base_url_nodes; do 3 right; by left|done].
  - injection Hurl as <-.
    exists (BaseURL "#ara_nissl_base_url" MouseCCFAraNisslURL).
    split; [apply Hbase; unfold base_url_nodes; do 4 right; by left|done].
Qed.

(** X2: in a document [build_atlas] returns, every identifier a node refers
    to names a node of the document: the entries of a [shape.dataSource]
    list name data sources, the [root] of the header names a structure and
    its [backgroundImage] entries name average-template data sources. *)
Theorem build_atlas_references_resolve ontology ids nodes :
  build_atlas py_repr ontology ids = Ok nodes →
  (∀ s shape l x,
     s ∈ nodes → dict_find "shape" s = Some (VDict shape) →
     dict_find "dataSource" shape = Some (VList l) → x ∈ l →
     ∃ d, d ∈ nodes ∧ dict_find "@id" d = Some x
          ∧ is_Some (dict_find "baseURL" d))
  ∧ (∀ h l x,
       h ∈ nodes → dict_find "root" h = Some (VList l) → x ∈ l →
       ∃ s, s ∈ nodes ∧ dict_find "@id" s = Some x
            ∧ dict_find "@type" s = Some (VStr "Structure"))
  ∧ (∀ h l x,
       h ∈ nodes → dict_find "backgroundImage" h = Some (VList l) → x ∈ l →
       ∃ d, d ∈ nodes ∧ dict_find "@id" d = Some x
            ∧ dict_find "@type" d
              = Some (VList [VStr "DataSource"; VStr "ImageDataSource";
                             VStr "AverageTemplateDataSource"])).
Proof.
  intros Hb.
  pose proof Hb as (-> & _ & Hroot & Hids)%build_atlas_Ok_nodes.
  set (u := first_occurrences [] ids) in *.
  assert (Hcases := λ n, build_atlas_Ok_cases _ _ _ n Hb).
  split_and!.
  - intros s shape l x Hs Hshape Hl Hx.
    destruct (Hcases s Hs)
      as [->|[Hin|[(mid & _ & ->)|[(mid & r & _ & _ & ->)|
          [(mid & c & nm & a & i & Hmid & ->)|[(r & _ & ->)|(r & _ & ->)]]]]]];
      try discriminate.
    + unfold base_url_nodes in Hin. elem_inv; subst; discriminate.
    + injection Hshape as <-. injection Hl as <-.
      destruct (Hids mid Hmid) as [Hu _].
      unfold shape_data_source in Hx.
      apply elem_of_cons in Hx as [->|Hx].
      * exists (mesh_ds_node mid).
        split_and!; [by apply mesh_ds_node_emitted|done|by eexists].
      * apply list_elem_of_fmap in Hx as (r & -> & Hr).
        exists (mask_ds_node mid r).
        split_and!; [by apply mask_ds_node_emitted|done|by eexists].
  - intros h l x Hh Hl Hx.
    destruct (Hcases h Hh)
      as [->|[Hin|[(mid & _ & ->)|[(mid & r & _ & _ & ->)|
          [(mid & c & nm & a & i & Hmid & ->)|[(r & _ & ->)|(r & _ & ->)]]]]]];
      try discriminate.
    + injection Hl as <-. apply list_elem_of_singleton in Hx as ->.
      destruct (Hids 997 Hroot) as (Hu & c & nm & a & i & Hs).
      exists (structure_or_empty py_repr ontology 997).
      split_and!; [by apply structure_node_emitted| |]; by rewrite Hs.
    + unfold base_url_nodes in Hin. elem_inv; subst; discriminate.
  - intros h l x Hh Hl Hx.
    destruct (Hcases h Hh)
      as [->|[Hin|[(mid & _ & ->)|[(mid & r & _ & _ & ->)|
          [(mid & c & nm & a & i & Hmid & ->)|[(r & _ & ->)|(r & _ & ->)]]]]]];
      try discriminate.
    + injection Hl as <-.
      assert (∃ r, r ∈ resolutions
                   ∧ x = VStr (id_string (KAverageTemplate r)))
        as (r & Hr & ->).
      { elem_inv; subst; [exists 10|exists 25|exists 50|exists 100];
          (split; [|reflexivity]); unfold resolutions;
          rewrite !elem_of_cons; auto 10. }
      exists (average_template_node r). split_and!; [|done|done].
      unfold atlas_nodes. right. rewrite !elem_of_app. do 4 right. left.
      apply list_elem_of_fmap. by exists r.
    + unfold base_url_nodes in Hin. elem_inv; subst; discriminate.
Qed.

Lemma length_concat_map_resolutions {A : Type} (f : Z → Z → A) (u : list Z) :
  length (concat (map (λ mid, map (f mid) resolutions) u))
  = (4 * length u)%nat.
Proof.
  induction u as [|mid u IH]; [reflexivity|].
  rewrite map_cons, concat_cons, length_app, IH, length_map. simpl. lia.
Qed.

Lemma first_occurrences_remove_dups ids :
  first_occurrences [] ids ≡ₚ remove_dups ids.
Proof.
  apply NoDup_Permutation.
  - apply first_occurrences_NoDup, NoDup_nil_2.
  - apply NoDup_remove_dups.
  - intros x. rewrite first_occurrences_elem, elem_of_remove_dups, elem_of_nil.
    tauto.
Qed.

(** X3: a document [build_atlas] returns has 14 nodes and six more for
    every distinct mesh ID: the header, five base URLs, four average
    templates and four Nissl volumes, and per mesh ID one mesh, four masks
    and one structure. *)
Theorem build_atlas_length ontology ids nodes :
  build_atlas py_repr ontology ids = Ok nodes →
  length nodes = (14 + 6 * length (remove_dups ids))%nat.
Proof.
  intros (_ & _ & ->)%build_atlas_Ok_inv.
  rewrite <- (first_occurrences_remove_dups ids).
  unfold atlas_nodes. cbn [length]. rewrite !length_app, !length_map.
  rewrite length_concat_map_resolutions. simpl. lia.
Qed.

(** X4: the [@id]s of a document [build_atlas] returns, in order: the
    header, the five base URLs, then the meshes, the masks (by mesh ID, then
    by resolution) and the structures of the mesh IDs in the order of their
    first occurrence, then the average templates and the Nissl volumes. *)
Theorem build_atlas_id_sequence ontology ids nodes :
  build_atlas py_repr ontology ids = Ok nodes →
  let u := first_occurrences [] ids in
  map (dict_find "@id") nodes
  = map (λ s, Some (VStr s))
      (["#__header__"; "#mesh_base_url"; "#mask_base_url";
        "#mesh_download_url"; "#average_template_base_url";
        "#ara_nissl_base_url"]
       ++ map (λ mid, "#mesh_ds_" +:+ pretty mid) u
       ++ concat (map (λ mid,
                        map (λ r, "#mask_ds_" +:+ pretty r +:+ "_"
                                    +:+ pretty mid) resolutions) u)
       ++ map (λ mid, "#structure_" +:+ pretty mid) u
       ++ map (λ r, "#average_template_ds_" +:+ pretty r) resolutions
       ++ map (λ r, "#ara_nissl_ds_" +:+ pretty r) resolutions).
Proof.
  intros (Hall & _ & ->)%build_atlas_Ok_inv. cbv zeta.
  rewrite atlas_nodes_ids.
  - unfold atlas_keys. cbn [app map].
    rewrite !map_app, !map_map, !concat_map, !map_map.
    reflexivity.
  - intros mid [?%elem_of_nil|?]%first_occurrences_elem; [done|].
    by apply Hall.
Qed.
End builder_more.

(** ** Printing an integer and reading it back *)

Lemma codes_length (s : string) : length (codes s) = String.length s.
Proof.
  induction s as [|a s IH]; [done|].
  rewrite codes_cons. simpl. by rewrite IH.
Qed.

Section printing.
Variable db : unicode_db.

Lemma digits_value_acc (l : text) (acc : Z) :
  digits_value db acc l
  = acc * 10 ^ Z.of_nat (length l) + digits_value db 0 l.
Proof.
  unfold digits_value. revert acc. induction l as [|c l IH]; intros acc.
  - simpl. lia.
  - cbn [fold_left length]. rewrite (IH (10 * acc + _)).
    rewrite (IH (10 * 0 + _)).
    rewrite Nat2Z.inj_succ, Z.pow_succ_r by lia. ring.
Qed.

Lemma digits_value_cons (c : N) (l : text) :
  digits_value db 0 (c :: l)
  = default 0 (decimal_value db c) * 10 ^ Z.of_nat (length l)
    + digits_value db 0 l.
Proof.
  change (digits_value db 0 (c :: l))
    with (digits_value db (10 * 0 + default 0 (decimal_value db c)) l).
  rewrite digits_value_acc. ring.
Qed.

Lemma pretty_N_char_value (d : N) :
  (d < 10)%N →
  decimal_value db (N_of_ascii (pretty_N_char d)) = Some (Z.of_N d).
Proof.
  intros Hd.
  assert (d = 0 ∨ d = 1 ∨ d = 2 ∨ d = 3 ∨ d = 4 ∨ d = 5 ∨ d = 6 ∨ d = 7
          ∨ d = 8 ∨ d = 9)%N as Hcases by lia.
  repeat destruct Hcases as [->|Hcases]; try reflexivity.
  by subst d.
Qed.

(** The digits [pretty_N_go] puts in front of [s] denote [x]. *)
Lemma pretty_N_go_digits (x : N) (s : string) :
  Forall (λ c, is_decimal db c = true) (codes s) →
  Forall (λ c, is_decimal db c = true) (codes (pretty_N_go x s))
  ∧ digits_value db 0 (codes (pretty_N_go x s))
    = Z.of_N x * 10 ^ Z.of_nat (String.length s)
      + digits_value db 0 (codes s).
Proof.
  revert s. induction (N.lt_wf_0 x) as [x _ IH]; intros s Hs.
  destruct (decide (0 < x)%N) as [Hx|Hx].
  - rewrite pretty_N_go_step by done.
    set (c := pretty_N_char (x `mod` 10)).
    assert (Hv : decimal_value db (N_of_ascii c) = Some (Z.of_N (x `mod` 10)))
      by (apply pretty_N_char_value, N.mod_lt; lia).
    assert (Hcs : Forall (λ c, is_decimal db c = true) (codes (String c s))).
    { rewrite codes_cons. apply Forall_cons. split; [|done].
      unfold is_decimal. by rewrite Hv. }
    destruct (IH (x `div` 10)%N (N.div_lt x 10 Hx eq_refl) (String c s) Hcs)
      as (Hd & Hval).
    split; [done|].
    rewrite Hval. cbn [String.length]. rewrite codes_cons.
    rewrite digits_value_cons, codes_length, Hv. cbn [default from_option id].
    rewrite Nat2Z.inj_succ, Z.pow_succ_r by lia.
    pose proof (N.div_mod x 10 ltac:(lia)) as Hdm.
    rewrite Hdm at 3. rewrite N2Z.inj_add, N2Z.inj_mul.
    change (Z.of_N 10) with 10. ring.
  - assert (x = 0%N) as -> by lia. rewrite pretty_N_go_0.
    split; [done|]. change (Z.of_N 0) with 0. lia.
Qed.
End printing.

Lemma pretty_N_go_grows (x : N) (s : string) :
  (String.length s ≤ String.length (pretty_N_go x s))%nat.
Proof.
  revert s. induction (N.lt_wf_0 x) as [x _ IH]; intros s.
  destruct (decide (0 < x)%N) as [Hx|Hx].
  - rewrite pretty_N_go_step by done.
    etrans; [|apply (IH (x `div` 10)%N (N.div_lt x 10 Hx eq_refl))].
    cbn [String.length]. lia.
  - assert (x = 0%N) as -> by lia. by rewrite pretty_N_go_0.
Qed.

(** How many digits [pretty_N_go] puts in front of [s]. *)
Lemma pretty_N_go_length (k : N) (x : N) (s : string) :
  ((x < 10 ^ k)%N →
   (N.of_nat (String.length (pretty_N_go x s))
    ≤ N.of_nat (String.length s) + k)%N)
  ∧ ((10 ^ k ≤ x)%N →
     (N.of_nat (String.length s) + k
      < N.of_nat (String.length (pretty_N_go x s)))%N).
Proof.
  revert x s. induction k as [|k IH] using N.peano_ind; intros x s.
  - change (10 ^ 0)%N with 1%N. split.
    + intros Hx. assert (x = 0%N) as -> by lia. rewrite pretty_N_go_0. lia.
    + intros Hx. rewrite pretty_N_go_step by lia.
      pose proof (pretty_N_go_grows (x `div` 10)%N
                    (String (pretty_N_char (x `mod` 10)) s)) as Hlen.
      cbn [String.length] in Hlen. lia.
  - rewrite N.pow_succ_r by lia. split.
    + intros Hx. destruct (decide (0 < x)%N) as [Hpos|Hpos].
      * rewrite pretty_N_go_step by done.
        destruct (IH (x `div` 10)%N (String (pretty_N_char (x `mod` 10)) s))
          as [Hle _].
        cbn [String.length] in Hle.
        assert (x `div` 10 < 10 ^ k)%N as Hdiv
          by (apply N.Div0.div_lt_upper_bound; lia).
        specialize (Hle Hdiv). lia.
      * assert (x = 0%N) as -> by lia. rewrite pretty_N_go_0. lia.
    + intros Hx.
      assert (0 < 10 ^ k)%N as Hpow by (apply N.neq_0_lt_0, N.pow_nonzero; lia).
      rewrite pretty_N_go_step by lia.
      destruct (IH (x `div` 10)%N (String (pretty_N_char (x `mod` 10)) s))
        as [_ Hlt].
      cbn [String.length] in Hlt.
      assert (10 ^ k ≤ x `div` 10)%N as Hdiv
        by (apply N.div_le_lower_bound; lia).
      specialize (Hlt Hdiv). lia.
Qed.


Section printed_numbers.
Variable db : unicode_db.

(** The decimal text of a positive number is a run of digits that denotes
    it. *)
Lemma pretty_pos_digits (p : positive) :
  digit_run db (codes (pretty (Zpos p)))
  ∧ digits_value db 0 (codes (pretty (Zpos p))) = Zpos p.
Proof.
  change (pretty (Zpos p)) with (pretty_N_go (Npos p) "").
  destruct (pretty_N_go_digits db (Npos p) "" (Forall_nil_2 _)) as [Hd Hval].
  split; [split; [|done]|].
  - intros Hnil. apply (f_equal (@length N)) in Hnil.
    rewrite codes_length in Hnil.
    destruct (pretty_N_go_length 0 (Npos p) "") as [_ Hlt].
    rewrite Hnil in Hlt. change (10 ^ 0)%N with 1%N in Hlt.
    cbn [String.length length] in Hlt. lia.
  - rewrite Hval. change (digits_value db 0 (codes "")) with 0.
    change (Z.of_N (N.pos p)) with (Z.pos p).
    change (Z.of_nat (String.length "")) with 0. lia.
Qed.

(** It has more than [k] digits if the number is [10 ^ k] at least. *)
Lemma pretty_pos_length (p : positive) (k : N) :
  (k <? N.of_nat (length (codes (pretty (Zpos p)))))%N
  = bool_decide (10 ^ Z.of_N k ≤ Zpos p)%Z.
Proof.
  change (pretty (Zpos p)) with (pretty_N_go (Npos p) "").
  rewrite codes_length.
  destruct (pretty_N_go_length k (Npos p) "") as [Hle Hlt].
  cbn [String.length] in Hle, Hlt.
  assert (Hpow : Z.of_N (10 ^ k) = 10 ^ Z.of_N k) by (by rewrite N2Z.inj_pow).
  destruct (decide (10 ^ k ≤ N.pos p)%N) as [Hk|Hk].
  - rewrite (proj2 (N.ltb_lt _ _)) by (specialize (Hlt Hk); lia).
    symmetry. apply bool_decide_eq_true. rewrite <- Hpow. lia.
  - rewrite (proj2 (N.ltb_ge _ _)) by (specialize (Hle ltac:(lia)); lia).
    symmetry. apply bool_decide_eq_false. rewrite <- Hpow. lia.
Qed.

Lemma pretty_nonneg_digits (m : Z) :
  (0 ≤ m)%Z →
  digit_run db (codes (pretty m))
  ∧ digits_value db 0 (codes (pretty m)) = m.
Proof.
  intros Hm. destruct m as [|p|p]; [|apply pretty_pos_digits|lia].
  split; [|reflexivity]. split; [done|].
  change (codes (pretty 0)) with [48%N]. by apply Forall_singleton.
Qed.

Lemma pretty_nonneg_length (m : Z) :
  (0 ≤ m)%Z →
  (int_max_str_digits <? N.of_nat (length (codes (pretty m))))%N
  = bool_decide (10 ^ Z.of_N int_max_str_digits ≤ m)%Z.
Proof.
  intros Hm. destruct m as [|p|p]; [|apply pretty_pos_length|lia].
  symmetry. apply bool_decide_eq_false.
  pose proof (Z.pow_pos_nonneg 10 (Z.of_N int_max_str_digits)). lia.
Qed.
End printed_numbers.

Lemma no_db_ok : unicode_db_ok no_db.
Proof. by intros c d. Qed.

(** [int] reads back what printing an integer gives, if the integer has no
    more digits than [int] converts. *)
Lemma py_int_pretty (z : Z) :
  py_int (pretty z)
  = if bool_decide (10 ^ Z.of_N int_max_str_digits ≤ Z.abs z)%Z then None
    else Some z.
Proof.
  unfold py_int. destruct z as [|p|p].
  - rewrite bool_decide_eq_false_2; [reflexivity|].
    pose proof (Z.pow_pos_nonneg 10 (Z.of_N int_max_str_digits)). lia.
  - destruct (pretty_pos_digits no_db p) as [Hd Hval].
    rewrite (text_int_run no_db no_db_ok) by done.
    rewrite pretty_pos_length, Hval. reflexivity.
  - destruct (pretty_pos_digits no_db p) as [Hd Hval].
    change (pretty (Z.neg p)) with ("-" +:+ pretty (Z.pos p)).
    rewrite codes_app. change (codes "-") with [45%N].
    change ([45%N] ++ codes (pretty (Z.pos p)))
      with (45%N :: codes (pretty (Z.pos p))).
    rewrite (text_int_minus_run no_db no_db_ok) by done.
    rewrite pretty_pos_length, Hval. reflexivity.
Qed.

Lemma py_int_pretty_inv (z z' : Z) : py_int (pretty z') = Some z → z = z'.
Proof. rewrite py_int_pretty. case_bool_decide; congruence. Qed.

(** X8: [possibly_int] turns the decimal text of an integer back into that
    integer if the integer is below [10 ^ 4300] in absolute value; the
    decimal text of any other integer has more digits than [int] converts,
    and [possibly_int] returns the text as it is. *)
Theorem possibly_int_pretty (z : Z) :
  (Z.abs z < 10 ^ Z.of_N int_max_str_digits →
   py_int (pretty z) = Some z ∧ possibly_int (pretty z) = VInt z)
  ∧ ((10 ^ Z.of_N int_max_str_digits ≤ Z.abs z)%Z →
     py_int (pretty z) = None ∧ possibly_int (pretty z) = VStr (pretty z)).
Proof.
  unfold possibly_int. rewrite py_int_pretty. split; intros Hz.
  - by rewrite bool_decide_eq_false_2 by (by apply Z.lt_nge).
  - by rewrite bool_decide_eq_true_2 by done.
Qed.

(** ** Which file names mesh discovery finds *)

Section found_names.
Variable db : unicode_db.

(** A line has at most one leftmost mesh file name. *)
Lemma first_match_unique (line m m' : text) :
  first_match db line m → first_match db line m' → m = m'.
Proof. intros H1%re_search_obj_Some H2%re_search_obj_Some. congruence. Qed.

(** Characters that are no digits are passed over. *)
Lemma first_match_digits (pre d post : text) :
  Forall (λ c, is_decimal db c = false) pre →
  digit_run db d →
  first_match db (pre ++ d ++ dot_obj ++ post) (d ++ dot_obj).
Proof.
  intros Hpre Hd. exists pre, post. split_and!.
  - by rewrite <- (app_assoc d).
  - by exists d.
  - intros pre1 pre2 -> Hne (m & post' & Heq & (d' & -> & Hd')).
    destruct pre2 as [|c pre2]; [done|].
    apply Forall_app in Hpre as [_ [Hc _]%Forall_cons].
    destruct (digit_run_cons db d' Hd') as (c' & d'' & -> & Hc').
    injection Heq as -> _. congruence.
Qed.

Lemma first_match_name (d : text) :
  digit_run db d → first_match db (d ++ dot_obj) (d ++ dot_obj).
Proof.
  intros Hd.
  pose proof (first_match_digits [] d [] (Forall_nil_2 _) Hd) as Hfirst.
  cbn [app] in Hfirst. by rewrite !app_nil_r in Hfirst.
Qed.
End found_names.

Section mesh_discovery_more.
Variable db : unicode_db.
Variable names_order : list text → list text.
Hypothesis db_ok : unicode_db_ok db.
Hypothesis names_order_perm : names_order_spec names_order.

(** X9: in a listing where no mesh file name found has more than 4300
    digits, a line whose first digits are a run [d] followed by [.obj]
    contributes the integer [d] denotes to the mesh IDs.  The digits are
    those of any script. *)
Theorem get_mesh_ids_finds_first_name (lines : list text)
    (pre d post : text) :
  short_names db lines →
  pre ++ d ++ dot_obj ++ post ∈ lines →
  Forall (λ c, is_decimal db c = false) pre →
  digit_run db d →
  ∃ ids, get_mesh_ids db names_order lines = Ok ids
         ∧ digits_value db 0 d ∈ ids.
Proof.
  intros Hshort Hline Hpre Hd. eexists.
  split; [by apply get_mesh_ids_names|].
  destruct (get_mesh_names_spec db names_order names_order_perm lines)
    as (_ & _ & Hin).
  rewrite <- (mesh_id_of_digits db d).
  apply list_elem_of_fmap. exists (d ++ dot_obj). split; [done|].
  apply Hin. exists (pre ++ d ++ dot_obj ++ post). split; [done|].
  by apply first_match_digits.
Qed.

(** X10: mesh discovery reads back the file names the builder writes.  From
    the listing with one line [<id>.obj] per ID, for IDs that are not
    negative, it returns exactly those IDs, in some order, if they are
    distinct and below [10 ^ 4300]; it raises [ValueError] if one of them is
    [10 ^ 4300] or more. *)
Theorem get_mesh_ids_of_sources (ms : list Z) :
  (∀ m, m ∈ ms → (0 ≤ m)%Z) →
  (NoDup ms → (∀ m, m ∈ ms → m < 10 ^ Z.of_N int_max_str_digits) →
   ∃ ids,
     get_mesh_ids db names_order (map (λ m, codes (pretty m +:+ ".obj")) ms)
     = Ok ids
     ∧ ids ≡ₚ ms)
  ∧ ((∃ m, m ∈ ms ∧ (10 ^ Z.of_N int_max_str_digits ≤ m)%Z) →
     get_mesh_ids db names_order (map (λ m, codes (pretty m +:+ ".obj")) ms)
     = Raise ValueError).
Proof.
  intros Hpos.
  set (name := λ m : Z, codes (pretty m +:+ ".obj")).
  assert (Hname : ∀ m, name m = codes (pretty m) ++ dot_obj)
    by (intros m; apply codes_app).
  assert (Hfirst : ∀ m, m ∈ ms → first_match db (name m) (name m)).
  { intros m Hm. rewrite Hname. apply first_match_name.
    by apply pretty_nonneg_digits, Hpos. }
  assert (Hlen : ∀ m, (length (name m) - 4)%nat = length (codes (pretty m))).
  { intros m. rewrite Hname, length_app. change (length dot_obj) with 4%nat.
    lia. }
  split.
  - intros Hnd Hsmall.
    assert (Hshort : short_names db (map name ms)).
    { intros line nm (m & -> & Hm)%list_elem_of_fmap Hnm.
      rewrite <- (first_match_unique db _ _ _ (Hfirst m Hm) Hnm), Hlen.
      apply N.ltb_ge. rewrite pretty_nonneg_length by (by apply Hpos).
      apply bool_decide_eq_false. specialize (Hsmall m Hm). lia. }
    eexists. split; [by apply get_mesh_ids_names|].
    destruct (get_mesh_names_spec db names_order names_order_perm
                (map name ms)) as (Hnames & _ & Hin).
    assert (Hperm : get_mesh_names db names_order (map name ms)
                    ≡ₚ map name ms).
    { apply NoDup_Permutation; [done| |].
      - apply (NoDup_fmap_2_strong name); [|done].
        intros x y Hx Hy Heq. rewrite !Hname in Heq.
        apply app_inv_tail in Heq.
        destruct (pretty_nonneg_digits db x (Hpos x Hx)) as [_ <-].
        destruct (pretty_nonneg_digits db y (Hpos y Hy)) as [_ <-].
        by rewrite Heq.
      - intros nm. rewrite Hin. split.
        + intros (line & (m & -> & Hm)%list_elem_of_fmap & Hnm).
          rewrite <- (first_match_unique db _ _ _ (Hfirst m Hm) Hnm).
          apply list_elem_of_fmap. by exists m.
        + intros (m & -> & Hm)%list_elem_of_fmap. exists (name m).
          split; [|by apply Hfirst]. apply list_elem_of_fmap. by exists m. }
    rewrite Hperm, map_map.
    rewrite <- (map_id ms) at 2.
    assert (Hmap : map (λ x, mesh_id_of_name db (name x)) ms = map id ms).
    { apply map_ext_in. intros m Hm%list_elem_of_In.
      destruct (pretty_nonneg_digits db m (Hpos m Hm)) as [_ Hval].
      by rewrite Hname, mesh_id_of_digits. }
    by rewrite Hmap.
  - intros (m & Hm & Hbig). apply get_mesh_ids_long; [done|done|].
    exists (name m), (name m). split_and!.
    + apply list_elem_of_fmap. by exists m.
    + by apply Hfirst.
    + rewrite Hlen. apply N.ltb_lt.
      rewrite pretty_nonneg_length by (by apply Hpos).
      by apply bool_decide_eq_true.
Qed.

(** X11: mesh discovery takes at most one file name from a line: whenever
    it returns, it returns no more IDs than the listing has lines; and it
    does return where no mesh file name found has more than 4300 digits. *)
Theorem get_mesh_ids_one_per_line (lines : list text) :
  (short_names db lines →
   ∃ ids, get_mesh_ids db names_order lines = Ok ids
          ∧ (length ids ≤ length lines)%nat)
  ∧ (∀ ids, get_mesh_ids db names_order lines = Ok ids →
       (length ids ≤ length lines)%nat).
Proof.
  destruct (get_mesh_names_spec db names_order names_order_perm lines)
    as (_ & Hlen & _).
  split.
  - intros Hshort. eexists. split; [by apply get_mesh_ids_names|].
    by rewrite length_map.
  - intros ids Hids. unfold get_mesh_ids in Hids.
    apply list_comp_length in Hids. by rewrite Hids.
Qed.
End mesh_discovery_more.

(** ** Repeated mesh IDs and the first failure *)

Lemma first_occurrences_unseen (seen ids : list Z) :
  first_occurrences seen ids = seen ++ unseen seen ids.
Proof.
  unfold first_occurrences. revert seen.
  induction ids as [|k ids IH]; intros seen; simpl.
  - by rewrite app_nil_r.
  - rewrite IH. destruct (decide (k ∈ seen)); [reflexivity|].
    by rewrite <- app_assoc.
Qed.

Lemma first_occurrences_subset (seen extra : list Z) :
  (∀ m, m ∈ extra → m ∈ seen) → first_occurrences seen extra = seen.
Proof.
  unfold first_occurrences. induction extra as [|k extra IH]; intros Hsub;
    [reflexivity|].
  simpl. rewrite decide_True by (apply Hsub; by left).
  apply IH. intros m Hm. apply Hsub. by right.
Qed.

Lemma first_occurrences_app (seen ids extra : list Z) :
  first_occurrences seen (ids ++ extra)
  = first_occurrences (first_occurrences seen ids) extra.
Proof. unfold first_occurrences. apply fold_left_app. Qed.

Lemma first_occurrences_NoDup_id (seen ids : list Z) :
  NoDup (seen ++ ids) → first_occurrences seen ids = seen ++ ids.
Proof.
  unfold first_occurrences. revert seen.
  induction ids as [|k ids IH]; intros seen Hnd; simpl.
  - by rewrite app_nil_r.
  - assert (Hk : k ∉ seen).
    { apply NoDup_app in Hnd as (_ & Hdis & _). intros Hk.
      apply (Hdis k Hk). by left. }
    rewrite decide_False by done.
    rewrite IH; rewrite <- app_assoc; done.
Qed.

Section fill_more.
Context {V : Type}.
Implicit Types (f : Z → V) (g : Z → result V).

(** A key seen before does not change the dictionary, so the loop over
    all the keys is the loop over their first occurrences. *)
Lemma for_each_fill_unseen g f (ids seen : list Z) :
  (∀ k v, g k = Ok v → v = f k) →
  (∀ k, k ∈ seen → ∃ v, g k = Ok v) →
  for_each ids (map (λ k, (k, f k)) seen)
    (λ d k, v ← g k; Ok (dict_set k v d))
  = for_each (unseen seen ids) (map (λ k, (k, f k)) seen)
      (λ d k, v ← g k; Ok (dict_set k v d)).
Proof.
  intros Hf. revert seen. induction ids as [|k ids IH]; intros seen Hseen;
    [reflexivity|].
  cbn [unseen]. destruct (decide (k ∈ seen)) as [Hk|Hk].
  - cbn [for_each]. destruct (Hseen k Hk) as [v Hv]. rewrite Hv, bind_Ok.
    rewrite (Hf k v Hv), dict_set_tabulate, decide_True by done.
    rewrite bind_Ok. by apply IH.
  - cbn [for_each]. destruct (g k) as [v|e] eqn:Hv; [|reflexivity].
    rewrite !bind_Ok. rewrite (Hf k v Hv), dict_set_tabulate.
    rewrite decide_False by done. apply IH.
    intros k' [Hk'| ->%list_elem_of_singleton]%elem_of_app; [by apply Hseen|].
    eauto.
Qed.
End fill_more.

Section builder_duplicates.
Variable py_repr : pyval → string.
Implicit Types (ontology : odict Z node) (ids : list Z).

Lemma build_atlas_first_occurrences ontology ids :
  build_atlas py_repr ontology ids
  = build_atlas py_repr ontology (first_occurrences [] ids).
Proof.
  assert (Hf : ∀ k v, structure_of py_repr ontology k = Ok v →
                 v = structure_or_empty py_repr ontology k).
  { intros k v Hv. unfold structure_or_empty. by rewrite Hv. }
  assert (Hu : first_occurrences [] (first_occurrences [] ids)
               = first_occurrences [] ids).
  { apply (first_occurrences_NoDup_id [] (first_occurrences [] ids)).
    apply first_occurrences_NoDup, NoDup_nil_2. }
  rewrite !build_atlas_unfold, Hu.
  pose proof (for_each_fill_unseen (structure_of py_repr ontology)
                (structure_or_empty py_repr ontology) ids [] Hf) as H1.
  pose proof (for_each_fill_unseen (structure_of py_repr ontology)
                (structure_or_empty py_repr ontology)
                (first_occurrences [] ids) [] Hf) as H2.
  simpl in H1, H2. rewrite H1, H2 by (by intros k ?%elem_of_nil).
  pose proof (first_occurrences_unseen [] ids) as E1.
  pose proof (first_occurrences_unseen [] (first_occurrences [] ids)) as E2.
  simpl in E1, E2. rewrite <- E2, Hu, E1. reflexivity.
Qed.

(** X5: mesh IDs that occurred before make no difference: with them added
    at the end of the collection, [build_atlas] returns the same document,
    or raises the same error. *)
Theorem build_atlas_ignores_repeats ontology ids (extra : list Z) :
  (∀ mid, mid ∈ extra → mid ∈ ids) →
  build_atlas py_repr ontology (ids ++ extra)
  = build_atlas py_repr ontology ids.
Proof.
  intros Hsub.
  rewrite (build_atlas_first_occurrences ontology (ids ++ extra)).
  rewrite (build_atlas_first_occurrences ontology ids).
  rewrite first_occurrences_app, first_occurrences_subset; [reflexivity|].
  intros m Hm. apply first_occurrences_elem. right. by apply Hsub.
Qed.

(** What [build_atlas] raises when the structure of a mesh ID cannot be
    made and those of the mesh IDs before it can. *)
Lemma build_atlas_Raise_first ontology (good rest : list Z) (mid : Z)
    (e : py_error) :
  (∀ m, m ∈ good → resolves ontology m) →
  structure_of py_repr ontology mid = Raise e →
  build_atlas py_repr ontology (good ++ mid :: rest) = Raise e.
Proof.
  intros Hgood He. rewrite build_atlas_unfold, for_each_app.
  rewrite (for_each_fill _ (structure_or_empty py_repr ontology) good []).
  2: { intros k Hk.
       destruct (proj2 (structure_of_Ok_iff py_repr ontology k) (Hgood k Hk))
         as [s Hs].
       unfold structure_or_empty. by rewrite Hs. }
  rewrite bind_Ok. cbn [for_each]. by rewrite He.
Qed.

Lemma structure_of_missing_field ontology (mid : Z) (entry : node) (f : string) :
  dict_find mid ontology = Some entry →
  first_missing_field entry = Some f →
  structure_of py_repr ontology mid = Raise (KeyError (VStr f)).
Proof.
  intros He Hf. unfold structure_of, dict_get. rewrite He, bind_Ok.
  unfold first_missing_field, dict_mem in Hf. cbn [List.find] in Hf.
  destruct (dict_find "color_hex_triplet" entry);
    [|by injection Hf as <-].
  destruct (dict_find "safe_name" entry); [|by injection Hf as <-].
  destruct (dict_find "acronym" entry); [|by injection Hf as <-].
  destruct (dict_find "id" entry); [discriminate|by injection Hf as <-].
Qed.

(** X6: [build_atlas] raises the [KeyError] of the first mesh ID it cannot
    make a structure for, whatever follows it and whether or not 997 is
    among the mesh IDs: the ID itself if it is no key of the mapping, else
    the first of [color_hex_triplet], [safe_name], [acronym], [id] that its
    entry lacks. *)
Theorem build_atlas_first_failure ontology (good rest : list Z) (mid : Z) :
  (∀ m, m ∈ good → resolves ontology m) →
  (mid ∉ dict_keys ontology →
   build_atlas py_repr ontology (good ++ mid :: rest)
   = Raise (KeyError (VInt mid)))
  ∧ (∀ entry f,
       dict_find mid ontology = Some entry →
       first_missing_field entry = Some f →
       build_atlas py_repr ontology (good ++ mid :: rest)
       = Raise (KeyError (VStr f))).
Proof.
  intros Hgood. split.
  - intros Hkey. apply build_atlas_Raise_first; [done|].
    by apply structure_of_not_key.
  - intros entry f He Hf. apply build_atlas_Raise_first; [done|].
    by apply (structure_of_missing_field ontology mid entry f).
Qed.

(** X7: the colour of a structure is [#] followed by the
    [color_hex_triplet] cell as the loader stored it; a cell that [int]
    accepts was stored as an integer and is printed as one, so the colour
    is the text of the cell only if [int] rejects the text or the text is
    how that integer prints. *)
Theorem build_atlas_color_of_cell ontology ids (nodes : list node) (mid : Z)
    (entry : node) (text : string) :
  build_atlas py_repr ontology ids = Ok nodes →
  mid ∈ ids → dict_find mid ontology = Some entry →
  dict_find "color_hex_triplet" entry = Some (possibly_int text) →
  ∃ s color,
    s ∈ nodes
    ∧ dict_find "@id" s = Some (VStr ("#structure_" +:+ pretty mid))
    ∧ dict_find "style" s = Some (VDict [("color", VStr ("#" +:+ color))])
    ∧ color = match py_int text with Some z => pretty z | None => text end
    ∧ (color = text ↔ (py_int text = None ∨ ∃ z : Z, text = pretty z)).
Proof.
  intros Hb Hmid He Hc.
  pose proof Hb as (Hall & _ & ->)%build_atlas_Ok_inv.
  destruct (Hall mid Hmid) as [s Hs].
  exists s, (match py_int text with Some z => pretty z | None => text end).
  assert (Hin : s ∈ atlas_nodes py_repr ontology (first_occurrences [] ids)).
  { replace s with (structure_or_empty py_repr ontology mid)
      by (unfold structure_or_empty; by rewrite Hs).
    apply structure_node_emitted, first_occurrences_elem. by right. }
  apply structure_of_Ok_inv in Hs
    as (entry' & c & nm & a & i & He' & Hc' & _ & _ & _ & ->).
  assert (entry' = entry) as -> by congruence.
  assert (c = possibly_int text) as -> by congruence.
  split_and!; [done|reflexivity| |reflexivity|].
  - unfold possibly_int. by destruct (py_int text).
  - destruct (py_int text) as [z|] eqn:Hz.
    + split; [intros Heq; right; by exists z|].
      intros [?|[z' ->]]; [done|].
      by apply py_int_pretty_inv in Hz as ->.
    + split; [by left|done].
Qed.
End builder_duplicates.

(** ** Linking changes child lists only *)

Lemma grown_entry_refl (e : node) : grown_entry e e.
Proof.
  split; [done|]. intros l Hl. exists []. by rewrite app_nil_r.
Qed.

Lemma grown_mapping_refl (ontology : odict Z node) :
  grown_mapping ontology ontology.
Proof.
  split; [done|]. intros k.
  destruct (dict_find k ontology); [apply grown_entry_refl|done].
Qed.

Lemma grown_mapping_set (ontology state : odict Z node) (z : Z)
    (parent parent' : node) :
  grown_mapping ontology state →
  dict_find z state = Some parent →
  grown_entry parent parent' →
  grown_mapping ontology (dict_set z parent' state).
Proof.
  intros [Hkeys Hent] Hz [Hf Hc]. split.
  - rewrite dict_keys_set, decide_True; [done|].
    apply dict_find_is_Some. by rewrite Hz.
  - intros k. specialize (Hent k). destruct (decide (k = z)) as [->|Hne].
    + rewrite dict_find_set_eq. rewrite Hz in Hent.
      destruct (dict_find z ontology) as [e|]; [|done].
      destruct Hent as [Hf' Hc']. split.
      * intros f Hne. rewrite Hf by done. by apply Hf'.
      * intros l Hl. destruct (Hc' l Hl) as [l' Hl'].
        destruct (Hc (l ++ l') Hl') as [l'' Hl''].
        exists (l' ++ l''). by rewrite app_assoc.
    + by rewrite dict_find_set_ne.
Qed.

(** A turn of the loop that returns leaves a grown mapping. *)
Lemma find_children_step_grown (ontology state state' : odict Z node) (k : Z) :
  grown_mapping ontology state →
  find_children_step state k = Ok state' →
  grown_mapping ontology state'.
Proof.
  intros Hs. unfold find_children_step, dict_get.
  destruct (dict_find k state) as [e'|] eqn:He'; [|discriminate].
  rewrite bind_Ok.
  destruct (dict_find "parent_structure_id" e') as [p|] eqn:Hp;
    [|discriminate].
  rewrite bind_Ok. destruct (py_eq_str p ""); [by intros [= <-]|].
  destruct p as [t|z|l|d]; try discriminate. simpl. unfold dict_get.
  destruct (dict_find z state) as [parent|] eqn:Hz; [|discriminate].
  rewrite !bind_Ok. cbv beta iota.
  destruct (dict_find "child_structure_ids" parent) as [v|] eqn:Hc.
  - destruct v as [?|?|l|?]; try discriminate.
    destruct (dict_find "id" _) as [id|]; [|discriminate].
    rewrite bind_Ok. intros [= <-].
    apply (grown_mapping_set _ _ _ parent); [done|done|]. split.
    + intros f Hf. by apply dict_find_set_ne.
    + intros l0 Hl0. rewrite Hc in Hl0. injection Hl0 as <-.
      exists [id]. apply dict_find_set_eq.
  - destruct (dict_find "id" _) as [id|]; [|discriminate].
    rewrite bind_Ok. intros [= <-].
    apply (grown_mapping_set _ _ _ parent); [done|done|]. split.
    + intros f Hf. by rewrite !dict_find_set_ne.
    + intros l0 Hl0. rewrite Hc in Hl0. discriminate.
Qed.

Lemma find_children_loop_grown (ontology state state' : odict Z node)
    (keys : list Z) :
  grown_mapping ontology state →
  for_each keys state find_children_step = Ok state' →
  grown_mapping ontology state'.
Proof.
  revert state. induction keys as [|k keys IH]; intros state Hs.
  - by intros [= <-].
  - simpl. intros (state1 & Hstep & Hrest)%bind_Ok_inv.
    apply (IH state1); [|done].
    by apply (find_children_step_grown ontology state state1 k).
Qed.

Lemma find_children_grown (ontology linked : odict Z node) :
  find_children ontology = Ok linked → grown_mapping ontology linked.
Proof.
  apply find_children_loop_grown, grown_mapping_refl.
Qed.

(** X12: whenever [find_children] returns, the mapping has the same keys
    in the same order, every entry has every field it had but for
    [child_structure_ids] with the value it had, and a child list that was
    there has only been appended to. *)
Theorem find_children_keeps_entries (ontology linked : odict Z node) :
  find_children ontology = Ok linked →
  dict_keys linked = dict_keys ontology
  ∧ ∀ k e', dict_find k linked = Some e' →
      ∃ e, dict_find k ontology = Some e
           ∧ (∀ f, f ≠ "child_structure_ids" →
                dict_find f e' = dict_find f e)
           ∧ (∀ l, dict_find "child_structure_ids" e = Some (VList l) →
                ∃ l', dict_find "child_structure_ids" e'
                      = Some (VList (l ++ l'))).
Proof.
  intros [Hkeys Hent]%find_children_grown. split; [done|].
  intros k e' He'. specialize (Hent k). rewrite He' in Hent.
  destruct (dict_find k ontology) as [e|]; [|done].
  exists e. by destruct Hent.
Qed.

Section builder_after_linking.
Variable py_repr : pyval → string.

Lemma structure_of_grown (ontology linked : odict Z node) (mid : Z) :
  grown_mapping ontology linked →
  structure_of py_repr linked mid = structure_of py_repr ontology mid.
Proof.
  intros [_ Hent]. specialize (Hent mid). unfold structure_of, dict_get.
  destruct (dict_find mid ontology) as [e|],
           (dict_find mid linked) as [e'|]; try done.
  destruct Hent as [Hf _]. rewrite !bind_Ok.
  by rewrite !Hf.
Qed.

(** X13: the builder does not read what the linker writes: on the linked
    mapping [build_atlas] returns the document, or raises the error, that it
    does on the mapping as loaded. *)
Theorem build_atlas_ignores_links (ontology linked : odict Z node)
    (ids : list Z) :
  find_children ontology = Ok linked →
  build_atlas py_repr linked ids = build_atlas py_repr ontology ids.
Proof.
  intros Hg%find_children_grown. rewrite !build_atlas_unfold.
  rewrite (for_each_ext ids _ _
             (λ structures mid,
                s ← structure_of py_repr ontology mid;
                Ok (dict_set mid s structures))); [reflexivity|].
  intros st mid _. by rewrite (structure_of_grown ontology linked).
Qed.
End builder_after_linking.

(** ** Linking appends, in the order of the mapping *)

Lemma dict_get_extend_children_other (f : string) (e : node)
    (cs : list pyval) :
  f ≠ "child_structure_ids" →
  dict_get f (extend_children e cs) = dict_get f e.
Proof.
  intros Hf. unfold dict_get. destruct cs as [|c cs]; [reflexivity|].
  simpl. by rewrite dict_find_set_ne.
Qed.

Lemma dict_find_extend_children_other (f : string) (e : node)
    (cs : list pyval) :
  f ≠ "child_structure_ids" →
  dict_find f (extend_children e cs) = dict_find f e.
Proof.
  intros Hf. destruct cs as [|c cs]; [reflexivity|].
  simpl. by rewrite dict_find_set_ne.
Qed.

Lemma dict_find_extend_children (e : node) (cs : list pyval) :
  dict_find "child_structure_ids" (extend_children e cs)
  = match cs with
    | [] => dict_find "child_structure_ids" e
    | _ => Some (VList (child_list e ++ cs))
    end.
Proof. destruct cs as [|c cs]; [reflexivity|]. apply dict_find_set_eq. Qed.

(** What a turn of the loop makes of the parent it finds. *)
Lemma extend_children_snoc (e : node) (cs : list pyval) (x : pyval) :
  (∀ v, dict_find "child_structure_ids" e = Some v → ∃ l, v = VList l) →
  ∃ l parent,
    match dict_find "child_structure_ids" (extend_children e cs) with
    | Some l => (l, extend_children e cs)
    | None =>
        (VList [],
         dict_set "child_structure_ids" (VList []) (extend_children e cs))
    end = (VList l, parent)
    ∧ (∀ f, f ≠ "child_structure_ids" → dict_find f parent = dict_find f e)
    ∧ dict_set "child_structure_ids" (VList (l ++ [x])) parent
      = extend_children e (cs ++ [x]).
Proof.
  intros Hl. rewrite dict_find_extend_children.
  destruct cs as [|c cs].
  - cbn [extend_children app]. unfold child_list.
    destruct (dict_find "child_structure_ids" e) as [v|] eqn:Hc.
    + destruct (Hl v eq_refl) as [l ->]. exists l, e. done.
    + exists [], (dict_set "child_structure_ids" (VList []) e).
      split_and!; [done| |apply dict_set_set].
      intros f Hf. by apply dict_find_set_ne.
  - eexists _, _. split_and!; [reflexivity| |].
    + intros f Hf. by apply dict_find_extend_children_other.
    + cbn [extend_children app]. rewrite dict_set_set.
      by rewrite <- app_assoc.
Qed.

Lemma dict_get_extend_links (visited ontology : odict Z node) (k : Z)
    (e : node) :
  dict_ok ontology → (k, e) ∈ ontology →
  dict_get k (extend_links visited ontology)
  = Ok (extend_children e (children_ids visited k)).
Proof.
  intros Hok Hin. unfold dict_get, extend_links.
  rewrite (dict_find_map_values
             (λ k e, extend_children e (children_ids visited k))).
  by rewrite (dict_find_elem k e ontology).
Qed.

Lemma extend_links_skip (visited ontology : odict Z node) (k : Z) (e : node) :
  (∀ p, is_child_of p e = false) →
  extend_links (visited ++ [(k, e)]) ontology = extend_links visited ontology.
Proof.
  intros He. unfold extend_links. apply map_ext. intros [k' e']. simpl.
  by rewrite children_ids_snoc, He, app_nil_r.
Qed.

Lemma extend_links_attach (visited ontology : odict Z node) (k p : Z)
    (e pe : node) :
  dict_ok ontology → (p, pe) ∈ ontology →
  dict_find "parent_structure_id" e = Some (VInt p) →
  dict_set p (extend_children pe (children_ids visited p ++ [VInt k]))
    (extend_links visited ontology)
  = extend_links (visited ++ [(k, e)]) ontology.
Proof.
  intros Hok Hpe Hp. unfold extend_links.
  rewrite (dict_set_map_values
             (λ k e, extend_children e (children_ids visited k))); [|done|].
  2: { apply list_elem_of_fmap. by exists (p, pe). }
  apply map_ext_in. intros [k' e'] Hin%list_elem_of_In. simpl.
  rewrite children_ids_snoc. unfold is_child_of. rewrite Hp.
  destruct (decide (k' = p)) as [->|Hne].
  - rewrite bool_decide_eq_true_2 by done.
    assert (e' = pe) as ->; [|done].
    pose proof (dict_find_elem p pe ontology Hok Hpe).
    pose proof (dict_find_elem p e' ontology Hok Hin). congruence.
  - rewrite bool_decide_eq_false_2 by done. by rewrite app_nil_r.
Qed.

Lemma find_children_step_extend (visited ontology : odict Z node) (k : Z)
    (e : node) :
  dict_ok ontology → lists_only ontology → indexed_by_id ontology →
  parents_resolve ontology → (k, e) ∈ ontology →
  find_children_step (extend_links visited ontology) k
  = Ok (extend_links (visited ++ [(k, e)]) ontology).
Proof.
  intros Hok Hlists Hid Hres Hin. unfold find_children_step.
  rewrite (dict_get_extend_links _ _ k e), bind_Ok by done.
  rewrite (dict_get_extend_children_other "parent_structure_id") by done.
  destruct (Hres k e Hin) as [Hp|(p & Hp & Hpk)];
    rewrite (dict_get_Some _ _ _ Hp), bind_Ok.
  - simpl. f_equal. symmetry. apply extend_links_skip.
    intros p. unfold is_child_of. by rewrite Hp.
  - simpl. destruct (dict_find_of_elem _ _ Hpk) as [pe Hpe].
    rewrite (dict_get_extend_links _ _ p pe), !bind_Ok by done.
    cbv beta iota.
    rewrite <- (extend_links_attach visited ontology k p e pe) by done.
    destruct (extend_children_snoc pe (children_ids visited p) (VInt k)
                (Hlists p pe Hpe)) as (l & parent & -> & Hfields & <-).
    assert (Hget : dict_get "id"
              (if decide (p = k) then parent
               else extend_children e (children_ids visited k))
            = Ok (VInt k)).
    { pose proof (Hid k e Hin) as Hide.
      destruct (decide (p = k)) as [->|Hne].
      - assert (pe = e) as ->.
        { pose proof (dict_find_elem k pe ontology Hok Hpe).
          pose proof (dict_find_elem k e ontology Hok Hin). congruence. }
        apply dict_get_Some. by rewrite Hfields.
      - rewrite dict_get_extend_children_other by done.
        by apply dict_get_Some. }
    rewrite Hget, bind_Ok. reflexivity.
Qed.

Lemma find_children_loop_extend (visited todo ontology : odict Z node) :
  ontology = visited ++ todo →
  dict_ok ontology → lists_only ontology → indexed_by_id ontology →
  parents_resolve ontology →
  for_each (dict_keys todo) (extend_links visited ontology) find_children_step
  = Ok (extend_links ontology ontology).
Proof.
  intros Ho Hok Hl Hid Hres. revert visited Ho.
  induction todo as [|[k e] todo IH]; intros visited Ho.
  - rewrite app_nil_r in Ho. by subst.
  - simpl. rewrite (find_children_step_extend _ _ k e); try done.
    + rewrite bind_Ok. apply IH. by rewrite <- app_assoc.
    + rewrite Ho. apply elem_of_app. right. by left.
Qed.

(** Linking in closed form, for a mapping that may be linked already. *)
Lemma find_children_extend (ontology : odict Z node) :
  dict_ok ontology → lists_only ontology → indexed_by_id ontology →
  parents_resolve ontology →
  find_children ontology = Ok (extend_links ontology ontology).
Proof.
  intros Hok Hl Hid Hres. unfold find_children.
  assert (Hstart : extend_links [] ontology = ontology).
  { unfold extend_links. rewrite <- (map_id ontology) at 2.
    apply map_ext. by intros [k e]. }
  rewrite <- Hstart at 2. by apply find_children_loop_extend.
Qed.

Lemma extend_links_elem (visited ontology : odict Z node) (k : Z) (e' : node) :
  (k, e') ∈ extend_links visited ontology →
  ∃ e, (k, e) ∈ ontology
       ∧ e' = extend_children e (children_ids visited k).
Proof.
  unfold extend_links. intros ([k0 e] & Heq & Hin)%list_elem_of_fmap.
  simpl in Heq. injection Heq as -> ->. by exists e.
Qed.

Lemma dict_find_extend_links (visited ontology : odict Z node) (k : Z)
    (e : node) :
  dict_ok ontology → (k, e) ∈ ontology →
  dict_find k (extend_links visited ontology)
  = Some (extend_children e (children_ids visited k)).
Proof.
  intros Hok Hin. unfold extend_links.
  rewrite (dict_find_map_values
             (λ k e, extend_children e (children_ids visited k))).
  by rewrite (dict_find_elem k e ontology).
Qed.

(** X14: for a mapping whose entries are stored under their [id], name as
    parent nothing or a key, and hold as child list, if any, a list,
    [find_children] returns; every entry keeps its other fields; an entry
    no entry names as parent is left exactly as it was, so without a child
    list if it had none; and any other entry has appended to its child list
    the [id]s of the entries that name it, in the order of the mapping. *)
Theorem find_children_child_lists (ontology : odict Z node) :
  dict_ok ontology → lists_only ontology → indexed_by_id ontology →
  parents_resolve ontology →
  ∃ linked,
    find_children ontology = Ok linked
    ∧ ∀ k e, (k, e) ∈ ontology →
        let children :=
          map (λ ke, VInt ke.1)
            (List.filter (λ ke, is_child_of k ke.2) ontology) in
        ∃ e', dict_find k linked = Some e'
              ∧ (∀ f, f ≠ "child_structure_ids" →
                   dict_find f e' = dict_find f e)
              ∧ (children = [] → e' = e)
              ∧ (children ≠ [] →
                 dict_find "child_structure_ids" e'
                 = Some (VList (child_list e ++ children))).
Proof.
  intros Hok Hl Hid Hres. exists (extend_links ontology ontology).
  split; [by apply find_children_extend|].
  intros k e Hin. cbv zeta.
  change (map (λ ke : Z * node, VInt ke.1)
            (List.filter (λ ke, is_child_of k ke.2) ontology))
    with (children_ids ontology k).
  exists (extend_children e (children_ids ontology k)). split_and!.
  - by apply dict_find_extend_links.
  - intros f Hf. by apply dict_find_extend_children_other.
  - by intros ->.
  - intros Hne. rewrite dict_find_extend_children.
    by destruct (children_ids ontology k).
Qed.

Lemma is_child_of_extend_children (p : Z) (e : node) (cs : list pyval) :
  is_child_of p (extend_children e cs) = is_child_of p e.
Proof.
  unfold is_child_of. by rewrite dict_find_extend_children_other.
Qed.

Lemma children_ids_extend_links (visited ontology : odict Z node) (p : Z) :
  children_ids (extend_links visited ontology) p = children_ids ontology p.
Proof.
  unfold children_ids, extend_links.
  induction ontology as [|[k e] o IH]; [reflexivity|].
  cbn [map List.filter fst snd]. rewrite is_child_of_extend_children.
  destruct (is_child_of p e); cbn [map fst]; by rewrite IH.
Qed.

Lemma py_count_app (x : pyval) (l1 l2 : list pyval) :
  py_count x (l1 ++ l2) = (py_count x l1 + py_count x l2)%nat.
Proof. unfold py_count. by rewrite List.filter_app, length_app. Qed.

(** The linked mapping can be linked again. *)
Lemma extend_links_linkable (ontology : odict Z node) :
  dict_ok ontology → lists_only ontology → indexed_by_id ontology →
  parents_resolve ontology →
  let linked := extend_links ontology ontology in
  dict_ok linked ∧ lists_only linked ∧ indexed_by_id linked
  ∧ parents_resolve linked.
Proof.
  intros Hok Hl Hid Hres. cbv zeta.
  assert (Hkeys : dict_keys (extend_links ontology ontology)
                  = dict_keys ontology).
  { unfold dict_keys, extend_links. by rewrite map_map. }
  split_and!.
  - unfold dict_ok. by rewrite Hkeys.
  - intros k e' (e & Hin & ->)%extend_links_elem v.
    rewrite dict_find_extend_children.
    destruct (children_ids ontology k); [by apply (Hl k e)|].
    intros [= <-]. eauto.
  - intros k e' (e & Hin & ->)%extend_links_elem.
    rewrite dict_find_extend_children_other by done. by apply Hid.
  - intros k e' (e & Hin & ->)%extend_links_elem.
    rewrite dict_find_extend_children_other by done. rewrite Hkeys.
    by apply (Hres k e).
Qed.

(** X15: [find_children] is not to be run twice: on a mapping it has
    linked it returns again, and then every entry with a parent occurs
    twice in the child list of that parent. *)
Theorem find_children_twice (ontology : odict Z node) :
  dict_ok ontology → unlinked ontology → indexed_by_id ontology →
  parents_resolve ontology →
  ∃ linked relinked,
    find_children ontology = Ok linked
    ∧ find_children linked = Ok relinked
    ∧ ∀ k e p, (k, e) ∈ ontology →
        dict_find "parent_structure_id" e = Some (VInt p) →
        ∃ pe l, dict_find p relinked = Some pe
                ∧ dict_find "child_structure_ids" pe = Some (VList l)
                ∧ py_count (VInt k) l = 2%nat.
Proof.
  intros Hok Hun Hid Hres.
  assert (Hl : lists_only ontology).
  { intros k e Hin v Hv. rewrite (Hun k e Hin) in Hv. discriminate. }
  destruct (extend_links_linkable ontology Hok Hl Hid Hres)
    as (Hok' & Hl' & Hid' & Hres').
  set (linked := extend_links ontology ontology) in *.
  exists linked, (extend_links linked linked). split_and!.
  - by apply find_children_extend.
  - by apply find_children_extend.
  - intros k e p Hin Hp.
    destruct (Hres k e Hin) as [Hp'|(p' & Hp' & Hpk)]; [congruence|].
    assert (p' = p) as -> by congruence.
    destruct (dict_find_of_elem _ _ Hpk) as [pe Hpe].
    assert (Hcount : py_count (VInt k) (children_ids ontology p) = 1%nat).
    { rewrite (py_count_children_elem ontology p k e) by done.
      unfold is_child_of. rewrite Hp. by rewrite bool_decide_eq_true_2. }
    assert (Hne : children_ids ontology p ≠ []).
    { intros Heq. rewrite Heq in Hcount. discriminate. }
    assert (Hpe' : (p, extend_children pe (children_ids ontology p)) ∈ linked).
    { unfold linked, extend_links. apply list_elem_of_fmap.
      by exists (p, pe). }
    assert (Hcs' : children_ids linked p = children_ids ontology p)
      by apply children_ids_extend_links.
    exists (extend_children (extend_children pe (children_ids ontology p))
              (children_ids linked p)),
           (child_list (extend_children pe (children_ids ontology p))
              ++ children_ids linked p).
    split_and!.
    + by apply (dict_find_extend_links linked linked p _ Hok' Hpe').
    + rewrite dict_find_extend_children, Hcs'.
      by destruct (children_ids ontology p).
    + rewrite Hcs'. unfold child_list at 1.
      rewrite dict_find_extend_children.
      destruct (children_ids ontology p) as [|c cs] eqn:Hcs; [done|].
      unfold child_list. rewrite (Hun p pe Hpe).
      rewrite !py_count_app. rewrite Hcount. reflexivity.
Qed.

(** ** The properties above on the sample inputs *)

Lemma sample_ontology_unlinked : unlinked sample_ontology.
Proof.
  intros k e Hin. unfold sample_ontology in Hin.
  elem_inv; simplify_eq; reflexivity.
Qed.

Lemma sample_ontology_lists_only : lists_only sample_ontology.
Proof.
  intros k e Hin v Hv. by rewrite (sample_ontology_unlinked k e Hin) in Hv.
Qed.

Lemma sample_ontology_indexed : indexed_by_id sample_ontology.
Proof.
  intros k e Hin. unfold sample_ontology in Hin.
  elem_inv; simplify_eq; reflexivity.
Qed.

Lemma sample_ontology_parents : parents_resolve sample_ontology.
Proof.
  intros k e Hin. unfold sample_ontology in Hin. elem_inv; simplify_eq.
  - by left.
  - right. exists 997. split; [reflexivity|]. simpl. by left.
Qed.

Lemma sample_ontology_resolves (m : Z) :
  m ∈ [997] → resolves sample_ontology m.
Proof.
  intros ->%list_elem_of_singleton.
  exists (sample_entry 997 (VStr "") (VStr "FFFFFF") "root").
  split; [reflexivity|]. unfold entry_complete. simpl. eauto 10.
Qed.

Lemma incomplete_ontology_resolves (m : Z) :
  m ∈ [997] → resolves incomplete_ontology m.
Proof.
  intros ->%list_elem_of_singleton.
  exists (sample_entry 997 (VStr "") (VStr "FFFFFF") "root").
  split; [reflexivity|]. unfold entry_complete. simpl. eauto 10.
Qed.

Lemma find_children_sample : find_children sample_ontology = Ok sample_linked.
Proof. by vm_compute. Qed.

Lemma build_atlas_green :
  build_atlas sample_repr green_ontology [997]
  = Ok (atlas_nodes sample_repr green_ontology [997]).
Proof. by vm_compute. Qed.

Lemma build_atlas_base_urls_resolve_witness :
  build_atlas sample_repr sample_ontology [997; 8; 997]
  = Ok (atlas_nodes sample_repr sample_ontology [997; 8])
  ∧ mesh_ds_node 8 ∈ atlas_nodes sample_repr sample_ontology [997; 8]
  ∧ dict_find "baseURL" (mesh_ds_node 8) = Some (VStr "#mesh_base_url")
  ∧ ∃ b, b ∈ atlas_nodes sample_repr sample_ontology [997; 8]
         ∧ dict_find "@id" b = Some (VStr "#mesh_base_url")
         ∧ dict_find "@type" b = Some (VStr "BaseURL").
Proof.
  assert (Hin : mesh_ds_node 8
                ∈ atlas_nodes sample_repr sample_ontology [997; 8]).
  { apply (list_elem_of_lookup_2 _ 7%nat). reflexivity. }
  split_and!; [exact build_atlas_sample|exact Hin|reflexivity|].
  apply (build_atlas_base_urls_resolve sample_repr sample_ontology
           [997; 8; 997] _ build_atlas_sample (mesh_ds_node 8) _ Hin).
  reflexivity.
Defined.

Lemma build_atlas_references_resolve_witness :
  build_atlas sample_repr sample_ontology [997; 8; 997]
  = Ok (atlas_nodes sample_repr sample_ontology [997; 8])
  ∧ header_node ∈ atlas_nodes sample_repr sample_ontology [997; 8]
  ∧ dict_find "root" header_node = Some (VList [VStr "#structure_997"])
  ∧ ∃ s, s ∈ atlas_nodes sample_repr sample_ontology [997; 8]
         ∧ dict_find "@id" s = Some (VStr "#structure_997")
         ∧ dict_find "@type" s = Some (VStr "Structure").
Proof.
  assert (Hin : header_node
                ∈ atlas_nodes sample_repr sample_ontology [997; 8])
    by (by left).
  split_and!; [exact build_atlas_sample|exact Hin|reflexivity|].
  destruct (build_atlas_references_resolve sample_repr sample_ontology
              [997; 8; 997] _ build_atlas_sample) as (_ & Hroot & _).
  apply (Hroot header_node [VStr "#structure_997"] _ Hin);
    [reflexivity|by left].
Defined.

Lemma build_atlas_length_witness :
  build_atlas sample_repr sample_ontology [997; 8; 997]
  = Ok (atlas_nodes sample_repr sample_ontology [997; 8])
  ∧ length (atlas_nodes sample_repr sample_ontology [997; 8])
    = (14 + 6 * length (remove_dups [997; 8; 997]))%nat.
Proof.
  split; [exact build_atlas_sample|].
  apply (build_atlas_length sample_repr sample_ontology [997; 8; 997]).
  exact build_atlas_sample.
Defined.

Lemma build_atlas_id_sequence_witness :
  build_atlas sample_repr sample_ontology [997; 8; 997]
  = Ok (atlas_nodes sample_repr sample_ontology [997; 8])
  ∧ map (dict_find "@id") (atlas_nodes sample_repr sample_ontology [997; 8])
    = map (λ s, Some (VStr s))
        (["#__header__"; "#mesh_base_url"; "#mask_base_url";
          "#mesh_download_url"; "#average_template_base_url";
          "#ara_nissl_base_url"]
         ++ map (λ mid, "#mesh_ds_" +:+ pretty mid)
              (first_occurrences [] [997; 8; 997])
         ++ concat (map (λ mid,
                          map (λ r, "#mask_ds_" +:+ pretty r +:+ "_"
                                      +:+ pretty mid) resolutions)
                      (first_occurrences [] [997; 8; 997]))
         ++ map (λ mid, "#structure_" +:+ pretty mid)
              (first_occurrences [] [997; 8; 997])
         ++ map (λ r, "#average_template_ds_" +:+ pretty r) resolutions
         ++ map (λ r, "#ara_nissl_ds_" +:+ pretty r) resolutions).
Proof.
  split; [exact build_atlas_sample|].
  apply (build_atlas_id_sequence sample_repr sample_ontology [997; 8; 997]).
  exact build_atlas_sample.
Defined.

Lemma build_atlas_ignores_repeats_witness :
  (∀ mid, mid ∈ [8; 997; 8] → mid ∈ [997; 8])
  ∧ build_atlas sample_repr sample_ontology ([997; 8] ++ [8; 997; 8])
    = build_atlas sample_repr sample_ontology [997; 8].
Proof.
  assert (Hsub : ∀ mid, mid ∈ [8; 997; 8] → mid ∈ [997; 8]).
  { intros mid Hin. elem_inv; subst; [by right; left|by left|by right; left]. }
  split; [exact Hsub|].
  apply (build_atlas_ignores_repeats sample_repr sample_ontology [997; 8]
           [8; 997; 8] Hsub).
Defined.

Lemma build_atlas_first_failure_witness :
  (∀ m, m ∈ [997] → resolves sample_ontology m)
  ∧ (5 ∉ dict_keys sample_ontology)
  ∧ build_atlas sample_repr sample_ontology ([997] ++ 5 :: [8])
    = Raise (KeyError (VInt 5))
  ∧ (∀ m, m ∈ [997] → resolves incomplete_ontology m)
  ∧ first_missing_field
      [("id", VInt 8); ("parent_structure_id", VInt 997);
       ("color_hex_triplet", VStr "BFDAE3")] = Some "safe_name"
  ∧ build_atlas sample_repr incomplete_ontology ([997] ++ 8 :: [12])
    = Raise (KeyError (VStr "safe_name")).
Proof.
  assert (Hkey : 5 ∉ dict_keys sample_ontology).
  { intros Hin. unfold sample_ontology in Hin. simpl in Hin.
    elem_inv; discriminate. }
  split_and!.
  - exact sample_ontology_resolves.
  - exact Hkey.
  - destruct (build_atlas_first_failure sample_repr sample_ontology [997] [8]
                5 sample_ontology_resolves) as [Hmiss _].
    exact (Hmiss Hkey).
  - exact incomplete_ontology_resolves.
  - reflexivity.
  - destruct (build_atlas_first_failure sample_repr incomplete_ontology [997]
                [12] 8 incomplete_ontology_resolves) as [_ Hfield].
    apply (Hfield [("id", VInt 8); ("parent_structure_id", VInt 997);
                   ("color_hex_triplet", VStr "BFDAE3")]); reflexivity.
Defined.

Lemma build_atlas_color_of_cell_witness :
  build_atlas sample_repr green_ontology [997]
  = Ok (atlas_nodes sample_repr green_ontology [997])
  ∧ py_int "008000" = Some 8000
  ∧ ∃ s color,
      s ∈ atlas_nodes sample_repr green_ontology [997]
      ∧ dict_find "@id" s = Some (VStr ("#structure_" +:+ pretty 997))
      ∧ dict_find "style" s = Some (VDict [("color", VStr ("#" +:+ color))])
      ∧ color = match py_int "008000" with
                | Some z => pretty z
                | None => "008000"
                end
      ∧ (color = "008000"
         ↔ (py_int "008000" = None ∨ ∃ z : Z, "008000" = pretty z)).
Proof.
  split; [exact build_atlas_green|]. split; [by vm_compute|].
  apply (build_atlas_color_of_cell sample_repr green_ontology [997] _ 997
           (sample_entry 997 (VStr "") (possibly_int "008000") "root")
           "008000" build_atlas_green).
  - by left.
  - reflexivity.
  - reflexivity.
Defined.

Lemma possibly_int_pretty_witness :
  (Z.abs (-8000) < 10 ^ Z.of_N int_max_str_digits
   ∧ py_int (pretty (-8000)) = Some (-8000)
   ∧ possibly_int (pretty (-8000)) = VInt (-8000))
  ∧ ((10 ^ Z.of_N int_max_str_digits ≤ Z.abs (10 ^ 4300))%Z
     ∧ py_int (pretty (10 ^ 4300)) = None
     ∧ possibly_int (pretty (10 ^ 4300)) = VStr (pretty (10 ^ 4300))).
Proof.
  assert (Hsmall : Z.abs (-8000) < 10 ^ Z.of_N int_max_str_digits)
    by (by vm_compute).
  assert (Hbig : (10 ^ Z.of_N int_max_str_digits ≤ Z.abs (10 ^ 4300))%Z)
    by (by vm_compute).
  split.
  - split; [exact Hsmall|].
    destruct (possibly_int_pretty (-8000)) as [Hread _]. exact (Hread Hsmall).
  - split; [exact Hbig|].
    destruct (possibly_int_pretty (10 ^ 4300)) as [_ Htext]. exact (Htext Hbig).
Defined.

Lemma sample_lines_short : short_names sample_db (arabic_line :: sample_lines).
Proof. apply short_names_check. reflexivity. Qed.

Lemma get_mesh_ids_finds_first_name_witness :
  short_names sample_db [mixed_line]
  ∧ codes "<a>" ++ [65305%N; 57%N; 1639%N] ++ dot_obj ++ codes " 12.obj"
    ∈ [mixed_line]
  ∧ Forall (λ c, is_decimal sample_db c = false) (codes "<a>")
  ∧ digit_run sample_db [65305%N; 57%N; 1639%N]
  ∧ digits_value sample_db 0 [65305%N; 57%N; 1639%N] = 997
  ∧ ∃ ids,
      get_mesh_ids sample_db insertion_order [mixed_line] = Ok ids
      ∧ digits_value sample_db 0 [65305%N; 57%N; 1639%N] ∈ ids.
Proof.
  assert (Hshort : short_names sample_db [mixed_line])
    by (apply short_names_check; reflexivity).
  assert (Hin : codes "<a>" ++ [65305%N; 57%N; 1639%N] ++ dot_obj
                ++ codes " 12.obj" ∈ [mixed_line]) by (by left).
  assert (Hpre : Forall (λ c, is_decimal sample_db c = false) (codes "<a>"))
    by (by repeat constructor).
  assert (Hd : digit_run sample_db [65305%N; 57%N; 1639%N])
    by (split; [done|by repeat constructor]).
  split_and!; [exact Hshort|exact Hin|exact Hpre|exact Hd|reflexivity|].
  exact (get_mesh_ids_finds_first_name sample_db insertion_order sample_db_ok
           insertion_order_names [mixed_line] (codes "<a>")
           [65305%N; 57%N; 1639%N] (codes " 12.obj") Hshort Hin Hpre Hd).
Defined.

Lemma get_mesh_ids_of_sources_witness :
  (∀ m, m ∈ [997; 8] → (0 ≤ m)%Z)
  ∧ NoDup [997; 8]
  ∧ (∀ m, m ∈ [997; 8] → m < 10 ^ Z.of_N int_max_str_digits)
  ∧ (∃ ids,
       get_mesh_ids sample_db insertion_order
         (map (λ m, codes (pretty m +:+ ".obj")) [997; 8])
       = Ok ids
       ∧ ids ≡ₚ [997; 8])
  ∧ (∀ m, m ∈ [8; 10 ^ 4300] → (0 ≤ m)%Z)
  ∧ (∃ m, m ∈ [8; 10 ^ 4300] ∧ (10 ^ Z.of_N int_max_str_digits ≤ m)%Z)
  ∧ get_mesh_ids sample_db insertion_order
      (map (λ m, codes (pretty m +:+ ".obj")) [8; 10 ^ 4300])
    = Raise ValueError.
Proof.
  assert (Hpos : ∀ m, m ∈ [997; 8] → (0 ≤ m)%Z).
  { intros m Hin. elem_inv; lia. }
  assert (Hnd : NoDup [997; 8]).
  { repeat (apply NoDup_cons_2; [intros Hin; elem_inv; done|]).
    apply NoDup_nil_2. }
  assert (Hsmall : ∀ m, m ∈ [997; 8] → m < 10 ^ Z.of_N int_max_str_digits).
  { intros m Hin. elem_inv; subst; by vm_compute. }
  assert (Hpos' : ∀ m, m ∈ [8; 10 ^ 4300] → (0 ≤ m)%Z).
  { intros m Hin. elem_inv; subst; by vm_compute. }
  assert (Hbig : ∃ m, m ∈ [8; 10 ^ 4300]
                      ∧ (10 ^ Z.of_N int_max_str_digits ≤ m)%Z).
  { exists (10 ^ 4300). split; [by right; left|by vm_compute]. }
  split_and!; [exact Hpos|exact Hnd|exact Hsmall| |exact Hpos'|exact Hbig|].
  - destruct (get_mesh_ids_of_sources sample_db insertion_order sample_db_ok
                insertion_order_names [997; 8] Hpos) as [Hread _].
    exact (Hread Hnd Hsmall).
  - destruct (get_mesh_ids_of_sources sample_db insertion_order sample_db_ok
                insertion_order_names [8; 10 ^ 4300] Hpos') as [_ Hraise].
    exact (Hraise Hbig).
Defined.

Lemma get_mesh_ids_one_per_line_witness :
  unicode_db_ok sample_db
  ∧ names_order_spec insertion_order
  ∧ short_names sample_db (arabic_line :: sample_lines)
  ∧ (∃ ids,
       get_mesh_ids sample_db insertion_order (arabic_line :: sample_lines)
       = Ok ids
       ∧ (length ids ≤ length (arabic_line :: sample_lines))%nat)
  ∧ (length [3%Z; 997%Z; 8%Z] ≤ length (arabic_line :: sample_lines))%nat.
Proof.
  split_and!;
    [exact sample_db_ok|exact insertion_order_names|exact sample_lines_short
    | |].
  - destruct (get_mesh_ids_one_per_line sample_db insertion_order sample_db_ok
                insertion_order_names (arabic_line :: sample_lines))
      as [Hreturns _].
    exact (Hreturns sample_lines_short).
  - destruct (get_mesh_ids_one_per_line sample_db insertion_order sample_db_ok
                insertion_order_names (arabic_line :: sample_lines))
      as [_ Hlen].
    apply Hlen. by vm_compute.
Defined.

Lemma find_children_keeps_entries_witness :
  find_children sample_ontology = Ok sample_linked
  ∧ dict_keys sample_linked = dict_keys sample_ontology
  ∧ ∀ k e', dict_find k sample_linked = Some e' →
      ∃ e, dict_find k sample_ontology = Some e
           ∧ (∀ f, f ≠ "child_structure_ids" →
                dict_find f e' = dict_find f e)
           ∧ (∀ l, dict_find "child_structure_ids" e = Some (VList l) →
                ∃ l', dict_find "child_structure_ids" e'
                      = Some (VList (l ++ l'))).
Proof.
  split; [exact find_children_sample|].
  apply (find_children_keeps_entries sample_ontology sample_linked).
  exact find_children_sample.
Defined.

Lemma build_atlas_ignores_links_witness :
  find_children sample_ontology = Ok sample_linked
  ∧ build_atlas sample_repr sample_linked [997; 8]
    = build_atlas sample_repr sample_ontology [997; 8].
Proof.
  split; [exact find_children_sample|].
  apply (build_atlas_ignores_links sample_repr sample_ontology sample_linked
           [997; 8]).
  exact find_children_sample.
Defined.

Lemma find_children_child_lists_witness :
  dict_ok sample_ontology ∧ lists_only sample_ontology
  ∧ indexed_by_id sample_ontology ∧ parents_resolve sample_ontology
  ∧ ∃ linked,
      find_children sample_ontology = Ok linked
      ∧ ∃ e', dict_find 997 linked = Some e'
              ∧ dict_find "child_structure_ids" e' = Some (VList [VInt 8]).
Proof.
  split_and!;
    [exact sample_ontology_ok|exact sample_ontology_lists_only
    |exact sample_ontology_indexed|exact sample_ontology_parents|].
  destruct (find_children_child_lists sample_ontology sample_ontology_ok
              sample_ontology_lists_only sample_ontology_indexed
              sample_ontology_parents) as (linked & Hf & Hl).
  exists linked. split; [exact Hf|].
  destruct (Hl 997 (sample_entry 997 (VStr "") (VStr "FFFFFF") "root"))
    as (e' & He' & _ & _ & Hc); [by left|].
  exists e'. split; [exact He'|]. by apply Hc.
Defined.

Lemma find_children_twice_witness :
  dict_ok sample_ontology ∧ unlinked sample_ontology
  ∧ indexed_by_id sample_ontology ∧ parents_resolve sample_ontology
  ∧ ∃ linked relinked,
      find_children sample_ontology = Ok linked
      ∧ find_children linked = Ok relinked
      ∧ ∃ pe l, dict_find 997 relinked = Some pe
                ∧ dict_find "child_structure_ids" pe = Some (VList l)
                ∧ py_count (VInt 8) l = 2%nat.
Proof.
  split_and!;
    [exact sample_ontology_ok|exact sample_ontology_unlinked
    |exact sample_ontology_indexed|exact sample_ontology_parents|].
  destruct (find_children_twice sample_ontology sample_ontology_ok
              sample_ontology_unlinked sample_ontology_indexed
              sample_ontology_parents) as (linked & relinked & Hf & Hr & Hl).
  exists linked, relinked. split_and!; [exact Hf|exact Hr|].
  apply (Hl 8 (sample_entry 8 (VInt 997) (VStr "BFDAE3") "grey") 997);
    [by right; left|reflexivity].
Defined.

(** ** What the loader returns, and the first row it rejects *)

Lemma row_key_zip (header row : list string) (i : nat) (text : string) :
  NoDup header → header !! i = Some "id" → row !! i = Some text →
  dict_find "id" (zip header row) = Some text.
Proof.
  intros Hnd Hh Hr. apply dict_find_elem; [by apply zip_keys_NoDup|].
  apply (list_elem_of_lookup_2 _ i). rewrite lookup_zip_with, Hh. simpl.
  by rewrite Hr.
Qed.

Lemma zip_keys (header row : list string) :
  length row = length header → dict_keys (zip header row) = header.
Proof.
  intros Hlen. unfold dict_keys. apply fst_zip. lia.
Qed.

Lemma row_record_keys (header row : list string) :
  length row = length header → dict_keys (row_record header row) = header.
Proof.
  intros Hlen. unfold row_record, dict_keys. rewrite map_map. simpl.
  by apply zip_keys.
Qed.

Lemma row_record_values (header row : list string) (f : string) (v : pyval) :
  dict_find f (row_record header row) = Some v → py_hashable v = true.
Proof.
  unfold row_record. induction (zip header row) as [|[f' c] d IH]; simpl;
    [discriminate|].
  destruct (decide (f = f')) as [_|_]; [|exact IH].
  intros [= <-]. unfold possibly_int. by destruct (py_int c).
Qed.

Lemma row_record_id (header row : list string) (key : Z) :
  row_key header row = Some key →
  dict_find "id" (row_record header row) = Some (VInt key).
Proof.
  unfold row_key, row_record.
  induction (zip header row) as [|[f c] d IH]; simpl; [discriminate|].
  destruct (decide ("id" = f)) as [_|_]; [|exact IH].
  intros Hkey. unfold possibly_int. by rewrite Hkey.
Qed.

Lemma namedtuple_fields_NoDup (header : list string) :
  namedtuple_fields_ok header = true → NoDup header.
Proof.
  unfold namedtuple_fields_ok. intros [_ Hh]%andb_true_iff.
  by apply bool_decide_eq_true in Hh.
Qed.

(** A table the loader returns for is one it accepts. *)
Lemma get_allen_mouse_ontology_Ok_inv (header : list string)
    (rows : list (list string)) (results : odict Z node) :
  get_allen_mouse_ontology (header :: rows) = Ok results →
  well_formed_table header rows.
Proof.
  unfold get_allen_mouse_ontology.
  destruct (namedtuple_fields_ok header) eqn:Hh; [|discriminate]. simpl.
  intros Hloop. split; [exact Hh|]. revert Hloop.
  generalize ([] : odict Z node) as acc.
  induction rows as [|row rows IH]; intros acc Hloop; [apply Forall_nil_2|].
  simpl in Hloop. apply bind_Ok_inv in Hloop as (acc' & Hrow & Hrest).
  apply Forall_cons. split; [|by apply (IH acc')].
  destruct (bool_decide (length row = length header)) eqn:Hlen;
    [|discriminate].
  apply bool_decide_eq_true in Hlen. split; [done|].
  simpl in Hrow. unfold row_key.
  destruct (dict_find "id" (zip header row)) as [id|]; [|discriminate].
  destruct (py_int id) as [key|]; [eauto|discriminate].
Qed.

Lemma stored_rows_ok (header : list string) (rows : list (list string))
    (results : odict Z node) :
  dict_ok results → dict_ok (fold_left (store_row header) rows results).
Proof.
  revert results. induction rows as [|row rows IH]; intros results Hok;
    [done|].
  simpl. apply IH. unfold store_row.
  destruct (row_key header row); [by apply dict_ok_set|done].
Qed.

Lemma stored_rows_length (header : list string) (rows : list (list string))
    (results : odict Z node) :
  (length (fold_left (store_row header) rows results)
   ≤ length results + length rows)%nat.
Proof.
  revert results. induction rows as [|row rows IH]; intros results; simpl;
    [lia|].
  etransitivity; [apply IH|]. unfold store_row.
  destruct (row_key header row) as [key|]; [|lia].
  assert (Hlen : (length (dict_set key (row_record header row) results)
                  ≤ S (length results))%nat).
  { rewrite <- (length_map fst (dict_set _ _ _)), <- (length_map fst results).
    change (map fst ?d) with (dict_keys d). rewrite dict_keys_set.
    destruct (decide _); [lia|]. rewrite length_app. simpl. lia. }
  lia.
Qed.

(** An entry of the mapping is the record of the last row with its key. *)
Lemma stored_rows_entry (header : list string) (rows : list (list string))
    (k : Z) (e : node) :
  (k, e) ∈ fold_left (store_row header) rows [] →
  ∃ rows1 row rows2,
    rows = rows1 ++ row :: rows2
    ∧ row_key header row = Some k
    ∧ Forall (λ row', row_key header row' ≠ Some k) rows2
    ∧ e = row_record header row.
Proof.
  intros Hin.
  assert (Hok : dict_ok (fold_left (store_row header) rows []))
    by (apply stored_rows_ok, NoDup_nil_2).
  apply (dict_find_elem _ _ _ Hok) in Hin.
  rewrite stored_rows_find in Hin. simpl in Hin.
  destruct (last _) as [row|] eqn:Hlast; [|discriminate].
  injection Hin as <-. clear Hok.
  induction rows as [|r rows IH] using rev_ind; [discriminate|].
  rewrite List.filter_app in Hlast. simpl in Hlast.
  destruct (bool_decide (row_key header r = Some k)) eqn:Hr.
  - rewrite last_snoc in Hlast. injection Hlast as ->.
    apply bool_decide_eq_true in Hr.
    exists rows, row, []. split_and!; [done|done|apply Forall_nil_2|done].
  - rewrite app_nil_r in Hlast.
    destruct (IH Hlast) as (rows1 & row' & rows2 & -> & Hk & Hlater & Hrow).
    apply bool_decide_eq_false in Hr.
    exists rows1, row', (rows2 ++ [r]). split_and!; [|done| |done].
    + by rewrite <- app_assoc.
    + apply Forall_app. split; [done|]. by apply Forall_singleton.
Qed.

(** X16: a mapping the loader returns holds at most one entry per data row;
    every entry is the record of the last row with its key, is stored under
    the integer in its own [id] field, has the columns of the header in their
    order, and holds integers and strings only. *)
Theorem get_allen_mouse_ontology_entries (header : list string)
    (rows : list (list string)) (results : odict Z node) :
  get_allen_mouse_ontology (header :: rows) = Ok results →
  NoDup (dict_keys results)
  ∧ (length results ≤ length rows)%nat
  ∧ ∀ k e, (k, e) ∈ results →
      dict_find "id" e = Some (VInt k)
      ∧ dict_keys e = header
      ∧ (∀ f v, dict_find f e = Some v →
           (∃ z, v = VInt z) ∨ (∃ s, v = VStr s))
      ∧ ∃ rows1 row rows2,
          rows = rows1 ++ row :: rows2
          ∧ Forall (λ row', row_key header row' ≠ Some k) rows2
          ∧ e = row_record header row.
Proof.
  intros Hload. pose proof (get_allen_mouse_ontology_Ok_inv _ _ _ Hload) as Hwf.
  rewrite (get_allen_mouse_ontology_Ok _ _ Hwf) in Hload.
  injection Hload as <-. destruct Hwf as [Hh Hrows]. split_and!.
  - apply stored_rows_ok, NoDup_nil_2.
  - apply (stored_rows_length header rows []).
  - intros k e Hin.
    destruct (stored_rows_entry header rows k e Hin)
      as (rows1 & row & rows2 & -> & Hk & Hlater & ->).
    apply Forall_app in Hrows as [_ Hrows].
    apply Forall_cons in Hrows as [[Hlen _] _].
    split_and!.
    + by apply row_record_id.
    + by apply row_record_keys.
    + intros f v Hv. apply row_record_values in Hv.
      destruct v as [s|z| |]; try discriminate.
      * right. by exists s.
      * left. by exists z.
    + by exists rows1, row, rows2.
Qed.

(** X17: the loader returns all of the table or nothing: the first data row
    it cannot store ends the load with an exception, whatever rows follow.
    A row that has not one cell per column raises [TypeError]; else, a table
    with no [id] column raises [AttributeError]; else, an [id] cell that is
    no integer raises [ValueError]. *)
Theorem get_allen_mouse_ontology_first_bad_row (header : list string)
    (good : list (list string)) (bad : list string)
    (rest : list (list string)) :
  well_formed_table header good →
  (length bad ≠ length header →
   get_allen_mouse_ontology (header :: good ++ bad :: rest) = Raise TypeError)
  ∧ (length bad = length header → "id" ∉ header →
     get_allen_mouse_ontology (header :: good ++ bad :: rest)
     = Raise AttributeError)
  ∧ (∀ i text,
       length bad = length header →
       header !! i = Some "id" → bad !! i = Some text →
       py_int text = None →
       get_allen_mouse_ontology (header :: good ++ bad :: rest)
       = Raise ValueError).
Proof.
  intros Hwf. pose proof Hwf as [Hh Hgood].
  assert (Hrun : ∀ e,
    (if negb (bool_decide (length bad = length header))
     then Raise TypeError else
     match dict_find "id" (zip header bad) with
     | None => Raise AttributeError
     | Some id =>
         match py_int id with
         | None => Raise ValueError
         | Some key =>
             Ok (dict_set key
                   (map (λ kv, (kv.1, possibly_int kv.2)) (zip header bad))
                   (fold_left (store_row header) good []))
         end
     end) = Raise e →
    get_allen_mouse_ontology (header :: good ++ bad :: rest) = Raise e).
  { intros e He. unfold get_allen_mouse_ontology. rewrite Hh. simpl.
    rewrite for_each_app.
    pose proof (get_allen_mouse_ontology_Ok header good Hwf) as Hg.
    unfold get_allen_mouse_ontology in Hg. rewrite Hh in Hg. simpl in Hg.
    rewrite Hg, bind_Ok. simpl. by rewrite He. }
  split_and!.
  - intros Hlen. apply Hrun. by rewrite bool_decide_eq_false_2.
  - intros Hlen Hid. apply Hrun. rewrite bool_decide_eq_true_2 by done. simpl.
    assert (Hnone : dict_find "id" (zip header bad) = None).
    { apply dict_find_None. by rewrite zip_keys. }
    by rewrite Hnone.
  - intros i text Hlen Hi Ht Hint. apply Hrun.
    rewrite bool_decide_eq_true_2 by done. simpl.
    rewrite (row_key_zip header bad i text) by
      (by try apply namedtuple_fields_NoDup).
    by rewrite Hint.
Qed.

Lemma get_allen_mouse_ontology_entries_witness :
  get_allen_mouse_ontology (sample_header :: sample_rows) = Ok sample_ontology
  ∧ NoDup (dict_keys sample_ontology)
  ∧ (length sample_ontology ≤ length sample_rows)%nat
  ∧ ∀ k e, (k, e) ∈ sample_ontology →
      dict_find "id" e = Some (VInt k)
      ∧ dict_keys e = sample_header
      ∧ (∀ f v, dict_find f e = Some v →
           (∃ z, v = VInt z) ∨ (∃ s, v = VStr s))
      ∧ ∃ rows1 row rows2,
          sample_rows = rows1 ++ row :: rows2
          ∧ Forall (λ row', row_key sample_header row' ≠ Some k) rows2
          ∧ e = row_record sample_header row.
Proof.
  split; [exact sample_table_loads|].
  apply (get_allen_mouse_ontology_entries sample_header sample_rows).
  exact sample_table_loads.
Defined.

Lemma sample_root_row_ok :
  well_formed_table sample_header [["997"; ""; "FFFFFF"; "root"; "root"]].
Proof.
  split; [by vm_compute|].
  apply Forall_cons. split; [|apply Forall_nil_2].
  split; [reflexivity|]. eexists. by vm_compute.
Qed.

Lemma no_rows_ok : well_formed_table ["name"; "acronym"] [].
Proof. split; [by vm_compute|apply Forall_nil_2]. Qed.

Lemma get_allen_mouse_ontology_first_bad_row_witness :
  well_formed_table sample_header [["997"; ""; "FFFFFF"; "root"; "root"]]
  ∧ get_allen_mouse_ontology
      (sample_header :: [["997"; ""; "FFFFFF"; "root"; "root"]]
         ++ ["8"; "997"] :: sample_rows)
    = Raise TypeError
  ∧ get_allen_mouse_ontology
      (sample_header :: [["997"; ""; "FFFFFF"; "root"; "root"]]
         ++ ["x8"; "997"; "BFDAE3"; "grey"; "grey"] :: sample_rows)
    = Raise ValueError
  ∧ well_formed_table ["name"; "acronym"] []
  ∧ get_allen_mouse_ontology
      (["name"; "acronym"] :: [] ++ ["root"; "root"] :: [])
    = Raise AttributeError.
Proof.
  split_and!.
  - exact sample_root_row_ok.
  - destruct (get_allen_mouse_ontology_first_bad_row sample_header
                [["997"; ""; "FFFFFF"; "root"; "root"]] ["8"; "997"]
                sample_rows sample_root_row_ok) as (Hlen & _ & _).
    apply Hlen. discriminate.
  - destruct (get_allen_mouse_ontology_first_bad_row sample_header
                [["997"; ""; "FFFFFF"; "root"; "root"]]
                ["x8"; "997"; "BFDAE3"; "grey"; "grey"]
                sample_rows sample_root_row_ok) as (_ & _ & Hid).
    apply (Hid 0%nat "x8"); reflexivity.
  - exact no_rows_ok.
  - destruct (get_allen_mouse_ontology_first_bad_row ["name"; "acronym"]
                [] ["root"; "root"] [] no_rows_ok) as (_ & Hattr & _).
    apply Hattr; [reflexivity|].
    intros Hin. elem_inv; discriminate.
Defined.

(** ** Sets of hashable values *)

Lemma py_key_eqb_eq (a b : pyval) :
  py_hashable a = true → py_key_eqb a b = true ↔ a = b.
Proof.
  destruct a as [s|z| |]; try discriminate; intros _;
    destruct b as [t|y| |]; simpl;
    try (split; [discriminate|by intros [=]]).
  - rewrite bool_decide_eq_true. split; [by intros ->|by intros [=]].
  - rewrite bool_decide_eq_true. split; [by intros ->|by intros [=]].
Qed.

Lemma existsb_key_elem (x : pyval) (s : list pyval) :
  py_hashable x = true → existsb (py_key_eqb x) s = true ↔ x ∈ s.
Proof.
  intros Hx. rewrite existsb_exists. split.
  - intros (y & Hy%list_elem_of_In & Heq). by apply py_key_eqb_eq in Heq as ->.
  - intros Hin. exists x. split; [by apply list_elem_of_In|].
    by apply py_key_eqb_eq.
Qed.

Lemma key_set_add_elem (x y : pyval) (s : list pyval) :
  py_hashable x = true → y ∈ set_add py_key_eqb x s ↔ y ∈ s ∨ y = x.
Proof.
  intros Hx. unfold set_add. destruct (existsb (py_key_eqb x) s) eqn:Hex.
  - apply existsb_key_elem in Hex; [|done]. split; [tauto|]. by intros [?| ->].
  - by rewrite elem_of_app, list_elem_of_singleton.
Qed.

Lemma key_set_add_NoDup (x : pyval) (s : list pyval) :
  py_hashable x = true → NoDup s → NoDup (set_add py_key_eqb x s).
Proof.
  intros Hx Hs. unfold set_add.
  destruct (existsb (py_key_eqb x) s) eqn:Hex; [done|].
  apply NoDup_app. split_and!; [done| |apply NoDup_singleton].
  intros y Hy ->%list_elem_of_singleton.
  apply (existsb_key_elem _ _ Hx) in Hy. congruence.
Qed.

Lemma py_set_items_spec (l acc : list pyval) :
  Forall (λ x, py_hashable x = true) l → NoDup acc →
  ∃ v, for_each l acc (λ s x, py_set_add x s) = Ok v
       ∧ NoDup v ∧ ∀ x, x ∈ v ↔ x ∈ acc ∨ x ∈ l.
Proof.
  intros Hl. revert acc. induction Hl as [|y l Hy Hl IH]; intros acc Hacc.
  - exists acc. split_and!; [done|done|]. intros x. rewrite elem_of_nil. tauto.
  - simpl. unfold py_set_add at 2. rewrite Hy, bind_Ok.
    destruct (IH (set_add py_key_eqb y acc)) as (v & Hv & Hnd & Hin);
      [by apply key_set_add_NoDup|].
    exists v. split_and!; [done|done|].
    intros x. rewrite Hin, key_set_add_elem, elem_of_cons by done. tauto.
Qed.

Lemma py_set_list_spec (l : list pyval) :
  Forall (λ x, py_hashable x = true) l →
  ∃ v, py_set (VList l) = Ok v ∧ NoDup v ∧ ∀ x, x ∈ v ↔ x ∈ l.
Proof.
  intros Hl. unfold py_set, py_iter. rewrite bind_Ok.
  destruct (py_set_items_spec l [] Hl (NoDup_nil_2 (A := pyval)))
    as (v & Hv & Hnd & Hin).
  exists v. split_and!; [done|done|].
  intros x. rewrite Hin, elem_of_nil. tauto.
Qed.

Lemma elem_hashable (x : pyval) (l : list pyval) :
  Forall (λ x, py_hashable x = true) l → x ∈ l → py_hashable x = true.
Proof. intros Hl Hx. rewrite Forall_forall in Hl. by apply Hl. Qed.

(** ** The two halves of the merge *)

Section groups_more.
Variable set_order : list pyval → list pyval.
Hypothesis set_order_perm : set_order_spec set_order.

Lemma add_members_to_group_halves (s m : node) (s' : node) :
  (if dict_mem "members" s then
     members ← dict_get "members" s;
     v ← py_set members;
     m_id ← dict_get "@id" m;
     v ← py_set_add m_id v;
     Ok (dict_set "members" (VList (set_order v)) s)
   else
     m_id ← dict_get "@id" m;
     Ok (dict_set "members" (VList [m_id]) s))
  = Ok s' →
  add_members_to_group set_order s m = merge_group_tag set_order s'.
Proof. intros Hm. unfold add_members_to_group. by rewrite Hm. Qed.

(** The first half: the members become a set that holds the new member. *)
Lemma add_member_set (s m : node) (i : pyval) :
  members_ok s → dict_find "@id" m = Some i → py_hashable i = true →
  ∃ ms,
    (if dict_mem "members" s then
       members ← dict_get "members" s;
       v ← py_set members;
       m_id ← dict_get "@id" m;
       v ← py_set_add m_id v;
       Ok (dict_set "members" (VList (set_order v)) s)
     else
       m_id ← dict_get "@id" m;
       Ok (dict_set "members" (VList [m_id]) s))
    = Ok (dict_set "members" (VList ms) s)
    ∧ NoDup ms
    ∧ (∀ x, x ∈ ms ↔ x = i ∨ x ∈ members_of s)
    ∧ (dict_find "members" s = None → ms = [i]).
Proof.
  intros Hs Hi Hhash. unfold dict_mem, dict_get, members_of. rewrite Hi.
  destruct (dict_find "members" s) as [v|] eqn:Hm.
  - destruct (Hs v Hm) as (l & -> & Hl).
    destruct (py_set_list_spec l Hl) as (v & Hv & Hnd & Hin).
    rewrite !bind_Ok, Hv, !bind_Ok. unfold py_set_add. rewrite Hhash, bind_Ok.
    eexists. split_and!; [reflexivity| | |discriminate].
    + rewrite (set_order_perm _). by apply key_set_add_NoDup.
    + intros x. rewrite (set_order_perm _), key_set_add_elem, Hin by done.
      tauto.
  - rewrite bind_Ok. exists [i]. split_and!; [reflexivity| | |done].
    + apply NoDup_singleton.
    + intros x. rewrite list_elem_of_singleton, elem_of_nil. tauto.
Qed.

(** The second half, by the type tags the node has. *)
Lemma merge_group_tag_absent (s : node) :
  dict_find "@type" s = None →
  merge_group_tag set_order s = Ok (dict_set "@type" (VStr "Group") s).
Proof. intros Ht. unfold merge_group_tag, dict_mem. by rewrite Ht. Qed.

Lemma merge_group_tag_str (s : node) (t : string) :
  dict_find "@type" s = Some (VStr t) →
  merge_group_tag set_order s
  = Ok (if bool_decide (t = "Group") then s
        else dict_set "@type" (VList [VStr t; VStr "Group"]) s).
Proof.
  intros Ht. unfold merge_group_tag, dict_mem, dict_get. rewrite Ht. simpl.
  by destruct (bool_decide (t = "Group")).
Qed.

Lemma merge_group_tag_list (s : node) (l : list pyval) :
  dict_find "@type" s = Some (VList l) →
  Forall (λ x, py_hashable x = true) l →
  (VStr "Group" ∈ l → merge_group_tag set_order s = Ok s)
  ∧ (VStr "Group" ∉ l →
     ∃ tags, merge_group_tag set_order s
             = Ok (dict_set "@type" (VList tags) s)
             ∧ NoDup tags
             ∧ ∀ x, x ∈ tags ↔ x ∈ l ∨ x = VStr "Group").
Proof.
  intros Ht Hl. unfold merge_group_tag, dict_mem, dict_get. rewrite Ht. simpl.
  destruct (py_set_list_spec l Hl) as (v & Hv & Hnd & Hin).
  rewrite Hv, bind_Ok. split.
  - intros Hg. apply Hin in Hg.
    apply (existsb_key_elem (VStr "Group")) in Hg; [|done]. by rewrite Hg.
  - intros Hg.
    destruct (existsb (py_key_eqb (VStr "Group")) v) eqn:Hex.
    { apply existsb_key_elem in Hex; [|done]. by apply Hin in Hex. }
    eexists. split_and!; [reflexivity| |].
    + rewrite (set_order_perm _). by apply key_set_add_NoDup.
    + intros x. rewrite (set_order_perm _), key_set_add_elem, Hin by done.
      tauto.
Qed.

(** The second half returns for every node whose type tags it can work on,
    leaves all fields but [@type] alone, and the tags it leaves it leaves
    again. *)
Lemma merge_group_tag_ok (s : node) :
  type_ok s →
  ∃ s1, merge_group_tag set_order s = Ok s1
        ∧ (∀ f, f ≠ "@type" → dict_find f s1 = dict_find f s)
        ∧ type_ok s1
        ∧ ((dict_find "@type" s1 = Some (VStr "Group"))
           ∨ ∃ tags, dict_find "@type" s1 = Some (VList tags)
                     ∧ VStr "Group" ∈ tags).
Proof.
  intros Hs. destruct (dict_find "@type" s) as [t|] eqn:Ht.
  - destruct (Hs t Ht) as [[x ->]|(l & -> & Hl)].
    + rewrite (merge_group_tag_str s x Ht).
      destruct (bool_decide (x = "Group")) eqn:Hx.
      * apply bool_decide_eq_true in Hx as ->.
        exists s. split_and!; [done|done|done|by left].
      * eexists. split_and!; [reflexivity| | |].
        -- intros f Hf. by rewrite dict_find_set_ne.
        -- intros t. rewrite dict_find_set_eq. intros [= <-]. right.
           eexists. split; [reflexivity|]. by repeat constructor.
        -- right. eexists. rewrite dict_find_set_eq. split; [reflexivity|].
           by right; left.
    + destruct (merge_group_tag_list s l Ht Hl) as [Hin Hnin].
      destruct (existsb (py_key_eqb (VStr "Group")) l) eqn:Hex.
      * apply existsb_key_elem in Hex; [|done].
        rewrite (Hin Hex). exists s. split_and!; [done|done|done|].
        right. by exists l.
      * assert (Hg : VStr "Group" ∉ l).
        { intros Hg. apply (existsb_key_elem (VStr "Group")) in Hg; [|done].
          congruence. }
        destruct (Hnin Hg) as (tags & -> & Hnd & Htags).
        eexists. split_and!; [reflexivity| | |].
        -- intros f Hf. by rewrite dict_find_set_ne.
        -- intros t. rewrite dict_find_set_eq. intros [= <-]. right.
           exists tags. split; [reflexivity|].
           apply Forall_forall. intros x [Hx| ->]%Htags; [|done].
           by apply (elem_hashable x l).
        -- right. exists tags. rewrite dict_find_set_eq. split; [reflexivity|].
           apply Htags. by right.
  - rewrite (merge_group_tag_absent s Ht). eexists.
    split_and!; [reflexivity| | |].
    + intros f Hf. by rewrite dict_find_set_ne.
    + intros t. rewrite dict_find_set_eq. intros [= <-]. left. by eexists.
    + left. apply dict_find_set_eq.
Qed.

Lemma merge_group_tag_done (s : node) :
  type_ok s →
  (dict_find "@type" s = Some (VStr "Group"))
  ∨ (∃ tags, dict_find "@type" s = Some (VList tags) ∧ VStr "Group" ∈ tags) →
  merge_group_tag set_order s = Ok s.
Proof.
  intros Hs [Ht|(tags & Ht & Hg)].
  - by rewrite (merge_group_tag_str s "Group" Ht).
  - destruct (Hs _ Ht) as [[x [=]]|(l & [= <-] & Hl)].
    by apply (merge_group_tag_list s tags Ht Hl).
Qed.

Lemma type_ok_set_members (s : node) (v : pyval) :
  type_ok s → type_ok (dict_set "members" v s).
Proof. intros Hs t. rewrite dict_find_set_ne by done. apply Hs. Qed.

(** X18: the merge keeps the members of a node as a set: it returns for a
    node whose members, if any, are a list of hashable values and whose type
    tags are a string or such a list, and then the members are a list without
    repetition of the [@id] of the new member and the members the node had;
    a node without [members] gets the one member; all fields but [members]
    and [@type] stay as they were. *)
Theorem add_members_to_group_members (s m : node) (i : pyval) :
  members_ok s → type_ok s →
  dict_find "@id" m = Some i → py_hashable i = true →
  ∃ s1 ms,
    add_members_to_group set_order s m = Ok s1
    ∧ dict_find "members" s1 = Some (VList ms)
    ∧ NoDup ms
    ∧ (∀ x, x ∈ ms ↔ x = i ∨ x ∈ members_of s)
    ∧ (dict_find "members" s = None → ms = [i])
    ∧ (∀ f, f ≠ "members" → f ≠ "@type" → dict_find f s1 = dict_find f s).
Proof.
  intros Hs Ht Hi Hhash.
  destruct (add_member_set s m i Hs Hi Hhash) as (ms & Hadd & Hnd & Hin & Hone).
  rewrite (add_members_to_group_halves s m _ Hadd).
  destruct (merge_group_tag_ok (dict_set "members" (VList ms) s))
    as (s1 & -> & Hkeep & _); [by apply type_ok_set_members|].
  exists s1, ms. split_and!; [done| |done|done|done|].
  - rewrite Hkeep by done. apply dict_find_set_eq.
  - intros f Hf Hf'. rewrite Hkeep by done. by apply dict_find_set_ne.
Qed.

(** X19: how the merge tags a node, by the [@type] it has: none becomes
    ["Group"]; ["Group"] stays; another string [t] becomes the list
    [[t; "Group"]]; a list of hashable values that holds ["Group"] stays as
    it is, repetitions included; any other such list becomes a list without
    repetition of its values and ["Group"]. *)
Theorem add_members_to_group_type_policy (s m : node) :
  members_ok s → has_hashable_id m →
  (dict_find "@type" s = None →
   ∃ s1, add_members_to_group set_order s m = Ok s1
         ∧ dict_find "@type" s1 = Some (VStr "Group"))
  ∧ (∀ t, dict_find "@type" s = Some (VStr t) →
       ∃ s1, add_members_to_group set_order s m = Ok s1
             ∧ dict_find "@type" s1
               = Some (if bool_decide (t = "Group") then VStr "Group"
                       else VList [VStr t; VStr "Group"]))
  ∧ (∀ l, dict_find "@type" s = Some (VList l) →
       Forall (λ x, py_hashable x = true) l →
       (VStr "Group" ∈ l →
        ∃ s1, add_members_to_group set_order s m = Ok s1
              ∧ dict_find "@type" s1 = Some (VList l))
       ∧ (VStr "Group" ∉ l →
          ∃ s1 tags, add_members_to_group set_order s m = Ok s1
                     ∧ dict_find "@type" s1 = Some (VList tags)
                     ∧ NoDup tags
                     ∧ ∀ x, x ∈ tags ↔ x ∈ l ∨ x = VStr "Group")).
Proof.
  intros Hs (i & Hi & Hhash).
  destruct (add_member_set s m i Hs Hi Hhash) as (ms & Hadd & _).
  rewrite (add_members_to_group_halves s m _ Hadd).
  set (s' := dict_set "members" (VList ms) s).
  assert (Hsame : dict_find "@type" s' = dict_find "@type" s)
    by (by apply dict_find_set_ne).
  split_and!.
  - intros Ht. rewrite Ht in Hsame.
    rewrite (merge_group_tag_absent s' Hsame). eexists.
    split; [reflexivity|apply dict_find_set_eq].
  - intros t Ht. rewrite Ht in Hsame.
    rewrite (merge_group_tag_str s' t Hsame). eexists. split; [reflexivity|].
    destruct (bool_decide (t = "Group")) eqn:Hx.
    + apply bool_decide_eq_true in Hx as ->. done.
    + apply dict_find_set_eq.
  - intros l Ht Hl. rewrite Ht in Hsame.
    destruct (merge_group_tag_list s' l Hsame Hl) as [Hin Hnin]. split.
    + intros Hg. rewrite (Hin Hg). by exists s'.
    + intros Hg. destruct (Hnin Hg) as (tags & -> & Hnd & Htags).
      eexists _, tags. split_and!; [reflexivity| |done|done].
      apply dict_find_set_eq.
Qed.

(** X20: merging the same member a second time changes nothing but the
    order of the members: the second merge returns, the type tags are those
    the first merge left, the members are the same up to their order, and
    every other field is as it was. *)
Theorem add_members_to_group_twice (s m : node) :
  members_ok s → type_ok s → has_hashable_id m →
  ∃ s1 s2 ms1 ms2,
    add_members_to_group set_order s m = Ok s1
    ∧ add_members_to_group set_order s1 m = Ok s2
    ∧ dict_find "@type" s2 = dict_find "@type" s1
    ∧ dict_find "members" s1 = Some (VList ms1)
    ∧ dict_find "members" s2 = Some (VList ms2)
    ∧ ms2 ≡ₚ ms1
    ∧ ∀ f, f ≠ "members" → dict_find f s2 = dict_find f s1.
Proof.
  intros Hs Ht (i & Hi & Hhash).
  destruct (add_member_set s m i Hs Hi Hhash)
    as (ms1 & Hadd & Hnd1 & Hin1 & _).
  destruct (merge_group_tag_ok (dict_set "members" (VList ms1) s))
    as (s1 & Hmerge & Hkeep & Ht1 & Hdone); [by apply type_ok_set_members|].
  assert (Hfirst : add_members_to_group set_order s m = Ok s1).
  { by rewrite (add_members_to_group_halves s m _ Hadd). }
  assert (Hm1 : dict_find "members" s1 = Some (VList ms1)).
  { rewrite Hkeep by done. apply dict_find_set_eq. }
  assert (Hh1 : Forall (λ x, py_hashable x = true) ms1).
  { apply Forall_forall. intros x [->|Hx]%Hin1; [done|].
    unfold members_of in Hx.
    destruct (dict_find "members" s) as [v|] eqn:Hv;
      [|by apply elem_of_nil in Hx].
    destruct (Hs v Hv) as (l & -> & Hl). by apply (elem_hashable x l). }
  assert (Hs1 : members_ok s1).
  { intros v. rewrite Hm1. intros [= <-]. eauto. }
  destruct (add_member_set s1 m i Hs1 Hi Hhash)
    as (ms2 & Hadd2 & Hnd2 & Hin2 & _).
  set (s1' := dict_set "members" (VList ms2) s1).
  assert (Hsame : dict_find "@type" s1' = dict_find "@type" s1)
    by (by apply dict_find_set_ne).
  assert (Hsecond : add_members_to_group set_order s1 m = Ok s1').
  { rewrite (add_members_to_group_halves s1 m _ Hadd2).
    apply merge_group_tag_done; [by apply type_ok_set_members|].
    fold s1'. by rewrite Hsame. }
  exists s1, s1', ms1, ms2.
  split_and!; [done|done|done|done|apply dict_find_set_eq| |].
  - apply NoDup_Permutation; [done|done|].
    intros x. rewrite Hin2. unfold members_of. rewrite Hm1, Hin1.
    split; [|tauto]. intros [->|?]; [|done]. by left.
  - intros f Hf. by apply dict_find_set_ne.
Qed.
End groups_more.

Lemma ids_of_spec (nodes : list node) (ids : list pyval) :
  Forall2 (λ n i, dict_find "@id" n = Some i) nodes ids →
  ids_of nodes = Ok ids.
Proof.
  unfold ids_of. induction 1 as [|n i nodes ids Hn _ IH]; [reflexivity|].
  cbn [list_comp]. rewrite IH. unfold dict_get. by rewrite Hn.
Qed.

(** X21: [Group] lists the [@id]s of its children as they come, repeated
    if a child is; merging a member into the group it returns keeps the
    type ["Group"] and makes the members a list without repetition of the
    [@id] of the member and the [@id]s of the children. *)
Theorem Group_then_add_member (set_order : list pyval → list pyval)
    (id_ : string) (children : list node) (color : string)
    (annotation : pyval) (ids : list pyval) (m : node) (i : pyval) :
  set_order_spec set_order →
  Forall2 (λ n x, dict_find "@id" n = Some x) children ids →
  Forall (λ x, py_hashable x = true) ids →
  dict_find "@id" m = Some i → py_hashable i = true →
  ∃ g g1 ms,
    Group id_ children color annotation = Ok g
    ∧ dict_find "members" g = Some (VList ids)
    ∧ add_members_to_group set_order g m = Ok g1
    ∧ dict_find "@type" g1 = Some (VStr "Group")
    ∧ dict_find "members" g1 = Some (VList ms)
    ∧ NoDup ms
    ∧ ∀ x, x ∈ ms ↔ x = i ∨ x ∈ ids.
Proof.
  intros Hperm Hids Hhash Hi Hih.
  set (g := [("@id", VStr id_); ("@type", VStr "Group");
             ("annotation", annotation);
             ("style", VDict [("color", VStr color)]);
             ("members", VList ids)]).
  assert (Hgroup : Group id_ children color annotation = Ok g).
  { unfold Group. by rewrite (ids_of_spec children ids Hids), bind_Ok. }
  assert (Hg : members_ok g).
  { intros v [= <-]. eauto. }
  destruct (add_member_set set_order Hperm g m i Hg Hi Hih)
    as (ms & Hadd & Hnd & Hin & _).
  assert (Hmerge : add_members_to_group set_order g m
                   = Ok (dict_set "members" (VList ms) g)).
  { rewrite (add_members_to_group_halves set_order g m _ Hadd).
    by rewrite (merge_group_tag_str set_order _ "Group") by reflexivity. }
  exists g, (dict_set "members" (VList ms) g), ms.
  split_and!; [done|reflexivity|done|reflexivity|reflexivity|done|done].
Qed.

Lemma sample_tagged_members_ok : members_ok sample_tagged.
Proof.
  intros v [= <-]. eexists. split; [reflexivity|]. by repeat constructor.
Qed.

Lemma sample_tagged_type_ok : type_ok sample_tagged.
Proof.
  intros t [= <-]. right. eexists. split; [reflexivity|].
  by repeat constructor.
Qed.

Lemma sample_structure_hashable_id : has_hashable_id sample_structure.
Proof. eexists. split; reflexivity. Qed.

Lemma add_members_to_group_members_witness :
  members_ok sample_tagged ∧ type_ok sample_tagged
  ∧ dict_find "@id" sample_structure = Some (VStr "#structure_997")
  ∧ ∃ s1 ms,
      add_members_to_group insertion_order sample_tagged sample_structure
      = Ok s1
      ∧ dict_find "members" s1 = Some (VList ms)
      ∧ NoDup ms
      ∧ (∀ x, x ∈ ms ↔ x = VStr "#structure_997" ∨ x ∈ members_of sample_tagged)
      ∧ (dict_find "members" sample_tagged = None
         → ms = [VStr "#structure_997"])
      ∧ (∀ f, f ≠ "members" → f ≠ "@type" →
           dict_find f s1 = dict_find f sample_tagged).
Proof.
  split_and!;
    [exact sample_tagged_members_ok|exact sample_tagged_type_ok|reflexivity|].
  apply (add_members_to_group_members insertion_order insertion_order_set
           sample_tagged sample_structure (VStr "#structure_997")
           sample_tagged_members_ok sample_tagged_type_ok);
    reflexivity.
Defined.

Lemma add_members_to_group_type_policy_witness :
  (∃ s1, add_members_to_group insertion_order sample_member sample_structure
         = Ok s1
         ∧ dict_find "@type" s1
           = Some (VList [VStr "Structure"; VStr "Group"]))
  ∧ (VStr "Group" ∉ [VStr "Structure"; VStr "Structure"])
  ∧ ∃ s1 tags,
      add_members_to_group insertion_order sample_tagged sample_structure
      = Ok s1
      ∧ dict_find "@type" s1 = Some (VList tags)
      ∧ NoDup tags
      ∧ ∀ x, x ∈ tags
             ↔ x ∈ [VStr "Structure"; VStr "Structure"] ∨ x = VStr "Group".
Proof.
  assert (Hg : VStr "Group" ∉ [VStr "Structure"; VStr "Structure"]).
  { intros Hin. elem_inv; discriminate. }
  split_and!; [|exact Hg|].
  - destruct (add_members_to_group_type_policy insertion_order
                insertion_order_set sample_member sample_structure)
      as (_ & Hstr & _).
    + intros v [=].
    + exact sample_structure_hashable_id.
    + apply (Hstr "Structure"). reflexivity.
  - destruct (add_members_to_group_type_policy insertion_order
                insertion_order_set sample_tagged sample_structure
                sample_tagged_members_ok sample_structure_hashable_id)
      as (_ & _ & Hlist).
    destruct (Hlist [VStr "Structure"; VStr "Structure"]) as [_ Hnew].
    + reflexivity.
    + by repeat constructor.
    + exact (Hnew Hg).
Defined.

Lemma add_members_to_group_twice_witness :
  members_ok sample_tagged ∧ type_ok sample_tagged
  ∧ has_hashable_id sample_structure
  ∧ ∃ s1 s2 ms1 ms2,
      add_members_to_group insertion_order sample_tagged sample_structure
      = Ok s1
      ∧ add_members_to_group insertion_order s1 sample_structure = Ok s2
      ∧ dict_find "@type" s2 = dict_find "@type" s1
      ∧ dict_find "members" s1 = Some (VList ms1)
      ∧ dict_find "members" s2 = Some (VList ms2)
      ∧ ms2 ≡ₚ ms1
      ∧ ∀ f, f ≠ "members" → dict_find f s2 = dict_find f s1.
Proof.
  split_and!;
    [exact sample_tagged_members_ok|exact sample_tagged_type_ok
    |exact sample_structure_hashable_id|].
  apply (add_members_to_group_twice insertion_order insertion_order_set
           sample_tagged sample_structure sample_tagged_members_ok
           sample_tagged_type_ok sample_structure_hashable_id).
Defined.

Lemma Group_then_add_member_witness :
  set_order_spec insertion_order
  ∧ ∃ g g1 ms,
      Group "#group_997" sample_group_children "#FFFFFF" (VDict []) = Ok g
      ∧ dict_find "members" g
        = Some (VList [VStr "#structure_8"; VStr "#structure_8"])
      ∧ add_members_to_group insertion_order g sample_structure = Ok g1
      ∧ dict_find "@type" g1 = Some (VStr "Group")
      ∧ dict_find "members" g1 = Some (VList ms)
      ∧ NoDup ms
      ∧ ∀ x, x ∈ ms ↔ x = VStr "#structure_997"
                      ∨ x ∈ [VStr "#structure_8"; VStr "#structure_8"].
Proof.
  split; [exact insertion_order_set|].
  apply (Group_then_add_member insertion_order "#group_997"
           sample_group_children "#FFFFFF" (VDict [])
           [VStr "#structure_8"; VStr "#structure_8"] sample_structure
           (VStr "#structure_997") insertion_order_set).
  - by repeat constructor.
  - by repeat constructor.
  - reflexivity.
  - reflexivity.
Defined.

(** ** The script: from the two downloads to the document *)

Lemma zip_cell (header row : list string) (f : string) :
  length row = length header → f ∈ header →
  ∃ text, (f, text) ∈ zip header row.
Proof.
  intros Hlen [i Hi]%list_elem_of_lookup_1.
  destruct (lookup_lt_is_Some_2 row i) as [text Ht].
  { rewrite Hlen. by apply lookup_lt_is_Some_1; eauto. }
  exists text. apply (list_elem_of_lookup_2 _ i).
  rewrite lookup_zip_with, Hi. simpl. by rewrite Ht.
Qed.

Lemma stored_rows_key (header : list string) (rows : list (list string))
    (row : list string) (key : Z) :
  row ∈ rows → row_key header row = Some key →
  key ∈ dict_keys (fold_left (store_row header) rows []).
Proof.
  intros Hrow Hkey. apply dict_find_is_Some. rewrite stored_rows_find.
  destruct (last _) as [row'|] eqn:Hlast; [by eauto|].
  apply last_None in Hlast.
  assert (Hin : In row
                  (List.filter
                     (λ row, bool_decide (row_key header row = Some key))
                     rows)).
  { apply filter_In. split; [by apply list_elem_of_In|].
    by apply bool_decide_eq_true. }
  rewrite Hlast in Hin. destruct Hin.
Qed.

(** An entry of the mapping loaded from a table the loader accepts. *)
Lemma loaded_entry (header : list string) (rows : list (list string))
    (k : Z) (e : node) :
  well_formed_table header rows →
  (k, e) ∈ fold_left (store_row header) rows [] →
  ∃ row, row ∈ rows ∧ length row = length header
         ∧ row_key header row = Some k ∧ e = row_record header row.
Proof.
  intros [_ Hrows] Hin.
  destruct (stored_rows_entry header rows k e Hin)
    as (rows1 & row & rows2 & -> & Hk & _ & ->).
  apply Forall_app in Hrows as [_ Hrows].
  apply Forall_cons in Hrows as [[Hlen _] _].
  exists row. split_and!; try done.
  apply elem_of_app. right. by left.
Qed.

Lemma loaded_unlinked (header : list string) (rows : list (list string)) :
  well_formed_table header rows → "child_structure_ids" ∉ header →
  unlinked (fold_left (store_row header) rows []).
Proof.
  intros Hwf Hcol k e Hin.
  destruct (loaded_entry header rows k e Hwf Hin) as (row & _ & Hlen & _ & ->).
  apply dict_find_None. by rewrite row_record_keys.
Qed.

Lemma loaded_indexed (header : list string) (rows : list (list string)) :
  well_formed_table header rows →
  indexed_by_id (fold_left (store_row header) rows []).
Proof.
  intros Hwf k e Hin.
  destruct (loaded_entry header rows k e Hwf Hin) as (row & _ & _ & Hk & ->).
  by apply row_record_id.
Qed.

Lemma loaded_parents (header : list string) (rows : list (list string)) :
  well_formed_table header rows → "parent_structure_id" ∈ header →
  table_parents_resolve header rows →
  parents_resolve (fold_left (store_row header) rows []).
Proof.
  intros Hwf Hcol Hparents k e Hin.
  destruct (loaded_entry header rows k e Hwf Hin)
    as (row & Hrow & Hlen & _ & ->).
  destruct (zip_cell header row "parent_structure_id" Hlen Hcol)
    as [text Hcell].
  rewrite (row_record_cell header row _ text)
    by (by try apply namedtuple_fields_NoDup, Hwf).
  destruct (Hparents row text Hrow Hcell) as [->|(p & row' & Hp & Hrow' & Hk)].
  - left. reflexivity.
  - right. exists p. split.
    + unfold possibly_int. by rewrite Hp.
    + by apply (stored_rows_key header rows row').
Qed.

Lemma loaded_resolves (header : list string) (rows : list (list string))
    (row : list string) (mid : Z) :
  well_formed_table header rows →
  (∀ f, f ∈ ["color_hex_triplet"; "safe_name"; "acronym"] → f ∈ header) →
  row ∈ rows → row_key header row = Some mid →
  resolves (fold_left (store_row header) rows []) mid.
Proof.
  intros Hwf Hcols Hrow Hkey.
  pose proof (stored_rows_key header rows row mid Hrow Hkey) as Hin.
  apply dict_find_is_Some in Hin as [e He].
  exists e. split; [done|].
  apply dict_find_Some_elem in He.
  destruct (loaded_entry header rows mid e Hwf He)
    as (row' & _ & Hlen & Hk & ->).
  assert (Hnd : NoDup header) by apply namedtuple_fields_NoDup, Hwf.
  assert (Hfield : ∀ f, f ∈ header →
            is_Some (dict_find f (row_record header row'))).
  { intros f Hf. destruct (zip_cell header row' f Hlen Hf) as [text Hcell].
    rewrite (row_record_cell header row' f text) by done. eauto. }
  unfold entry_complete. split_and!.
  - apply Hfield, Hcols. by left.
  - apply Hfield, Hcols. by right; left.
  - apply Hfield, Hcols. by right; right; left.
  - rewrite (row_record_id header row' mid Hk). eauto.
Qed.

Section script.
Variable db : unicode_db.
Variable py_repr : pyval → string.
Variable names_order : list text → list text.

Lemma build_atlas_grown (ontology linked : odict Z node) (ids : list Z) :
  grown_mapping ontology linked →
  build_atlas py_repr linked ids = build_atlas py_repr ontology ids.
Proof.
  intros Hg. rewrite !build_atlas_unfold.
  rewrite (for_each_ext ids _ _
             (λ structures mid,
                s ← structure_of py_repr ontology mid;
                Ok (dict_set mid s structures))); [reflexivity|].
  intros st mid _. by rewrite (structure_of_grown py_repr ontology linked).
Qed.

(** X22: the script returns the document for a table the loader accepts
    that has the columns read, has no column [child_structure_ids], names as
    parent nothing or the key of a row, and has a row for every mesh ID
    found, 997 being one of them.  The document is that of the distinct mesh
    IDs in the order they were found, made from the mapping as loaded. *)
Theorem main_returns (header : list string) (rows : list (list string))
    (lines : list text) (ids : list Z) :
  well_formed_table header rows →
  "child_structure_ids" ∉ header →
  (∀ f, f ∈ ["parent_structure_id"; "color_hex_triplet"; "safe_name";
             "acronym"] → f ∈ header) →
  table_parents_resolve header rows →
  get_mesh_ids db names_order lines = Ok ids →
  (∀ mid, mid ∈ ids → ∃ row, row ∈ rows ∧ row_key header row = Some mid) →
  997 ∈ ids →
  ∃ ontology,
    get_allen_mouse_ontology (header :: rows) = Ok ontology
    ∧ main db py_repr names_order (header :: rows) lines
      = Ok (atlas_nodes py_repr ontology (first_occurrences [] ids)).
Proof.
  intros Hwf Hchild Hcols Hparents Hids Hrows Hroot.
  set (ontology := fold_left (store_row header) rows []).
  assert (Hload : get_allen_mouse_ontology (header :: rows) = Ok ontology)
    by (by apply get_allen_mouse_ontology_Ok).
  exists ontology. split; [done|].
  assert (Hlink : find_children ontology
                  = Ok (link_children ontology ontology)).
  { apply find_children_link.
    - apply stored_rows_ok, NoDup_nil_2.
    - by apply loaded_unlinked.
    - by apply loaded_indexed.
    - apply loaded_parents; [done| |done]. apply Hcols. by left. }
  unfold main. rewrite Hload, bind_Ok, Hlink, bind_Ok, Hids, bind_Ok.
  rewrite (build_atlas_grown ontology) by (by apply find_children_grown).
  apply build_atlas_Ok; [|done].
  intros mid Hmid. apply structure_of_Ok_iff.
  destruct (Hrows mid Hmid) as (row & Hrow & Hkey).
  apply (loaded_resolves header rows row); [done| |done|done].
  intros f Hf. apply Hcols. by right.
Qed.

(** X23: a document the script returns is made from the mapping as loaded:
    the links the linker adds do not appear in it.  The table was one the
    loader accepts, 997 was among the mesh IDs found, every mesh ID found
    is the key of a row of the table, and the document has 14 nodes and six
    for every distinct mesh ID. *)
Theorem main_document (csv_rows : list (list string)) (lines : list text)
    (nodes : list node) :
  main db py_repr names_order csv_rows lines = Ok nodes →
  ∃ header rows ontology ids,
    csv_rows = header :: rows
    ∧ well_formed_table header rows
    ∧ get_allen_mouse_ontology csv_rows = Ok ontology
    ∧ get_mesh_ids db names_order lines = Ok ids
    ∧ 997 ∈ ids
    ∧ (∀ mid, mid ∈ ids →
         ∃ row, row ∈ rows ∧ row_key header row = Some mid)
    ∧ nodes = atlas_nodes py_repr ontology (first_occurrences [] ids)
    ∧ length nodes = (14 + 6 * length (first_occurrences [] ids))%nat.
Proof.
  unfold main. intros Hmain.
  apply bind_Ok_inv in Hmain as (ontology & Hload & Hmain).
  apply bind_Ok_inv in Hmain as (linked & Hlink & Hmain).
  apply bind_Ok_inv in Hmain as (ids & Hids & Hbuild).
  destruct csv_rows as [|header rows]; [discriminate|].
  pose proof (get_allen_mouse_ontology_Ok_inv _ _ _ Hload) as Hwf.
  rewrite (build_atlas_grown ontology linked) in Hbuild
    by (by apply find_children_grown).
  apply build_atlas_Ok_inv in Hbuild as (Hall & Hroot & ->).
  exists header, rows, ontology, ids.
  split_and!; [done|done|done|done|done| |done|].
  - intros mid Hmid. apply Hall, structure_of_Ok_iff in Hmid.
    destruct Hmid as (e & He & _). apply dict_find_Some_elem in He.
    rewrite (get_allen_mouse_ontology_Ok _ _ Hwf) in Hload.
    injection Hload as <-.
    destruct (loaded_entry header rows mid e Hwf He)
      as (row & Hrow & _ & Hk & _).
    by exists row.
  - unfold atlas_nodes. cbn [length]. rewrite !length_app, !length_map.
    rewrite length_concat_map_resolutions. simpl. lia.
Qed.
End script.

Lemma sample_table_parents : table_parents_resolve sample_header sample_rows.
Proof.
  intros row text Hrow Hcell. unfold sample_rows in Hrow.
  elem_inv; subst; simpl in Hcell; elem_inv; simplify_eq.
  - by left.
  - right. exists 997, ["997"; ""; "FFFFFF"; "root"; "root"].
    split_and!; [by vm_compute|by left|by vm_compute].
Qed.

Lemma sample_table_columns (f : string) :
  f ∈ ["parent_structure_id"; "color_hex_triplet"; "safe_name"; "acronym"] →
  f ∈ sample_header.
Proof.
  intros Hf. apply list_elem_of_In. elem_inv; subst; simpl; tauto.
Qed.

Lemma sample_table_rows (mid : Z) :
  mid ∈ [997; 8] →
  ∃ row, row ∈ sample_rows ∧ row_key sample_header row = Some mid.
Proof.
  intros Hmid. elem_inv; subst.
  - exists ["997"; ""; "FFFFFF"; "root"; "root"]. split; [by left|].
    by vm_compute.
  - exists ["8"; "997"; "BFDAE3"; "grey"; "grey"]. split; [by right; left|].
    by vm_compute.
Qed.

Lemma main_sample :
  main sample_db sample_repr insertion_order (sample_header :: sample_rows)
    sample_lines
  = Ok (atlas_nodes sample_repr sample_ontology [997; 8]).
Proof. by vm_compute. Qed.

Lemma main_returns_witness :
  well_formed_table sample_header sample_rows
  ∧ table_parents_resolve sample_header sample_rows
  ∧ get_mesh_ids sample_db insertion_order sample_lines = Ok [997; 8]
  ∧ ∃ ontology,
      get_allen_mouse_ontology (sample_header :: sample_rows) = Ok ontology
      ∧ main sample_db sample_repr insertion_order
          (sample_header :: sample_rows) sample_lines
        = Ok (atlas_nodes sample_repr ontology
                (first_occurrences [] [997; 8])).
Proof.
  split_and!;
    [exact sample_table_ok|exact sample_table_parents
    |exact sample_lines_mesh_ids|].
  apply (main_returns sample_db sample_repr insertion_order sample_header
           sample_rows sample_lines [997; 8] sample_table_ok).
  - intros Hin. unfold sample_header in Hin. elem_inv; discriminate.
  - exact sample_table_columns.
  - exact sample_table_parents.
  - exact sample_lines_mesh_ids.
  - exact sample_table_rows.
  - by left.
Defined.

Lemma main_document_witness :
  main sample_db sample_repr insertion_order (sample_header :: sample_rows)
    sample_lines
  = Ok (atlas_nodes sample_repr sample_ontology [997; 8])
  ∧ ∃ header rows ontology ids,
      sample_header :: sample_rows = header :: rows
      ∧ well_formed_table header rows
      ∧ get_allen_mouse_ontology (sample_header :: sample_rows) = Ok ontology
      ∧ get_mesh_ids sample_db insertion_order sample_lines = Ok ids
      ∧ 997 ∈ ids
      ∧ (∀ mid, mid ∈ ids →
           ∃ row, row ∈ rows ∧ row_key header row = Some mid)
      ∧ atlas_nodes sample_repr sample_ontology [997; 8]
        = atlas_nodes sample_repr ontology (first_occurrences [] ids)
      ∧ length (atlas_nodes sample_repr sample_ontology [997; 8])
        = (14 + 6 * length (first_occurrences [] ids))%nat.
Proof.
  split; [exact main_sample|].
  apply (main_document sample_db sample_repr insertion_order
           (sample_header :: sample_rows) sample_lines).
  exact main_sample.
Defined.

(** ** The structure constructor *)

Lemma collect_ids (label_ds : list node) (ids acc : list pyval) :
  Forall2 (λ n x, dict_find "@id" n = Some x) label_ds ids →
  for_each label_ds acc (λ acc ds, i ← dict_get "@id" ds; Ok (acc ++ [i]))
  = Ok (acc ++ ids).
Proof.
  intros Hids. revert acc.
  induction Hids as [|n x label_ds ids Hn _ IH]; intros acc.
  - by rewrite app_nil_r.
  - cbn [for_each]. rewrite (dict_get_Some _ _ _ Hn), !bind_Ok, IH.
    by rewrite <- app_assoc.
Qed.

Lemma collect_ids_missing (label_ds : list node) (acc : list pyval) (n : node) :
  n ∈ label_ds → dict_find "@id" n = None →
  for_each label_ds acc (λ acc ds, i ← dict_get "@id" ds; Ok (acc ++ [i]))
  = Raise (KeyError (VStr "@id")).
Proof.
  intros Hin Hn. revert acc.
  induction label_ds as [|d label_ds IH]; intros acc;
    [by apply elem_of_nil in Hin|].
  cbn [for_each].
  destruct (dict_find "@id" d) as [x|] eqn:Hd.
  - rewrite (dict_get_Some _ _ _ Hd), !bind_Ok. apply IH.
    apply elem_of_cons in Hin as [->|Hin]; [congruence|done].
  - unfold dict_get. by rewrite Hd.
Qed.

(** X24: [Structure] lists in [shape.dataSource] the [@id] of the mesh data
    source, then the [@id]s of the label data sources in their order; it is
    typed [Structure], and [Group] too if asked; it raises [KeyError] for
    [@id] if the mesh data source or a label data source has none. *)
Theorem Structure_data_sources (id_ : string) (structure_id : Z)
    (color : string) (mesh_ds : node) (label_ds : list node)
    (is_group : bool) (annotation : option pyval) :
  (∀ mesh_id ids,
     dict_find "@id" mesh_ds = Some mesh_id →
     Forall2 (λ n x, dict_find "@id" n = Some x) label_ds ids →
     ∃ s,
       Structure id_ structure_id color mesh_ds label_ds is_group annotation
       = Ok s
       ∧ dict_find "@id" s = Some (VStr id_)
       ∧ dict_find "@type" s
         = Some (if is_group then VList [VStr "Structure"; VStr "Group"]
                 else VStr "Structure")
       ∧ dict_find "style" s = Some (VDict [("color", VStr color)])
       ∧ dict_find "shape" s
         = Some (VDict [("@type", VStr "Shape");
                        ("dataSource", VList (mesh_id :: ids))]))
  ∧ (dict_find "@id" mesh_ds = None
     ∨ (∃ n, n ∈ label_ds ∧ dict_find "@id" n = None) →
     Structure id_ structure_id color mesh_ds label_ds is_group annotation
     = Raise (KeyError (VStr "@id"))).
Proof.
  split.
  - intros mesh_id ids Hmesh Hids. unfold Structure.
    rewrite (dict_get_Some _ _ _ Hmesh), bind_Ok.
    rewrite (collect_ids label_ds ids [mesh_id] Hids), bind_Ok.
    cbv zeta. destruct annotation as [a|]; [destruct (py_truthy a)|];
      eexists; (split; [reflexivity|]); by destruct is_group.
  - intros Hmissing. unfold Structure.
    destruct (dict_find "@id" mesh_ds) as [mesh_id|] eqn:Hmesh.
    + destruct Hmissing as [[=]|(n & Hin & Hn)].
      rewrite (dict_get_Some _ _ _ Hmesh), bind_Ok.
      by rewrite (collect_ids_missing label_ds [mesh_id] n Hin Hn).
    + unfold dict_get. by rewrite Hmesh.
Qed.

Lemma Structure_data_sources_witness :
  dict_find "@id" (mesh_ds_node 8) = Some (VStr (id_string (KMesh 8)))
  ∧ Forall2 (λ n x, dict_find "@id" n = Some x)
      (map (mask_ds_node 8) resolutions)
      (map (λ r, VStr (id_string (KMask r 8))) resolutions)
  ∧ (∃ s,
       Structure "#structure_8" 8 "#BFDAE3" (mesh_ds_node 8)
         (map (mask_ds_node 8) resolutions) true None
       = Ok s
       ∧ dict_find "@id" s = Some (VStr "#structure_8")
       ∧ dict_find "@type" s = Some (VList [VStr "Structure"; VStr "Group"])
       ∧ dict_find "style" s = Some (VDict [("color", VStr "#BFDAE3")])
       ∧ dict_find "shape" s
         = Some (VDict [("@type", VStr "Shape");
                        ("dataSource",
                         VList (VStr (id_string (KMesh 8))
                                  :: map (λ r, VStr (id_string (KMask r 8)))
                                       resolutions))]))
  ∧ Structure "#structure_8" 8 "#BFDAE3" (mesh_ds_node 8) [[]] true None
    = Raise (KeyError (VStr "@id")).
Proof.
  assert (Hids : Forall2 (λ n x, dict_find "@id" n = Some x)
                   (map (mask_ds_node 8) resolutions)
                   (map (λ r, VStr (id_string (KMask r 8))) resolutions)).
  { unfold resolutions. simpl. by repeat constructor. }
  split_and!; [reflexivity|exact Hids| |].
  - destruct (Structure_data_sources "#structure_8" 8 "#BFDAE3"
                (mesh_ds_node 8) (map (mask_ds_node 8) resolutions) true None)
      as [Hok _].
    apply (Hok _ _ eq_refl Hids).
  - destruct (Structure_data_sources "#structure_8" 8 "#BFDAE3"
                (mesh_ds_node 8) [[]] true None) as [_ Hraise].
    apply Hraise. right. exists []. split; [by left|reflexivity].
Defined.
